(** * tezkorbetabot: membership-gated Telegram bots (main.py, main_bot_code.py)

    A shallow embedding of the two bot front ends.  Handlers are
    computations in a state-and-exception monad over a [World]: the
    persistent store, the per-user transient data and the trace of Bot API
    requests.  The Bot API, the completion service, the clock and the random
    source are an [Env] of oracles indexed by the number of requests made so
    far, so that every theorem holds for every behaviour of the outside.
    The [Env] also says what [int()] and SQLite make of a text that is no
    plain decimal number; plain decimal numbers are computed.  Tables with
    an INTEGER PRIMARY KEY are lists in ascending key order, the order in
    which SQLite returns their rows. *)

From Stdlib Require Import ZArith Lia Ascii String DecimalString DecimalZ DecimalPos.
From stdpp Require Import base option list gmap strings.

Local Open Scope string_scope.
Local Open Scope list_scope.
Local Open Scope Z_scope.

(** ** Python values used by both files *)

(** An exception object: its class name and what [str(e)] prints. *)
Record exn := Exn { exn_class : string; exn_str : string }.

(** [str(n)] *)
Definition py_str (z : Z) : string := NilZero.string_of_int (Z.to_int z).

(** The value of a plain decimal spelling: an optional [-] and one or
    more of the digits 0 to 9, leading zeros allowed.  [int()] of Python
    and the numeric conversion of SQLite both read such a text as this
    number. *)
Definition decimal_value (s : string) : option Z :=
  Z.of_int <$> NilZero.int_of_string s.

(** [str(x)] for a value that may be [None]. *)
Definition py_str_opt (o : option string) : string := default "None" o.

(** [s.split(sep)] for a one-character separator. *)
Fixpoint py_split (sep : ascii) (s : string) : list string :=
  match s with
  | EmptyString => [EmptyString]
  | String c s' =>
      if Ascii.eqb c sep then EmptyString :: py_split sep s'
      else match py_split sep s' with
           | [] => [String c EmptyString]
           | h :: t => String c h :: t
           end
  end.

(** [s[1:]] *)
Definition py_tail (s : string) : string :=
  match s with EmptyString => EmptyString | String _ s' => s' end.

(** [" ".join(xs)] *)
Definition py_join (sep : string) (xs : list string) : string := String.concat sep xs.

(** [s.replace('@', '')] *)
Fixpoint py_remove_char (c : ascii) (s : string) : string :=
  match s with
  | EmptyString => EmptyString
  | String a s' => if Ascii.eqb a c then py_remove_char c s' else String a (py_remove_char c s')
  end.

(** The characters for which [str.isspace()] holds, as the bytes of their
    UTF-8 encoding: U+0009 to U+000D, U+001C to U+001F, U+0020, U+0085,
    U+00A0, U+1680, U+2000 to U+200A, U+2028, U+2029, U+202F, U+205F and
    U+3000. *)
Definition whitespace : list (list ascii) :=
  (map (fun c => [c])
     ["009"; "010"; "011"; "012"; "013"; "028"; "029"; "030"; "031"; "032"]
   ++ [["194"; "133"]; ["194"; "160"]; ["225"; "154"; "128"]]
   ++ map (fun c => ["226"; "128"; c])
        ["128"; "129"; "130"; "131"; "132"; "133"; "134"; "135"; "136"; "137"; "138";
         "168"; "169"; "175"]
   ++ [["226"; "129"; "159"]; ["227"; "128"; "128"]])%char.

(** [l] without its prefix [p], when it has that prefix. *)
Fixpoint drop_prefix (p l : list ascii) : option (list ascii) :=
  match p, l with
  | [], _ => Some l
  | a :: p', b :: l' => if Ascii.eqb a b then drop_prefix p' l' else None
  | _ :: _, [] => None
  end.

(** [l] without the first of the patterns [ps] it starts with. *)
Definition drop_first_of (ps : list (list ascii)) (l : list ascii) : option (list ascii) :=
  head (omap (fun p => drop_prefix p l) ps).

(** At most [n] leading patterns are dropped; the length of [l] is
    enough for all of them. *)
Fixpoint drop_leading (ps : list (list ascii)) (n : nat) (l : list ascii) : list ascii :=
  match n with
  | O => l
  | S n' =>
      match drop_first_of ps l with
      | Some rest => drop_leading ps n' rest
      | None => l
      end
  end.

(** [s.lstrip()] *)
Definition py_lstrip (s : string) : string :=
  let l := list_ascii_of_string s in
  string_of_list_ascii (drop_leading whitespace (length l) l).

(** [s.rstrip()]: the same from the other end. *)
Definition py_rstrip (s : string) : string :=
  let l := reverse (list_ascii_of_string s) in
  string_of_list_ascii (reverse (drop_leading (map reverse whitespace) (length l) l)).

(** [s.strip()] *)
Definition py_strip (s : string) : string := py_rstrip (py_lstrip s).

Definition nl : string := String "010"%char EmptyString.

Definition str_in (s : string) (l : list string) : bool := existsb (String.eqb s) l.
Definition int_in (z : Z) (l : list Z) : bool := existsb (Z.eqb z) l.

(** ** Tables with an INTEGER PRIMARY KEY *)

(** The rows of such a table are stored, and returned by a SELECT without
    ORDER BY, in ascending order of the key: a new row goes before the
    first row with a larger key. *)
Fixpoint insert_by_key {A : Type} (key : A -> Z) (r : A) (rows : list A) : list A :=
  match rows with
  | [] => [r]
  | x :: rest => if key r <? key x then r :: x :: rest else x :: insert_by_key key r rest
  end.

(** ** The outside world *)

Inductive chat :=
  | ChatId (z : Z)
  | ChatName (s : string).

#[global] Instance chat_eq_dec : EqDecision chat.
Proof. solve_decision. Defined.

Inductive button :=
  | UrlButton (label url : string)
  | CallbackButton (label data : string)
  | SwitchInlineButton (label query : string).

Inductive markup :=
  | NoMarkup
  | InlineKeyboard (rows : list (list button))
  | ReplyKeyboard (rows : list (list string)).

(** One entry per request made to the Bot API or the completion service. *)
Inductive event :=
  | EvGetChatMember (c : string) (user : Z)
  | EvSend (to : chat) (body : string) (mk : markup) (delivered : bool)
  | EvEdit (body : string) (mk : markup) (ok : bool)
  | EvAnswer (ok : bool)
  | EvChatAction (c : Z) (action : string) (ok : bool)
  | EvGenerate (prompt : string).

(** What the outside answers to the request made when [clock] requests
    have already been made. *)
Record Env := {
  get_chat_member_result : nat -> string -> Z -> exn + string;
  send_message_result : nat -> chat -> string -> option exn;
  edit_text_result : nat -> option exn;
  answer_result : nat -> option exn;
  chat_action_result : nat -> option exn;
  generate_content_result : nat -> string -> exn + string;
  run_once_result : nat -> option exn;
  randbelow : nat -> nat -> nat;
  strftime_now : nat -> string -> string;
  strftime_after : nat -> Z -> string -> string;
  (** What [int(s)] gives for a text that is no plain decimal spelling
      (a sign [+], blanks, underscores, other digits, or no number). *)
  int_other : string -> exn + Z;
  (** The integer that a TEXT value which is no plain decimal spelling
      equals when SQLite compares it with an INTEGER column, if any
      (['+5'], ['5.0'], [' 5'] and the like are read as numbers). *)
  sql_numeric_other : string -> option Z
}.

(** [int(s)] *)
Definition py_int (env : Env) (s : string) : exn + Z :=
  match decimal_value s with
  | Some z => inr z
  | None => int_other env s
  end.

(** [column = ?] for an INTEGER column and a parameter bound as text: the
    column has INTEGER affinity, so the text is converted to a number
    first when it looks like one; this is the integer it then equals. *)
Definition sql_integer_of_text (env : Env) (s : string) : option Z :=
  match decimal_value s with
  | Some z => Some z
  | None => sql_numeric_other env s
  end.

Definition sql_key_eq_text (env : Env) (k : Z) (s : string) : bool :=
  match sql_integer_of_text env s with Some z => k =? z | None => false end.

Record World (St : Type) := mkWorld {
  store : St;
  trace : list event;
  logs : list string
}.
Arguments mkWorld {St}.
Arguments store {St}.
Arguments trace {St}.
Arguments logs {St}.

Definition clock {St} (w : World St) : nat := length (trace w).

(** ** State and exception monad *)

Definition M (St A : Type) : Type := World St -> (exn + A) * World St.

Definition ret {St A} (a : A) : M St A := fun w => (inr a, w).

Definition raise {St A} (e : exn) : M St A := fun w => (inl e, w).

Definition bind {St A B} (m : M St A) (k : A -> M St B) : M St B :=
  fun w => match m w with
           | (inr a, w') => k a w'
           | (inl e, w') => (inl e, w')
           end.

(** [try: m  except Exception as e: h e] *)
Definition try_except {St A} (m : M St A) (h : exn -> M St A) : M St A :=
  fun w => match m w with
           | (inr a, w') => (inr a, w')
           | (inl e, w') => h e w'
           end.

Declare Scope py_scope.
Delimit Scope py_scope with py.
Notation "x <~ m ;; k" := (bind m (fun x => k))
  (at level 100, m at next level, k at level 200, right associativity) : py_scope.
Notation "m ;;; k" := (bind m (fun _ => k))
  (at level 100, k at level 200, right associativity) : py_scope.
Local Open Scope py_scope.

Definition lift_result {St A} (r : exn + A) : M St A :=
  match r with inl e => raise e | inr a => ret a end.

Definition get_store {St} : M St St := fun w => (inr (store w), w).

Definition put_store {St} (s : St) : M St unit :=
  fun w => (inr tt, mkWorld s (trace w) (logs w)).

Definition get_clock {St} : M St nat := fun w => (inr (clock w), w).

Definition emit {St} (ev : event) : M St unit :=
  fun w => (inr tt, mkWorld (store w) (trace w ++ [ev]) (logs w)).

(** [logger.error(msg)] *)
Definition log_error {St} (msg : string) : M St unit :=
  fun w => (inr tt, mkWorld (store w) (trace w) (logs w ++ [msg])).

(** [for x in xs: body] *)
Fixpoint for_each {St A} (xs : list A) (body : A -> M St unit) : M St unit :=
  match xs with
  | [] => ret tt
  | x :: xs' => body x ;;; for_each xs' body
  end.

(** A [for] loop that updates local variables [acc]. *)
Fixpoint for_fold {St A B} (xs : list A) (acc : B) (body : B -> A -> M St B) : M St B :=
  match xs with
  | [] => ret acc
  | x :: xs' => acc' <~ body acc x ;; for_fold xs' acc' body
  end.

(** [xs[i]] *)
Definition py_index {St} (xs : list string) (i : nat) : M St string :=
  match xs !! i with
  | Some x => ret x
  | None => raise (Exn "IndexError" "list index out of range")
  end.

(** ** Bot API requests *)

Section Requests.
Context {St : Type} (env : Env).

Definition option_outcome (o : option exn) : M St unit :=
  match o with Some e => raise e | None => ret tt end.

(** [bot.get_chat_member(chat_id, user_id).status] *)
Definition get_chat_member (c : string) (user : Z) : M St string :=
  t <~ get_clock ;;
  emit (EvGetChatMember c user) ;;;
  lift_result (get_chat_member_result env t c user).

(** [bot.send_message(to, body, reply_markup=mk)] *)
Definition send_message (to : chat) (body : string) (mk : markup) : M St unit :=
  t <~ get_clock ;;
  let r := send_message_result env t to body in
  emit (EvSend to body mk (bool_decide (r = None))) ;;;
  option_outcome r.

(** [query.message.edit_text(body, reply_markup=mk)] *)
Definition edit_text (body : string) (mk : markup) : M St unit :=
  t <~ get_clock ;;
  let r := edit_text_result env t in
  emit (EvEdit body mk (bool_decide (r = None))) ;;;
  option_outcome r.

(** [query.answer()] / [bot.answer_callback_query(id)] *)
Definition answer_callback : M St unit :=
  t <~ get_clock ;;
  let r := answer_result env t in
  emit (EvAnswer (bool_decide (r = None))) ;;;
  option_outcome r.

(** [bot.send_chat_action(chat_id, action)] *)
Definition send_chat_action (c : Z) (action : string) : M St unit :=
  t <~ get_clock ;;
  let r := chat_action_result env t in
  emit (EvChatAction c action (bool_decide (r = None))) ;;;
  option_outcome r.

(** [model.generate_content(prompt).text] *)
Definition generate_content (prompt : string) : M St string :=
  t <~ get_clock ;;
  emit (EvGenerate prompt) ;;;
  lift_result (generate_content_result env t prompt).
End Requests.

Definition active_statuses : list string := ["member"; "administrator"; "creator"].

(** * main.py *)

Module Main.

(** The environment variables read at import time. *)
Record Config := {
  CHANNEL_ID : string;
  GROUP_ID : string;
  WEBSITE_URL : string;
  ADMIN_IDS : list Z;
  MOTIVATION_GROUP_ID : string
}.

(** ** Tables of bot.db ([init_db]) *)

Record user_row := {
  u_user_id : Z;
  u_username : option string;
  u_is_active : Z
}.

Record motivation_row := {
  m_id : Z;
  m_text : string;
  m_submitted_by : Z;
  m_status : string;
  m_schedule_date : option string;
  m_message_id : option Z
}.

Record Db := {
  users : list user_row;
  motivations : list motivation_row;
  motivations_seq : Z
}.

(** A callback queued with [job_queue.run_once]: the closure
    [lambda ctx: ctx.bot.send_message(user[0], motivation, ...)] keeps a
    reference to the variable [user] of the enclosing call (a cell) and to
    [motivation], which is bound once. *)
Record job := {
  job_user_cell : nat;
  job_motivation : string
}.

Record App := {
  db : Db;
  user_data : gmap Z (gmap string bool);
  job_queue : list job;
  cells : list (option Z)
}.

Definition set_db (d : Db) (a : App) : App :=
  {| db := d; user_data := user_data a; job_queue := job_queue a; cells := cells a |}.
Definition set_user_data (ud : gmap Z (gmap string bool)) (a : App) : App :=
  {| db := db a; user_data := ud; job_queue := job_queue a; cells := cells a |}.
Definition set_job_queue (q : list job) (a : App) : App :=
  {| db := db a; user_data := user_data a; job_queue := q; cells := cells a |}.
Definition set_cells (c : list (option Z)) (a : App) : App :=
  {| db := db a; user_data := user_data a; job_queue := job_queue a; cells := c |}.

Record Update := {
  effective_user_id : Z;
  effective_username : option string;
  chat_id : Z;
  message_text : string;
  args : list string
}.

Record CallbackQuery := {
  cq_data : string;
  cq_from_user_id : Z;
  cq_message_text : string
}.

(** ** Queries *)

(** [INSERT OR REPLACE INTO users (user_id, username, is_active) VALUES (?, ?, ?)] *)
Definition insert_or_replace_user (r : user_row) (d : Db) : Db :=
  {| users := insert_by_key u_user_id r (filter (fun u => u_user_id u ≠ u_user_id r) (users d));
     motivations := motivations d;
     motivations_seq := motivations_seq d |}.

(** [UPDATE users SET is_active = 0 WHERE user_id = ?] *)
Definition deactivate_user (uid : Z) (d : Db) : Db :=
  {| users := map (fun u => if u_user_id u =? uid
                            then {| u_user_id := u_user_id u; u_username := u_username u;
                                    u_is_active := 0 |}
                            else u) (users d);
     motivations := motivations d;
     motivations_seq := motivations_seq d |}.

(** [SELECT user_id FROM users WHERE is_active = 1] *)
Definition select_active_users (d : Db) : list Z :=
  map u_user_id (filter (fun u => u_is_active u = 1) (users d)).

(** The row id an AUTOINCREMENT table gives to the next row. *)
Definition next_motivation_id (d : Db) : Z :=
  Z.max (motivations_seq d) (foldr Z.max 0 (map m_id (motivations d))) + 1.

(** [INSERT INTO motivations (text, submitted_by, status) VALUES (?, ?, ?)],
    with [c.lastrowid]. *)
Definition insert_motivation (body : string) (uid : Z) (st : string) (d : Db) : Db * Z :=
  let i := next_motivation_id d in
  ({| users := users d;
      motivations := motivations d ++
        [{| m_id := i; m_text := body; m_submitted_by := uid; m_status := st;
            m_schedule_date := None; m_message_id := None |}];
      motivations_seq := i |}, i).

Definition with_status (st : string) (r : motivation_row) : motivation_row :=
  {| m_id := m_id r; m_text := m_text r; m_submitted_by := m_submitted_by r;
     m_status := st; m_schedule_date := m_schedule_date r; m_message_id := m_message_id r |}.

Definition with_schedule (st : string) (date : string) (r : motivation_row) : motivation_row :=
  {| m_id := m_id r; m_text := m_text r; m_submitted_by := m_submitted_by r;
     m_status := st; m_schedule_date := Some date; m_message_id := m_message_id r |}.

(** [UPDATE motivations SET status = st WHERE id = ?] *)
Definition update_status (st : string) (mid : Z) (d : Db) : Db :=
  {| users := users d;
     motivations := map (fun r => if m_id r =? mid then with_status st r else r) (motivations d);
     motivations_seq := motivations_seq d |}.

(** [UPDATE motivations SET status = 'approved', schedule_date = ? WHERE id = ?]
    with the identifier given as text. *)
Definition update_schedule (env : Env) (date : string) (mid : string) (d : Db) : Db :=
  {| users := users d;
     motivations := map (fun r => if sql_key_eq_text env (m_id r) mid
                                  then with_schedule "approved" date r else r) (motivations d);
     motivations_seq := motivations_seq d |}.

(** [SELECT text FROM motivations WHERE id = ?], then [fetchone()] *)
Definition select_text (mid : Z) (d : Db) : option string :=
  m_text <$> head (filter (fun r => m_id r = mid) (motivations d)).

Definition in_pool (today : string) (r : motivation_row) : bool :=
  String.eqb (m_status r) "approved" &&
  match m_schedule_date r with
  | None => true
  | Some date => String.eqb date today
  end.

(** [SELECT text FROM motivations WHERE status = 'approved'
     AND (schedule_date IS NULL OR schedule_date = ?)] *)
Definition select_pool (today : string) (d : Db) : list string :=
  map m_text (filter (fun r => in_pool today r = true) (motivations d)).

(** ** Names bound in the module *)

(** The names the module binds: its imports (lines 1 to 12), its
    constants and its functions. *)
Definition module_globals : list string :=
  ["os"; "sqlite3"; "random"; "schedule"; "time"; "asyncio"; "datetime";
   "Update"; "InlineKeyboardButton"; "InlineKeyboardMarkup"; "ReplyKeyboardMarkup";
   "ReplyKeyboardRemove"; "Application"; "CommandHandler"; "CallbackQueryHandler";
   "MessageHandler"; "filters"; "ContextTypes"; "genai"; "load_dotenv"; "logging";
   "TOKEN"; "GEMINI_API_KEY"; "CHANNEL_ID"; "GROUP_ID"; "WEBSITE_URL"; "ADMIN_IDS";
   "MOTIVATION_GROUP_ID"; "logger"; "model"; "init_db"; "check_membership";
   "get_main_keyboard"; "get_membership_keyboard"; "start"; "stop"; "help_command";
   "about"; "ai_command"; "handle_message"; "broadcast"; "button_callback";
   "send_daily_motivation"; "run_scheduler"; "main"].

(** Reading a global name. *)
Definition load_global (name : string) : M App unit :=
  if str_in name module_globals then ret tt
  else raise (Exn "NameError" ("name '" +:+ name +:+ "' is not defined")).

Section Handlers.
Context (cfg : Config) (env : Env).

(** [sqlite3.connect('bot.db')]: the statements of a connection work on
    the committed tables and reach them at [conn.commit()]. *)
Definition connect : M App Db := a <~ get_store ;; ret (db a).
Definition commit (d : Db) : M App unit := a <~ get_store ;; put_store (set_db d a).

Definition check_membership (user : Z) : M App bool :=
  try_except
    (channel_status <~ get_chat_member env (CHANNEL_ID cfg) user ;;
     group_status <~ get_chat_member env (GROUP_ID cfg) user ;;
     ret (str_in channel_status active_statuses && str_in group_status active_statuses))
    (fun e => log_error ("Error checking membership: " +:+ exn_str e) ;;; ret false).

Definition get_main_keyboard : markup :=
  ReplyKeyboard [["Yordam"; "Biz haqimizda"]; ["Kanal"; "Guruh"; "Veb sayt"]].

Definition get_membership_keyboard : markup :=
  InlineKeyboard
    [[UrlButton "Kanalga a'zo bo'lish" ("https://t.me/" +:+ py_tail (CHANNEL_ID cfg))];
     [UrlButton "Guruhga a'zo bo'lish" ("https://t.me/" +:+ py_tail (GROUP_ID cfg))];
     [CallbackButton "Tekshirish" "check_membership"]].

(** [update.message.reply_text(body, reply_markup=mk)] *)
Definition reply_text (u : Update) (body : string) (mk : markup) : M App unit :=
  send_message env (ChatId (chat_id u)) body mk.

Definition start (u : Update) : M App unit :=
  let user_id := effective_user_id u in
  conn <~ connect ;;
  commit (insert_or_replace_user
            {| u_user_id := user_id; u_username := effective_username u; u_is_active := 1 |}
            conn) ;;;
  ok <~ check_membership user_id ;;
  if ok then
    reply_text u "Botga xush kelibsiz! Quyidagi tugmalardan foydalaning:" get_main_keyboard
  else
    reply_text u "Botdan foydalanish uchun kanal va guruhga a'zo bo'ling:"
      get_membership_keyboard.

Definition stop (u : Update) : M App unit :=
  let user_id := effective_user_id u in
  conn <~ connect ;;
  commit (deactivate_user user_id conn) ;;;
  reply_text u "Bot to'xtatildi. Qayta boshlash uchun /start buyrug'ini yuboring." NoMarkup.

Definition help_text : string :=
  nl +:+ "    Bot buyruqlari:" +:+ nl +:+
  "    /start - Botni boshlash" +:+ nl +:+
  "    /stop - Botni to'xtatish" +:+ nl +:+
  "    /help - Yordam" +:+ nl +:+
  "    /ai - Sun'iy intellekt bilan suhbat" +:+ nl +:+
  "    /about - Biz haqimizda" +:+ nl +:+
  "    Motivatsiya yuborish uchun oddiy xabar sifatida yozing." +:+ nl +:+ "    ".

Definition help_command (u : Update) : M App unit :=
  reply_text u help_text get_main_keyboard.

Definition about_text : string :=
  "Bizning loyiha haqida: Bu Telegram bot foydalanuvchilarga motivatsiya, yangiliklar va AI bilan suhbat imkonini beradi.".

Definition about (u : Update) : M App unit :=
  reply_text u about_text get_main_keyboard.

(** [context.user_data.get('ai_mode', False)] *)
Definition get_ai_mode (user : Z) : M App bool :=
  a <~ get_store ;;
  ret (default false (default ∅ (user_data a !! user) !! "ai_mode")).

(** [context.user_data['ai_mode'] = True] *)
Definition set_ai_mode (user : Z) : M App unit :=
  a <~ get_store ;;
  put_store (set_user_data
    (<[user := <["ai_mode" := true]> (default ∅ (user_data a !! user))]> (user_data a)) a).

Definition ai_command (u : Update) : M App unit :=
  ok <~ check_membership (effective_user_id u) ;;
  if negb ok then
    reply_text u "AI bilan suhbatlashish uchun kanal va guruhga a'zo bo'ling:"
      get_membership_keyboard
  else
    reply_text u "Gemini AI bilan suhbat boshlandi. Savolingizni yozing:" NoMarkup ;;;
    set_ai_mode (effective_user_id u).

Definition like_label : string := "üëç Like".
Definition share_label : string := "üì§ Ulashish".
Definition liked_suffix : string := "üëç Sizga yoqdi!".

(** The branch of [handle_message] for a user in AI mode. *)
Definition ai_reply (u : Update) : M App unit :=
  try_except
    (response <~ generate_content env (message_text u) ;;
     reply_text u response NoMarkup)
    (fun e => reply_text u ("Xato yuz berdi: " +:+ exn_str e) NoMarkup).

(** The buttons sent to the moderation group with a new submission. *)
Definition moderation_keyboard (motivation_id : Z) : markup :=
  InlineKeyboard
    [[CallbackButton "Qabul qilish" ("approve_" +:+ py_str motivation_id);
      CallbackButton "Bekor qilish" ("reject_" +:+ py_str motivation_id)];
     [CallbackButton "1 kun" ("schedule_" +:+ py_str motivation_id +:+ "_1");
      CallbackButton "2 kun" ("schedule_" +:+ py_str motivation_id +:+ "_2");
      CallbackButton "3 kun" ("schedule_" +:+ py_str motivation_id +:+ "_3")]].

(** The last part of [handle_message]: the text is a new submission. *)
Definition submit_motivation (u : Update) : M App unit :=
  let user_id := effective_user_id u in
  let text := message_text u in
  conn <~ connect ;;
  let '(conn, motivation_id) := insert_motivation text user_id "pending" conn in
  commit conn ;;;
  send_message env (ChatName (MOTIVATION_GROUP_ID cfg))
    ("Yangi motivatsiya:" +:+ nl +:+ text +:+ nl +:+ "Yuboruvchi: @"
       +:+ py_str_opt (effective_username u))
    (moderation_keyboard motivation_id) ;;;
  reply_text u "Motivatsiyangiz adminga yuborildi. Tasdiqlanishini kuting." NoMarkup.

Definition handle_message (u : Update) : M App unit :=
  let user_id := effective_user_id u in
  let text := message_text u in
  if str_in text ["Yordam"] then help_command u
  else if str_in text ["Biz haqimizda"] then about u
  else if String.eqb text "Kanal" then
    reply_text u ("Kanal: https://t.me/" +:+ py_tail (CHANNEL_ID cfg)) NoMarkup
  else if String.eqb text "Guruh" then
    reply_text u ("Guruh: https://t.me/" +:+ py_tail (GROUP_ID cfg)) NoMarkup
  else if String.eqb text "Veb sayt" then
    reply_text u ("Veb sayt: " +:+ WEBSITE_URL cfg) NoMarkup
  else
    ai_mode <~ get_ai_mode user_id ;;
    if ai_mode then ai_reply u
    else submit_motivation u.

(** The [for user in users] loop of [broadcast] and of the approve
    branch: one guarded send per row. *)
Definition send_to_all (what : string) (users : list Z) (body : string) (mk : markup)
  : M App unit :=
  for_each users (fun user =>
    try_except (send_message env (ChatId user) body mk)
      (fun e => log_error ("Error sending " +:+ what +:+ " to " +:+ py_str user
                             +:+ ": " +:+ exn_str e))).

Definition broadcast (u : Update) : M App unit :=
  if negb (int_in (effective_user_id u) (ADMIN_IDS cfg)) then
    reply_text u "Bu buyruq faqat adminlar uchun." NoMarkup
  else if bool_decide (args u = []) then
    reply_text u "Xabar yuborish uchun matn kiriting: /broadcast Xabar matni" NoMarkup
  else
    let message := py_join " " (args u) in
    conn <~ connect ;;
    let users := select_active_users conn in
    send_to_all "broadcast" users message NoMarkup ;;;
    reply_text u "Xabar barcha foydalanuvchilarga yuborildi." NoMarkup.

Definition like_share_keyboard (like_data : string) (text : string) : markup :=
  InlineKeyboard [[CallbackButton like_label like_data; SwitchInlineButton share_label text]].

Definition approve (data : string) : M App unit :=
  part <~ py_index (py_split "_" data) 1 ;;
  motivation_id <~ lift_result (py_int env part) ;;
  conn <~ connect ;;
  let conn := update_status "approved" motivation_id conn in
  text <~ match select_text motivation_id conn with
          | Some t => ret t
          | None => raise (Exn "TypeError" "'NoneType' object is not subscriptable")
          end ;;
  commit conn ;;;
  conn <~ connect ;;
  let users := select_active_users conn in
  send_to_all "motivation" users text
    (like_share_keyboard ("like_" +:+ py_str motivation_id) text) ;;;
  edit_text env ("Motivatsiya tasdiqlandi va yuborildi:" +:+ nl +:+ text) NoMarkup.

Definition reject (data : string) : M App unit :=
  part <~ py_index (py_split "_" data) 1 ;;
  motivation_id <~ lift_result (py_int env part) ;;
  conn <~ connect ;;
  commit (update_status "rejected" motivation_id conn) ;;;
  edit_text env "Motivatsiya bekor qilindi." NoMarkup.

(** [schedule_date = (datetime.now() + timedelta(days=int(days))).strftime('%Y-%m-%d')]:
    the names are read left to right, before [int(days)] is evaluated. *)
Definition schedule_branch (data : string) : M App unit :=
  motivation_id <~ py_index (py_split "_" data) 1 ;;
  days <~ py_index (py_split "_" data) 2 ;;
  load_global "datetime" ;;;
  load_global "timedelta" ;;;
  n <~ lift_result (py_int env days) ;;
  t <~ get_clock ;;
  let schedule_date := strftime_after env t n "%Y-%m-%d" in
  conn <~ connect ;;
  commit (update_schedule env schedule_date motivation_id conn) ;;;
  edit_text env ("Motivatsiya " +:+ days +:+ " kundan keyin yuboriladi.") NoMarkup.

Definition button_callback (q : CallbackQuery) : M App unit :=
  let data := cq_data q in
  answer_callback env ;;;
  if String.eqb data "check_membership" then
    ok <~ check_membership (cq_from_user_id q) ;;
    if ok then
      edit_text env "Tabriklaymiz! Endi botdan foydalanishingiz mumkin." NoMarkup ;;;
      send_message env (ChatId (cq_from_user_id q)) "Botga xush kelibsiz!" get_main_keyboard
    else
      edit_text env "Iltimos, kanal va guruhga a'zo bo'ling:" get_membership_keyboard
  else if String.prefix "approve_" data then approve data
  else if String.prefix "reject_" data then reject data
  else if String.prefix "schedule_" data then schedule_branch data
  else if String.prefix "like_" data then
    edit_text env (cq_message_text q +:+ nl +:+ liked_suffix) NoMarkup
  else ret tt.

(** ** The daily job *)

(** [random.choice(seq)]: [seq[randbelow(len(seq))]] *)
Definition random_choice (seq : list string) : M App string :=
  t <~ get_clock ;;
  match seq !! (randbelow env t (length seq) `mod` length seq)%nat with
  | Some x => ret x
  | None => raise (Exn "IndexError" "Cannot choose from an empty sequence")
  end.

(** The variable [user] of one call of [send_daily_motivation]. *)
Definition new_cell : M App nat :=
  a <~ get_store ;;
  put_store (set_cells (cells a ++ [None]) a) ;;;
  ret (length (cells a)).

Definition set_cell (c : nat) (v : Z) : M App unit :=
  a <~ get_store ;; put_store (set_cells (<[c := Some v]> (cells a)) a).

Definition read_cell (c : nat) : M App Z :=
  a <~ get_store ;;
  match cells a !! c with
  | Some (Some v) => ret v
  | _ => raise (Exn "NameError" "free variable 'user' referenced before assignment")
  end.

(** [context.job_queue.run_once(callback, 0)] *)
Definition run_once (j : job) : M App unit :=
  t <~ get_clock ;;
  match run_once_result env t with
  | Some e => raise e
  | None => a <~ get_store ;; put_store (set_job_queue (job_queue a ++ [j]) a)
  end.

Definition send_daily_motivation : M App unit :=
  conn <~ connect ;;
  t <~ get_clock ;;
  let motivations := select_pool (strftime_now env t "%Y-%m-%d") conn in
  match motivations with
  | [] => ret tt
  | _ :: _ =>
      motivation <~ random_choice motivations ;;
      let users := select_active_users conn in
      user <~ new_cell ;;
      for_each users (fun row =>
        set_cell user row ;;;
        try_except (run_once {| job_user_cell := user; job_motivation := motivation |})
          (fun e => log_error ("Error sending daily motivation to " +:+ py_str row
                                 +:+ ": " +:+ exn_str e)))
  end.

(** What the job queue does with a queued callback when it is due: the
    lambda is called, it reads [user] and [motivation] then. *)
Definition run_job (j : job) : M App unit :=
  user <~ read_cell (job_user_cell j) ;;
  send_message env (ChatId user) (job_motivation j)
    (like_share_keyboard "like_daily" (job_motivation j)).

(** The job queue runs what was queued, once the handler that queued it
    has returned; an exception of a callback is logged by the queue. *)
Definition run_job_queue : M App unit :=
  a <~ get_store ;;
  put_store (set_job_queue [] a) ;;;
  for_each (job_queue a) (fun j =>
    try_except (run_job j) (fun e => log_error ("Job raised: " +:+ exn_str e))).

(** ** The timer *)

Inductive pyval :=
  | PyNone
  | PyFunction (name : string) (call : M App unit).

(** [lambda: send_daily_motivation] *)
Definition scheduled_lambda : M App pyval :=
  ret (PyFunction "send_daily_motivation" send_daily_motivation).

(** [schedule.every().day.at("08:00").do(...)]: the jobs of the default
    scheduler. *)
Definition schedule_jobs : list (M App pyval) := [scheduled_lambda].

(** [schedule.run_pending()]: every job that is due is called and what it
    returns is dropped. *)
Definition run_pending (due : bool) : M App unit :=
  if due then for_each schedule_jobs (fun job_func => _ <~ job_func ;; ret tt)
  else ret tt.

(** [run_scheduler], one iteration of [while True] per element of [due]:
    whether the 08:00 job is due at that wake-up. *)
Definition run_scheduler (due : list bool) : M App unit :=
  for_each due (fun d => run_pending d).
End Handlers.

End Main.

(** * main_bot_code.py *)

Module MainBotCode.

Record Config := {
  REQUIRED_CHANNEL_ID : string;
  REQUIRED_GROUP_ID : string;
  ADMIN_IDS : list string
}.

(** ** Tables of bot_database.db *)

Record user_row := {
  u_user_id : Z;
  u_username : string;
  u_first_name : string;
  u_last_name : string;
  u_is_admin : Z;
  u_joined_date : string;
  u_last_active : string
}.

Record conversation_row := {
  c_id : Z;
  c_user_id : Z;
  c_message : string;
  c_response : string;
  c_timestamp : string
}.

(** [AdminStates] *)
Inductive AdminStates :=
  | waiting_for_admin_id
  | waiting_for_admin_action
  | waiting_for_message.

(** The tables, read and written through the one module-level cursor, and
    the dispatcher's [MemoryStorage] of per-user states. *)
Record App := {
  users : list user_row;
  conversations : list conversation_row;
  fsm : gmap Z AdminStates
}.

Definition set_users (us : list user_row) (a : App) : App :=
  {| users := us; conversations := conversations a; fsm := fsm a |}.
Definition set_conversations (cs : list conversation_row) (a : App) : App :=
  {| users := users a; conversations := cs; fsm := fsm a |}.
Definition set_fsm (f : gmap Z AdminStates) (a : App) : App :=
  {| users := users a; conversations := conversations a; fsm := f |}.

Record User := {
  id : Z;
  username : option string;
  first_name : option string;
  last_name : option string
}.

Record Message := {
  from_user : User;
  chat_id : Z;
  text : string
}.

Definition with_is_admin (v : Z) (u : user_row) : user_row :=
  {| u_user_id := u_user_id u; u_username := u_username u; u_first_name := u_first_name u;
     u_last_name := u_last_name u; u_is_admin := v; u_joined_date := u_joined_date u;
     u_last_active := u_last_active u |}.

Definition with_last_active (t : string) (u : user_row) : user_row :=
  {| u_user_id := u_user_id u; u_username := u_username u; u_first_name := u_first_name u;
     u_last_name := u_last_name u; u_is_admin := u_is_admin u; u_joined_date := u_joined_date u;
     u_last_active := t |}.

(** [SELECT is_admin FROM users WHERE user_id = ?] with a text parameter,
    then [fetchone()] *)
Definition select_is_admin_text (env : Env) (uid : string) (us : list user_row) : option Z :=
  u_is_admin <$> head (filter (fun u => sql_key_eq_text env (u_user_id u) uid = true) us).

(** The same query with an integer parameter. *)
Definition select_is_admin (uid : Z) (us : list user_row) : option Z :=
  u_is_admin <$> head (filter (fun u => u_user_id u = uid) us).

(** [UPDATE users SET is_admin = v WHERE user_id = ?] with a text parameter *)
Definition update_is_admin (env : Env) (v : Z) (uid : string) (us : list user_row)
  : list user_row :=
  map (fun u => if sql_key_eq_text env (u_user_id u) uid then with_is_admin v u else u) us.

(** [INSERT OR IGNORE INTO users (user_id, username, first_name, last_name,
     joined_date, last_active) VALUES (...)] *)
Definition insert_or_ignore_user (r : user_row) (us : list user_row) : list user_row :=
  if bool_decide (Exists (fun u => u_user_id u = u_user_id r) us) then us
  else insert_by_key u_user_id r us.

(** [UPDATE users SET last_active = ? WHERE user_id = ?] *)
Definition update_last_active (t : string) (uid : Z) (us : list user_row) : list user_row :=
  map (fun u => if u_user_id u =? uid then with_last_active t u else u) us.

Definition next_conversation_id (cs : list conversation_row) : Z :=
  foldr Z.max 0 (map c_id cs) + 1.

Section Handlers.
Context (cfg : Config) (env : Env).

Definition check_subscription (user_id : Z) : M App bool :=
  try_except
    (channel_member <~ get_chat_member env (REQUIRED_CHANNEL_ID cfg) user_id ;;
     group_member <~ get_chat_member env (REQUIRED_GROUP_ID cfg) user_id ;;
     ret (str_in channel_member active_statuses && str_in group_member active_statuses))
    (fun e => log_error ("Error checking subscription: " +:+ exn_str e) ;;; ret false).

(** [message.answer(body, reply_markup=mk)] *)
Definition answer (message : Message) (body : string) (mk : markup) : M App unit :=
  send_message env (ChatId (chat_id message)) body mk.

(** [user_id in ADMIN_IDS or (result and result[0] == 1)] *)
Definition is_admin_check (user_id : string) (result : option Z) : bool :=
  str_in user_id (ADMIN_IDS cfg) || match result with Some v => v =? 1 | None => false end.

Definition admin_required (func : Message -> M App unit) (message : Message) : M App unit :=
  let user_id := py_str (id (from_user message)) in
  a <~ get_store ;;
  let result := select_is_admin_text env user_id (users a) in
  if is_admin_check user_id result then func message
  else answer message "Bu funksiya faqat adminlar uchun." NoMarkup.

Definition save_user (user : User) : M App unit :=
  t <~ get_clock ;;
  let current_time := strftime_now env t "%Y-%m-%d %H:%M:%S" in
  a <~ get_store ;;
  let us := insert_or_ignore_user
              {| u_user_id := id user; u_username := default "" (username user);
                 u_first_name := default "" (first_name user);
                 u_last_name := default "" (last_name user);
                 u_is_admin := 0; u_joined_date := current_time;
                 u_last_active := current_time |} (users a) in
  put_store (set_users (update_last_active current_time (id user) us) a).

Definition save_conversation (user_id : Z) (message response : string) : M App unit :=
  t <~ get_clock ;;
  let timestamp := strftime_now env t "%Y-%m-%d %H:%M:%S" in
  a <~ get_store ;;
  put_store (set_conversations
    (conversations a ++
       [{| c_id := next_conversation_id (conversations a); c_user_id := user_id;
           c_message := message; c_response := response; c_timestamp := timestamp |}]) a).

Definition get_subscription_keyboard : markup :=
  InlineKeyboard
    [[UrlButton "Kanalga a'zo bo'lish"
        ("https://t.me/" +:+ py_remove_char "@" (REQUIRED_CHANNEL_ID cfg))];
     [UrlButton "Guruhga qo'shilish"
        ("https://t.me/" +:+ py_remove_char "@" (REQUIRED_GROUP_ID cfg))];
     [CallbackButton "A'zolikni tekshirish" "check_subscription"]].

Definition state_set (message : Message) (st : AdminStates) : M App unit :=
  a <~ get_store ;; put_store (set_fsm (<[id (from_user message) := st]> (fsm a)) a).

(** [state.finish()] *)
Definition state_finish (message : Message) : M App unit :=
  a <~ get_store ;; put_store (set_fsm (delete (id (from_user message)) (fsm a)) a).

Definition label_admin_panel : string := "👑 Admin paneli".
Definition label_admin_stats : string := "📊 Admin statistikasi".
Definition label_add_admin : string := "👤 Admin qo'shish".
Definition label_remove_admin : string := "🚫 Adminlikdan olish".
Definition label_broadcast : string := "📝 Barcha foydalanuvchilarga xabar".
Definition label_user_mode : string := "👥 Oddiy foydalanuvchi rejimi".
Definition label_website : string := "🔗 Saytga o'tish".

Definition get_admin_keyboard : markup :=
  ReplyKeyboard [[label_admin_stats]; [label_add_admin; label_remove_admin];
                 [label_broadcast]; [label_user_mode]].

Definition get_main_keyboard (user_id : Z) : M App markup :=
  a <~ get_store ;;
  let result := select_is_admin user_id (users a) in
  if is_admin_check (py_str user_id) result
  then ret (ReplyKeyboard [[label_website]; [label_admin_panel]])
  else ret (ReplyKeyboard [[label_website]]).

Definition send_welcome (message : Message) : M App unit :=
  let user := from_user message in
  save_user user ;;;
  ok <~ check_subscription (id user) ;;
  if ok then
    kb <~ get_main_keyboard (id user) ;;
    answer message
      ("Assalomu alaykum, " +:+ py_str_opt (first_name user) +:+ "!" +:+ nl +:+
       "Botimizga xush kelibsiz. Menga savolingizni yuboring.") kb
  else
    answer message "Botdan foydalanish uchun quyidagi kanal va guruhga a'zo bo'ling:"
      get_subscription_keyboard.

Definition stop_command (message : Message) : M App unit :=
  answer message "Bot to'xtatildi. Qayta ishlash uchun /start buyrug'ini yuboring." NoMarkup.

Definition add_admin_start : Message -> M App unit :=
  admin_required (fun message =>
    state_set message waiting_for_admin_id ;;;
    answer message "Yangi admin ID raqamini kiriting:" NoMarkup).

Definition remove_admin_start : Message -> M App unit :=
  admin_required (fun message =>
    state_set message waiting_for_admin_action ;;;
    answer message "Adminlikdan olib tashlanadigan foydalanuvchi ID raqamini kiriting:"
      NoMarkup).

(** The [try] block of [remove_admin_process]; [true] stands for the
    [return] after a refusal, which skips the last [state.finish()]. *)
Definition remove_admin_try (message : Message) : M App bool :=
  let admin_id := py_strip (text message) in
  if String.eqb (py_str (id (from_user message))) admin_id then
    answer message "Siz o'zingizni adminlikdan olib tashlay olmaysiz." NoMarkup ;;;
    state_finish message ;;;
    ret true
  else if str_in admin_id (ADMIN_IDS cfg) then
    answer message "Asosiy adminlarni olib tashlab bo'lmaydi." NoMarkup ;;;
    state_finish message ;;;
    ret true
  else
    a <~ get_store ;;
    put_store (set_users (update_is_admin env 0 admin_id (users a)) a) ;;;
    answer message ("Foydalanuvchi (ID: " +:+ admin_id +:+ ") adminlikdan olindi.") NoMarkup ;;;
    ret false.

Definition remove_admin_process : Message -> M App unit :=
  admin_required (fun message =>
    returned <~ try_except (remove_admin_try message)
                  (fun e => answer message ("Xatolik yuz berdi: " +:+ exn_str e) NoMarkup ;;;
                            ret false) ;;
    if returned then ret tt else state_finish message).

Definition broadcast_start : Message -> M App unit :=
  admin_required (fun message =>
    state_set message waiting_for_message ;;;
    answer message "Barcha foydalanuvchilarga yuboriladigan xabarni kiriting:" NoMarkup).

Definition admin_broadcast_header : string := "📢 ADMIN XABARI:".
Definition sent_prefix : string := "✅ Yuborildi: ".
Definition error_prefix : string := "❌ Xatolik: ".

(** The [for user in users] loop of [broadcast_message], with its two
    counters. *)
Definition broadcast_loop (users : list Z) (broadcast_text : string) : M App (Z * Z) :=
  for_fold users (0, 0) (fun '(sent_count, error_count) user =>
    try_except
      (send_message env (ChatId user)
         (admin_broadcast_header +:+ nl +:+ nl +:+ broadcast_text) NoMarkup ;;;
       ret (sent_count + 1, error_count))
      (fun e =>
         log_error ("Error sending message to " +:+ py_str user +:+ ": " +:+ exn_str e) ;;;
         ret (sent_count, error_count + 1))).

Definition broadcast_report (sent_count error_count : Z) : string :=
  "Xabar yuborish yakunlandi." +:+ nl +:+
  sent_prefix +:+ py_str sent_count +:+ nl +:+
  error_prefix +:+ py_str error_count.

Definition broadcast_message : Message -> M App unit :=
  admin_required (fun message =>
    let broadcast_text := text message in
    a <~ get_store ;;
    let users := map u_user_id (users a) in
    answer message "Xabar yuborish boshlandi..." NoMarkup ;;;
    counts <~ broadcast_loop users broadcast_text ;;
    let '(sent_count, error_count) := counts in
    answer message (broadcast_report sent_count error_count) NoMarkup ;;;
    state_finish message).

Definition website_link (message : Message) : M App unit :=
  ok <~ check_subscription (id (from_user message)) ;;
  if negb ok then
    answer message "Botdan foydalanish uchun quyidagi kanal va guruhga a'zo bo'ling:"
      get_subscription_keyboard
  else
    answer message "Saytimizga tashrif buyuring:"
      (InlineKeyboard [[UrlButton "🌐 Saytga o'tish" "https://example.com"]]).

Definition check_subscription_callback (from_user_id : Z) : M App unit :=
  answer_callback env ;;;
  ok <~ check_subscription from_user_id ;;
  if ok then
    kb <~ get_main_keyboard from_user_id ;;
    send_message env (ChatId from_user_id) "✅ Siz kanalga va guruhga a'zo bo'lgansiz! Botdan foydalanishingiz mumkin." kb
  else
    send_message env (ChatId from_user_id) "❌ Siz hali kerakli kanal va guruhga a'zo bo'lmagansiz." get_subscription_keyboard.

Definition special_commands : list string :=
  [label_admin_panel; label_admin_stats; label_add_admin; label_remove_admin;
   label_broadcast; label_user_mode; label_website].

Definition generic_error_text : string :=
  "Xatolik yuz berdi. Iltimos, keyinroq qayta urinib ko'ring.".

Definition process_message (message : Message) : M App unit :=
  let user_id := id (from_user message) in
  save_user (from_user message) ;;;
  ok <~ check_subscription user_id ;;
  if negb ok then
    answer message "Botdan foydalanish uchun quyidagi kanal va guruhga a'zo bo'ling:"
      get_subscription_keyboard
  else
    try_except
      (let user_message := text message in
       if str_in user_message special_commands then ret tt
       else
         send_chat_action env (chat_id message) "typing" ;;;
         response_text <~ generate_content env user_message ;;
         answer message response_text NoMarkup ;;;
         save_conversation user_id user_message response_text)
      (fun e =>
         log_error ("Error processing message: " +:+ exn_str e) ;;;
         answer message generic_error_text NoMarkup).

(** ** The remaining handlers *)

(** [SELECT * FROM users WHERE user_id = ?] with a text parameter, then
    [fetchone()] *)
Definition select_user_text (env : Env) (uid : string) (us : list user_row)
  : option user_row :=
  head (filter (fun u => sql_key_eq_text env (u_user_id u) uid = true) us).

(** [SELECT COUNT( * ) FROM users WHERE last_active >= ?]: TEXT values are
    compared byte by byte. *)
Definition count_active_since (threshold : string) (us : list user_row) : Z :=
  Z.of_nat (length (List.filter (fun u => String.leb threshold (u_last_active u)) us)).

Definition admin_panel (message : Message) : M App unit :=
  let user_id := id (from_user message) in
  a <~ get_store ;;
  let result := select_is_admin_text env (py_str user_id) (users a) in
  if is_admin_check (py_str user_id) result
  then answer message "Admin paneliga xush kelibsiz!" get_admin_keyboard
  else answer message "Siz admin emassiz." NoMarkup.

Definition user_mode (message : Message) : M App unit :=
  kb <~ get_main_keyboard (id (from_user message)) ;;
  answer message "Siz oddiy foydalanuvchi rejimiga o'tdingiz." kb.

Definition stats_header : string := "📊 Bot statistikasi:".
Definition stats_total : string := "👥 Jami foydalanuvchilar: ".
Definition stats_active : string := "🔄 Faol foydalanuvchilar (24 soat): ".
Definition stats_conversations : string := "💬 Jami suhbatlar: ".

Definition stats_report (total_users active_users total_conversations : Z) : string :=
  stats_header +:+ nl +:+ nl +:+
  stats_total +:+ py_str total_users +:+ nl +:+
  stats_active +:+ py_str active_users +:+ nl +:+
  stats_conversations +:+ py_str total_conversations.

(** [datetime('now', '-1 day')] is the outside's clock one day back. *)
Definition admin_stats : Message -> M App unit :=
  admin_required (fun message =>
    a <~ get_store ;;
    let total_users := Z.of_nat (length (users a)) in
    t <~ get_clock ;;
    let active_users :=
      count_active_since (strftime_after env t (-1) "%Y-%m-%d %H:%M:%S") (users a) in
    let total_conversations := Z.of_nat (length (conversations a)) in
    answer message (stats_report total_users active_users total_conversations) NoMarkup).

(** The [try] block of [add_admin_process]; [true] stands for the [return]
    after an unknown identifier, which skips the last [state.finish()]. *)
Definition add_admin_try (message : Message) : M App bool :=
  let new_admin_id := py_strip (text message) in
  a <~ get_store ;;
  match select_user_text env new_admin_id (users a) with
  | None =>
      answer message
        "Bu ID raqamli foydalanuvchi topilmadi. Foydalanuvchi avval botdan foydalangan bo'lishi kerak."
        NoMarkup ;;;
      state_finish message ;;;
      ret true
  | Some _ =>
      put_store (set_users (update_is_admin env 1 new_admin_id (users a)) a) ;;;
      answer message ("Foydalanuvchi (ID: " +:+ new_admin_id +:+ ") admin qilib tayinlandi.")
        NoMarkup ;;;
      ret false
  end.

Definition add_admin_process : Message -> M App unit :=
  admin_required (fun message =>
    returned <~ try_except (add_admin_try message)
                  (fun e => answer message ("Xatolik yuz berdi: " +:+ exn_str e) NoMarkup ;;;
                            ret false) ;;
    if returned then ret tt else state_finish message).
End Handlers.

End MainBotCode.

(** * Sample configurations, outsides and worlds *)

Module Samples.

Definition blocked : exn := Exn "Forbidden" "Forbidden: bot was blocked by the user".

Definition quota : exn := Exn "ResourceExhausted" "429 quota exceeded for project 1234".

(** An outside where every request succeeds and everybody is a member.
    The texts read as numbers in the samples are plain decimal spellings,
    so the last two fields are never consulted. *)
Definition env_ok : Env := {|
  get_chat_member_result := fun _ _ _ => inr "member";
  send_message_result := fun _ _ _ => None;
  edit_text_result := fun _ => None;
  answer_result := fun _ => None;
  chat_action_result := fun _ => None;
  generate_content_result := fun _ prompt => inr ("Javob: " +:+ prompt);
  run_once_result := fun _ => None;
  randbelow := fun _ _ => 0%nat;
  strftime_now := fun _ _ => "2024-05-01";
  strftime_after := fun _ _ _ => "2024-05-02";
  int_other := fun s =>
    inl (Exn "ValueError" ("invalid literal for int() with base 10: '" +:+ s +:+ "'"));
  sql_numeric_other := fun _ => None
|}.

(** As [env_ok], but user 2 has blocked the bot. *)
Definition env_blocked2 : Env := {|
  get_chat_member_result := get_chat_member_result env_ok;
  send_message_result := fun _ to _ => if bool_decide (to = ChatId 2) then Some blocked else None;
  edit_text_result := edit_text_result env_ok;
  answer_result := answer_result env_ok;
  chat_action_result := chat_action_result env_ok;
  generate_content_result := generate_content_result env_ok;
  run_once_result := run_once_result env_ok;
  randbelow := randbelow env_ok;
  strftime_now := strftime_now env_ok;
  strftime_after := strftime_after env_ok;
  int_other := int_other env_ok;
  sql_numeric_other := sql_numeric_other env_ok
|}.

(** As [env_ok], but nobody has joined the group. *)
Definition env_outsider : Env := {|
  get_chat_member_result := fun _ c _ => if String.eqb c "@guruh" then inr "left" else inr "member";
  send_message_result := send_message_result env_ok;
  edit_text_result := edit_text_result env_ok;
  answer_result := answer_result env_ok;
  chat_action_result := chat_action_result env_ok;
  generate_content_result := generate_content_result env_ok;
  run_once_result := run_once_result env_ok;
  randbelow := randbelow env_ok;
  strftime_now := strftime_now env_ok;
  strftime_after := strftime_after env_ok;
  int_other := int_other env_ok;
  sql_numeric_other := sql_numeric_other env_ok
|}.

(** As [env_ok], but the completion service refuses every prompt. *)
Definition env_ai_down (e : exn) : Env := {|
  get_chat_member_result := get_chat_member_result env_ok;
  send_message_result := send_message_result env_ok;
  edit_text_result := edit_text_result env_ok;
  answer_result := answer_result env_ok;
  chat_action_result := chat_action_result env_ok;
  generate_content_result := fun _ _ => inl e;
  run_once_result := run_once_result env_ok;
  randbelow := randbelow env_ok;
  strftime_now := strftime_now env_ok;
  strftime_after := strftime_after env_ok;
  int_other := int_other env_ok;
  sql_numeric_other := sql_numeric_other env_ok
|}.

Definition main_cfg : Main.Config := {|
  Main.CHANNEL_ID := "@kanal";
  Main.GROUP_ID := "@guruh";
  Main.WEBSITE_URL := "https://tezkor.example";
  Main.ADMIN_IDS := [100];
  Main.MOTIVATION_GROUP_ID := "-1001"
|}.

Definition main_user (i : Z) (active : Z) : Main.user_row :=
  {| Main.u_user_id := i; Main.u_username := None; Main.u_is_active := active |}.

Definition main_motivation (i : Z) (body st : string) (date : option string)
  : Main.motivation_row :=
  {| Main.m_id := i; Main.m_text := body; Main.m_submitted_by := 1; Main.m_status := st;
     Main.m_schedule_date := date; Main.m_message_id := None |}.

Definition main_world (us : list Main.user_row) (ms : list Main.motivation_row)
  : World Main.App :=
  mkWorld
    {| Main.db := {| Main.users := us; Main.motivations := ms;
                     Main.motivations_seq := foldr Z.max 0 (map Main.m_id ms) |};
       Main.user_data := ∅; Main.job_queue := []; Main.cells := [] |}
    [] [].

(** Three registered users, all active, and nothing submitted yet. *)
Definition three_users : World Main.App :=
  main_world [main_user 1 1; main_user 2 1; main_user 3 1] [].

(** User 1 is registered and has entered AI mode with [/ai]. *)
Definition in_ai_mode : World Main.App :=
  mkWorld
    {| Main.db := {| Main.users := [main_user 1 1]; Main.motivations := [];
                     Main.motivations_seq := 0 |};
       Main.user_data := {[ 1 := {[ "ai_mode" := true ]} ]};
       Main.job_queue := []; Main.cells := [] |}
    [] [].

Definition timeout : exn := Exn "DeadlineExceeded" "504 Deadline Exceeded".

Definition main_update (user : Z) (body : string) (params : list string) : Main.Update :=
  {| Main.effective_user_id := user; Main.effective_username := Some "ali";
     Main.chat_id := user; Main.message_text := body; Main.args := params |}.

Definition main_query (user : Z) (data : string) : Main.CallbackQuery :=
  {| Main.cq_data := data; Main.cq_from_user_id := user;
     Main.cq_message_text := "Yangi motivatsiya" |}.

Definition bot_cfg : MainBotCode.Config := {|
  MainBotCode.REQUIRED_CHANNEL_ID := "@kanal";
  MainBotCode.REQUIRED_GROUP_ID := "@guruh";
  MainBotCode.ADMIN_IDS := ["100"]
|}.

Definition bot_user (i : Z) (admin : Z) : MainBotCode.user_row :=
  {| MainBotCode.u_user_id := i; MainBotCode.u_username := ""; MainBotCode.u_first_name := "";
     MainBotCode.u_last_name := ""; MainBotCode.u_is_admin := admin;
     MainBotCode.u_joined_date := "2024-04-01 10:00:00";
     MainBotCode.u_last_active := "2024-04-01 10:00:00" |}.

Definition bot_world (us : list MainBotCode.user_row) : World MainBotCode.App :=
  mkWorld {| MainBotCode.users := us; MainBotCode.conversations := []; MainBotCode.fsm := ∅ |}
    [] [].

Definition bot_message (user : Z) (body : string) : MainBotCode.Message :=
  {| MainBotCode.from_user :=
       {| MainBotCode.id := user; MainBotCode.username := None;
          MainBotCode.first_name := Some "Ali"; MainBotCode.last_name := None |};
     MainBotCode.chat_id := user; MainBotCode.text := body |}.

End Samples.

(** * Observing runs *)

Definition is_send (e : event) : bool :=
  match e with EvSend _ _ _ _ => true | _ => false end.

(** The recipients of the send requests of a trace, in order. *)
Definition recipients (evs : list event) : list chat :=
  omap (fun e => match e with EvSend to _ _ _ => Some to | _ => None end) evs.

Definition is_failed_send (e : event) : bool :=
  match e with EvSend _ _ _ false => true | _ => false end.

Definition is_delivered_send (e : event) : bool :=
  match e with EvSend _ _ _ true => true | _ => false end.

(** The number of send requests of a trace that failed. *)
Definition failed_count (evs : list event) : nat :=
  length (List.filter is_failed_send evs).

(** The number of send requests of a trace that were delivered. *)
Definition delivered_count (evs : list event) : nat :=
  length (List.filter is_delivered_send evs).

(** The bodies of the send requests of a trace addressed to [c]. *)
Definition bodies_to (c : chat) (evs : list event) : list string :=
  omap (fun e => match e with
                 | EvSend to body _ _ => if bool_decide (to = c) then Some body else None
                 | _ => None
                 end) evs.

(** The membership lookups of a trace. *)
Definition lookups (evs : list event) : list (string * Z) :=
  omap (fun e => match e with EvGetChatMember c u => Some (c, u) | _ => None end) evs.

(** The send requests a loop over [users] makes from clock [t] on, one
    per user, each with the outcome the outside gives it. *)
Fixpoint send_events (env : Env) (t : nat) (users : list Z) (body : string) (mk : markup)
  : list event :=
  match users with
  | [] => []
  | u :: us =>
      EvSend (ChatId u) body mk (bool_decide (send_message_result env t (ChatId u) body = None))
        :: send_events env (S t) us body mk
  end.

(** Both lookups answered, and both with a status of the active set. *)
Definition both_active (env : Env) (t : nat) (channel group : string) (user : Z) : Prop :=
  exists s1 s2,
    get_chat_member_result env t channel user = inr s1 /\
    get_chat_member_result env (S t) group user = inr s2 /\
    str_in s1 active_statuses = true /\ str_in s2 active_statuses = true.

(** What the gate answers when its first lookup is made at clock [t]. *)
Definition gate_passes (env : Env) (t : nat) (channel group : string) (user : Z) : bool :=
  match get_chat_member_result env t channel user,
        get_chat_member_result env (S t) group user with
  | inr s1, inr s2 => str_in s1 active_statuses && str_in s2 active_statuses
  | _, _ => false
  end.

(** The requests the gate makes from clock [t] on: the channel lookup
    and, when that one is answered, the group lookup. *)
Definition gate_events (env : Env) (t : nat) (channel group : string) (user : Z)
  : list event :=
  EvGetChatMember channel user ::
  match get_chat_member_result env t channel user with
  | inl _ => []
  | inr _ => [EvGetChatMember group user]
  end.

(** Whether [c] occurs in [s]. *)
Fixpoint has_char (c : ascii) (s : string) : bool :=
  match s with
  | EmptyString => false
  | String a s' => Ascii.eqb a c || has_char c s'
  end.

(** * Serving updates *)

(** The updates for which [main] of main.py registers a handler, and the
    wake-ups of the timer. *)
Inductive main_incoming :=
  | OnStart (u : Main.Update)
  | OnStop (u : Main.Update)
  | OnHelp (u : Main.Update)
  | OnAi (u : Main.Update)
  | OnAbout (u : Main.Update)
  | OnBroadcast (u : Main.Update)
  | OnCallback (q : Main.CallbackQuery)
  | OnText (u : Main.Update)
  | OnTimer (due : bool).

Definition main_dispatch (cfg : Main.Config) (env : Env) (i : main_incoming)
  : M Main.App unit :=
  match i with
  | OnStart u => Main.start cfg env u
  | OnStop u => Main.stop env u
  | OnHelp u => Main.help_command env u
  | OnAi u => Main.ai_command cfg env u
  | OnAbout u => Main.about env u
  | OnBroadcast u => Main.broadcast cfg env u
  | OnCallback q => Main.button_callback cfg env q
  | OnText u => Main.handle_message cfg env u
  | OnTimer due => Main.run_pending env due
  end.

(** Whether an update is [/start] sent by [uid]. *)
Definition starts_user (uid : Z) (i : main_incoming) : bool :=
  match i with
  | OnStart u => Main.effective_user_id u =? uid
  | _ => false
  end.

(** The updates are handled one after the other; an exception of a
    handler ends that handler only. *)
Fixpoint main_serve (cfg : Main.Config) (env : Env) (ins : list main_incoming)
    (w : World Main.App) : World Main.App :=
  match ins with
  | [] => w
  | i :: rest => main_serve cfg env rest (main_dispatch cfg env i w).2
  end.

(** The handlers of main_bot_code.py, each with the update it is given. *)
Inductive bot_incoming :=
  | OnSendWelcome (m : MainBotCode.Message)
  | OnStopCommand (m : MainBotCode.Message)
  | OnAdminPanel (m : MainBotCode.Message)
  | OnUserMode (m : MainBotCode.Message)
  | OnAdminStats (m : MainBotCode.Message)
  | OnAddAdminStart (m : MainBotCode.Message)
  | OnAddAdminProcess (m : MainBotCode.Message)
  | OnRemoveAdminStart (m : MainBotCode.Message)
  | OnRemoveAdminProcess (m : MainBotCode.Message)
  | OnBroadcastStart (m : MainBotCode.Message)
  | OnBroadcastMessage (m : MainBotCode.Message)
  | OnWebsiteLink (m : MainBotCode.Message)
  | OnCheckSubscription (from_user_id : Z)
  | OnProcessMessage (m : MainBotCode.Message).

Definition bot_dispatch (cfg : MainBotCode.Config) (env : Env) (i : bot_incoming)
  : M MainBotCode.App unit :=
  match i with
  | OnSendWelcome m => MainBotCode.send_welcome cfg env m
  | OnStopCommand m => MainBotCode.stop_command env m
  | OnAdminPanel m => MainBotCode.admin_panel cfg env m
  | OnUserMode m => MainBotCode.user_mode cfg env m
  | OnAdminStats m => MainBotCode.admin_stats cfg env m
  | OnAddAdminStart m => MainBotCode.add_admin_start cfg env m
  | OnAddAdminProcess m => MainBotCode.add_admin_process cfg env m
  | OnRemoveAdminStart m => MainBotCode.remove_admin_start cfg env m
  | OnRemoveAdminProcess m => MainBotCode.remove_admin_process cfg env m
  | OnBroadcastStart m => MainBotCode.broadcast_start cfg env m
  | OnBroadcastMessage m => MainBotCode.broadcast_message cfg env m
  | OnWebsiteLink m => MainBotCode.website_link cfg env m
  | OnCheckSubscription from_user_id =>
      MainBotCode.check_subscription_callback cfg env from_user_id
  | OnProcessMessage m => MainBotCode.process_message cfg env m
  end.

Fixpoint bot_serve (cfg : MainBotCode.Config) (env : Env) (ins : list bot_incoming)
    (w : World MainBotCode.App) : World MainBotCode.App :=
  match ins with
  | [] => w
  | i :: rest => bot_serve cfg env rest (bot_dispatch cfg env i w).2
  end.

(** The columns of a users row of main_bot_code.py that no statement
    updates. *)
Definition user_core (r : MainBotCode.user_row) : Z * string * string * string * string :=
  (MainBotCode.u_user_id r, MainBotCode.u_username r, MainBotCode.u_first_name r,
   MainBotCode.u_last_name r, MainBotCode.u_joined_date r).

(** The identifier of a users row of main_bot_code.py with its admin flag. *)
Definition admin_flag (r : MainBotCode.user_row) : Z * Z :=
  (MainBotCode.u_user_id r, MainBotCode.u_is_admin r).

(** Whether an update can reach the two handlers that write is_admin. *)
Definition writes_admin (i : bot_incoming) : bool :=
  match i with
  | OnAddAdminProcess _ | OnRemoveAdminProcess _ => true
  | _ => false
  end.

(** The columns of a submission that identify it. *)
Definition submission_core (r : Main.motivation_row) : Z * string * Z :=
  (Main.m_id r, Main.m_text r, Main.m_submitted_by r).

(** [context.user_data.get('ai_mode', False)] of [user], read off a store. *)
Definition ai_mode_of (a : Main.App) (user : Z) : bool :=
  default false (default ∅ (Main.user_data a !! user) !! "ai_mode").

(** The prompts forwarded to the completion service in a trace. *)
Definition prompts (evs : list event) : list string :=
  omap (fun e => match e with EvGenerate p => Some p | _ => None end) evs.

(** The writes of main.py to its store, one statement each. *)
Inductive main_write : Main.App -> Main.App -> Prop :=
  | write_user r a :
      main_write a (Main.set_db (Main.insert_or_replace_user r (Main.db a)) a)
  | write_inactive uid a :
      main_write a (Main.set_db (Main.deactivate_user uid (Main.db a)) a)
  | write_ai_mode user a :
      main_write a
        (Main.set_user_data
           (<[user := <["ai_mode" := true]> (default ∅ (Main.user_data a !! user))]>
              (Main.user_data a)) a)
  | write_submission body uid a :
      main_write a (Main.set_db (Main.insert_motivation body uid "pending" (Main.db a)).1 a)
  | write_status st mid a :
      main_write a (Main.set_db (Main.update_status st mid (Main.db a)) a).

(** The writes of main_bot_code.py to its store; [may_admin] tells
    whether the is_admin column may be written. *)
Inductive bot_write (env : Env) (may_admin : bool) : MainBotCode.App -> MainBotCode.App -> Prop :=
  | write_seen r t a :
      MainBotCode.u_is_admin r = 0 ->
      bot_write env may_admin a
        (MainBotCode.set_users
           (MainBotCode.update_last_active t (MainBotCode.u_user_id r)
              (MainBotCode.insert_or_ignore_user r (MainBotCode.users a))) a)
  | write_admin v target a :
      may_admin = true ->
      bot_write env may_admin a
        (MainBotCode.set_users (MainBotCode.update_is_admin env v target (MainBotCode.users a)) a)
  | write_conversation c a :
      bot_write env may_admin a
        (MainBotCode.set_conversations (MainBotCode.conversations a ++ [c]) a)
  | write_fsm f a :
      bot_write env may_admin a (MainBotCode.set_fsm f a).

(** * Sample sessions *)

Module Sessions.

(** A day of main.py: a new user, an AI chat, a submission that gets
    approved, an opt-out, a broadcast and a wake-up of the timer. *)
Definition main_day : list main_incoming :=
  [OnStart (Samples.main_update 4 "/start" []);
   OnAi (Samples.main_update 1 "/ai" []);
   OnText (Samples.main_update 2 "Never give up" []);
   OnCallback (Samples.main_query 100 "approve_1");
   OnStop (Samples.main_update 3 "/stop" []);
   OnText (Samples.main_update 1 "Salom" []);
   OnBroadcast (Samples.main_update 100 "/broadcast Hi" ["Hi"]);
   OnTimer true].

(** A day of main_bot_code.py without the admin dialogues. *)
Definition bot_plain_day : list bot_incoming :=
  [OnSendWelcome (Samples.bot_message 9 "/start");
   OnProcessMessage (Samples.bot_message 1 "Salom");
   OnWebsiteLink (Samples.bot_message 1 "site");
   OnAdminStats (Samples.bot_message 100 "stats");
   OnBroadcastMessage (Samples.bot_message 100 "Hello")].

(** The same day with user 1 made admin and removed again. *)
Definition bot_admin_day : list bot_incoming :=
  bot_plain_day ++
  [OnAddAdminProcess (Samples.bot_message 100 "1");
   OnRemoveAdminProcess (Samples.bot_message 100 "1")].

Definition bot_two_users : World MainBotCode.App :=
  Samples.bot_world [Samples.bot_user 1 0; Samples.bot_user 100 1].

End Sessions.

(** * Reasoning about runs *)

(** Runs the monad operations and the requests of a computation applied
    to a world given by its three components. *)
Ltac run_monad :=
  repeat (progress
    (cbv beta iota zeta delta
       [bind ret raise try_except get_clock emit lift_result log_error get_store put_store
        option_outcome get_chat_member send_message edit_text answer_callback
        send_chat_action generate_content py_index];
     cbn [store trace logs]));
  unfold clock; cbn [store trace logs];
  rewrite ?length_app; cbn [length]; rewrite ?Nat.add_1_r.

Section Runs.
Context {St : Type} (env : Env).

Lemma clock_snoc (s : St) (tr : list event) (ev : event) (lg : list string) :
  clock (mkWorld s (tr ++ [ev]) lg) = S (length tr).
Proof. unfold clock; simpl. rewrite length_app; simpl; lia. Qed.

Lemma send_message_run (to : chat) (body : string) (mk : markup) (w : World St) :
  send_message env to body mk w =
    (match send_message_result env (clock w) to body with
     | Some e => inl e
     | None => inr tt
     end,
     mkWorld (store w)
       (trace w ++ [EvSend to body mk
                      (bool_decide (send_message_result env (clock w) to body = None))])
       (logs w)).
Proof.
  unfold send_message, bind, get_clock, emit, option_outcome; simpl.
  destruct (send_message_result env (clock w) to body); reflexivity.
Qed.

(** A send inside [try ... except] never raises and touches only the
    trace and the log. *)
Lemma guarded_send_run (to : chat) (body : string) (mk : markup)
    (h : exn -> string) (w : World St) :
  exists lg,
    try_except (send_message env to body mk) (fun e => log_error (h e)) w =
      (inr tt,
       mkWorld (store w)
         (trace w ++ [EvSend to body mk
                        (bool_decide (send_message_result env (clock w) to body = None))])
         lg).
Proof.
  unfold try_except. rewrite send_message_run.
  destruct (send_message_result env (clock w) to body); simpl; eauto.
Qed.

Lemma for_each_guarded_sends (users : list Z) (body : string) (mk : markup)
    (h : Z -> exn -> string) (w : World St) :
  exists lg,
    for_each users (fun user =>
      try_except (send_message env (ChatId user) body mk) (fun e => log_error (h user e))) w =
      (inr tt,
       mkWorld (store w) (trace w ++ send_events env (clock w) users body mk) lg).
Proof.
  revert w. induction users as [|u us IH]; intros w; simpl.
  - exists (logs w). unfold ret. rewrite app_nil_r. by destruct w.
  - unfold bind.
    destruct (guarded_send_run (ChatId u) body mk (h u) w) as [lg ->].
    destruct (IH (mkWorld (store w)
                    (trace w ++ [EvSend (ChatId u) body mk
                       (bool_decide (send_message_result env (clock w) (ChatId u) body = None))])
                    lg)) as [lg' ->].
    exists lg'. simpl. rewrite clock_snoc, <- app_assoc. reflexivity.
Qed.

Lemma send_events_recipients (t : nat) (users : list Z) (body : string) (mk : markup) :
  recipients (send_events env t users body mk) = map ChatId users.
Proof.
  revert t. induction users as [|u us IH]; intros t; simpl; [done|].
  unfold recipients in *. simpl. by rewrite IH.
Qed.

Lemma send_events_length (t : nat) (users : list Z) (body : string) (mk : markup) :
  length (send_events env t users body mk) = length users.
Proof. revert t. induction users as [|u us IH]; intros t; simpl; [done|]. by rewrite IH. Qed.

Lemma send_events_all_sends (t : nat) (users : list Z) (body : string) (mk : markup) :
  Forall (fun e => exists u ok, e = EvSend (ChatId u) body mk ok)
    (send_events env t users body mk).
Proof.
  revert t. induction users as [|u us IH]; intros t; simpl; constructor; eauto.
Qed.

Lemma send_events_counts (t : nat) (users : list Z) (body : string) (mk : markup) :
  (delivered_count (send_events env t users body mk)
   + failed_count (send_events env t users body mk) = length users)%nat.
Proof.
  revert t. induction users as [|u us IH]; intros t; simpl; [done|].
  unfold delivered_count, failed_count in *; simpl.
  specialize (IH (S t)).
  destruct (bool_decide _); simpl; lia.
Qed.
End Runs.

(** * Tables in key order *)

Section InsertByKey.
Context {A : Type} (key : A -> Z).

Lemma insert_by_key_perm (r : A) (l : list A) : insert_by_key key r l ≡ₚ r :: l.
Proof.
  induction l as [|x l IH]; cbn [insert_by_key]; [done|].
  destruct (key r <? key x); [done|]. rewrite IH. apply Permutation_swap.
Qed.

Lemma elem_of_insert_by_key (x r : A) (l : list A) :
  x ∈ insert_by_key key r l <-> x = r \/ x ∈ l.
Proof. by rewrite insert_by_key_perm, elem_of_cons. Qed.

Lemma insert_by_key_sublist (r : A) (l : list A) : l `sublist_of` insert_by_key key r l.
Proof.
  induction l as [|x l IH]; cbn [insert_by_key]; [apply sublist_nil_l|].
  destruct (key r <? key x); [by apply sublist_cons|by apply sublist_skip].
Qed.

Lemma filter_insert_by_key_out (P : A -> Prop) `{forall x, Decision (P x)} (r : A)
    (l : list A) :
  ~ P r -> filter P (insert_by_key key r l) = filter P l.
Proof.
  intros Hr. induction l as [|x l IH]; cbn [insert_by_key].
  - by rewrite filter_cons_False.
  - destruct (key r <? key x); [by rewrite filter_cons_False|].
    rewrite !filter_cons. by rewrite IH.
Qed.

Lemma filter_insert_by_key_in (P : A -> Prop) `{forall x, Decision (P x)} (r : A)
    (l : list A) :
  P r -> r ∈ filter P (insert_by_key key r l).
Proof. intros Hr. apply list_elem_of_filter. split; [done|]. apply elem_of_insert_by_key. by left. Qed.
End InsertByKey.

Lemma map_insert_by_key_sublist {A B : Type} (key : A -> Z) (f : A -> B) (r : A)
    (l : list A) :
  map f l `sublist_of` map f (insert_by_key key r l).
Proof. apply (fmap_sublist f), insert_by_key_sublist. Qed.

Lemma map_update_last_active (A : Type) (f : MainBotCode.user_row -> A) (t : string)
    (uid : Z) (us : list MainBotCode.user_row) :
  (forall r, f (MainBotCode.with_last_active t r) = f r) ->
  map f (MainBotCode.update_last_active t uid us) = map f us.
Proof.
  intros Hf. unfold MainBotCode.update_last_active. rewrite map_map.
  apply map_ext. intros r. by destruct (_ =? _).
Qed.

Lemma insert_or_ignore_cases (r : MainBotCode.user_row) (us : list MainBotCode.user_row) :
  ((MainBotCode.u_user_id r ∈ map MainBotCode.u_user_id us) /\
   MainBotCode.insert_or_ignore_user r us = us) \/
  (~ (MainBotCode.u_user_id r ∈ map MainBotCode.u_user_id us) /\
   MainBotCode.insert_or_ignore_user r us = insert_by_key MainBotCode.u_user_id r us).
Proof.
  unfold MainBotCode.insert_or_ignore_user. case_bool_decide as H.
  - left. split; [|done]. apply Exists_exists in H as (x & Hx & E).
    apply list_elem_of_fmap. eauto.
  - right. split; [|done]. intros (x & E & Hx)%list_elem_of_fmap.
    apply H, Exists_exists. eauto.
Qed.

(** * The membership gate *)

Lemma gate_passes_iff (env : Env) (t : nat) (channel group : string) (user : Z) :
  gate_passes env t channel group user = true <-> both_active env t channel group user.
Proof.
  unfold gate_passes, both_active.
  destruct (get_chat_member_result env t channel user) as [e1|s1].
  { split; [done|]. intros (? & ? & ? & _); congruence. }
  destruct (get_chat_member_result env (S t) group user) as [e2|s2].
  { split; [done|]. intros (? & ? & _ & ? & _); congruence. }
  rewrite andb_true_iff. split.
  - intros [? ?]. eauto 6.
  - intros (? & ? & [= <-] & [= <-] & ? & ?). done.
Qed.

Lemma gate_run {St : Type} (env : Env) (channel group : string) (user : Z)
    (h : exn -> string) (w : World St) :
  exists w',
    try_except
      (s1 <~ get_chat_member env channel user ;;
       s2 <~ get_chat_member env group user ;;
       ret (str_in s1 active_statuses && str_in s2 active_statuses))
      (fun e => log_error (h e) ;;; ret false) w
      = (inr (gate_passes env (clock w) channel group user), w') /\
    store w' = store w /\
    trace w' = trace w ++ gate_events env (clock w) channel group user.
Proof.
  destruct w as [s tr lg]. unfold gate_passes, gate_events. run_monad.
  destruct (get_chat_member_result env (length tr) channel user) as [e1|s1] eqn:E1.
  { eexists. split; [reflexivity|]. done. }
  run_monad.
  destruct (get_chat_member_result env (S (length tr)) group user) as [e2|s2] eqn:E2.
  { eexists. split; [reflexivity|]. cbn [store trace]. by rewrite <- app_assoc. }
  eexists. split; [reflexivity|]. cbn [store trace]. by rewrite <- app_assoc.
Qed.

Lemma check_membership_run (cfg : Main.Config) (env : Env) (user : Z) (w : World Main.App) :
  exists w',
    Main.check_membership cfg env user w
      = (inr (gate_passes env (clock w) (Main.CHANNEL_ID cfg) (Main.GROUP_ID cfg) user), w') /\
    store w' = store w /\
    trace w' =
      trace w ++ gate_events env (clock w) (Main.CHANNEL_ID cfg) (Main.GROUP_ID cfg) user.
Proof.
  apply (gate_run env _ _ user (fun e => "Error checking membership: " +:+ exn_str e) w).
Qed.

Lemma check_subscription_run (cfg : MainBotCode.Config) (env : Env) (user : Z)
    (w : World MainBotCode.App) :
  exists w',
    MainBotCode.check_subscription cfg env user w
      = (inr (gate_passes env (clock w) (MainBotCode.REQUIRED_CHANNEL_ID cfg)
                (MainBotCode.REQUIRED_GROUP_ID cfg) user), w') /\
    store w' = store w /\
    trace w' =
      trace w ++ gate_events env (clock w) (MainBotCode.REQUIRED_CHANNEL_ID cfg)
                   (MainBotCode.REQUIRED_GROUP_ID cfg) user.
Proof.
  apply (gate_run env _ _ user (fun e => "Error checking subscription: " +:+ exn_str e) w).
Qed.

(** C2: the gate of either file answers [True] exactly when both
    membership lookups succeed with a status among member, administrator
    and creator; when a lookup raises or a status is not active it answers
    [False]; it always returns a boolean, never an exception, and leaves
    the store as it was. *)
Theorem membership_gate_fails_closed :
  (forall (cfg : Main.Config) (env : Env) (user : Z) (w : World Main.App),
     exists b w',
       Main.check_membership cfg env user w = (inr b, w') /\
       store w' = store w /\
       (b = true <->
        both_active env (clock w) (Main.CHANNEL_ID cfg) (Main.GROUP_ID cfg) user)) /\
  (forall (cfg : MainBotCode.Config) (env : Env) (user : Z) (w : World MainBotCode.App),
     exists b w',
       MainBotCode.check_subscription cfg env user w = (inr b, w') /\
       store w' = store w /\
       (b = true <->
        both_active env (clock w) (MainBotCode.REQUIRED_CHANNEL_ID cfg)
          (MainBotCode.REQUIRED_GROUP_ID cfg) user)).
Proof.
  split; intros cfg env user w.
  - destruct (check_membership_run cfg env user w) as (w' & H & Hs & _).
    eexists _, w'. split; [exact H|]. split; [exact Hs|]. apply gate_passes_iff.
  - destruct (check_subscription_run cfg env user w) as (w' & H & Hs & _).
    eexists _, w'. split; [exact H|]. split; [exact Hs|]. apply gate_passes_iff.
Qed.

(** * Broadcasts *)

Lemma broadcast_loop_run (env : Env) (users : list Z) (broadcast_text : string)
    (sent_count error_count : Z) (w : World MainBotCode.App) :
  let body := MainBotCode.admin_broadcast_header +:+ nl +:+ nl +:+ broadcast_text in
  let sends := send_events env (clock w) users body NoMarkup in
  exists lg,
    for_fold users (sent_count, error_count) (fun '(sent_count, error_count) user =>
      try_except
        (send_message env (ChatId user) body NoMarkup ;;;
         ret (sent_count + 1, error_count))
        (fun e =>
           log_error ("Error sending message to " +:+ py_str user +:+ ": " +:+ exn_str e) ;;;
           ret (sent_count, error_count + 1))) w =
      (inr (sent_count + Z.of_nat (delivered_count sends),
            error_count + Z.of_nat (failed_count sends)),
       mkWorld (store w) (trace w ++ sends) lg).
Proof.
  intros body. revert sent_count error_count w.
  induction users as [|u us IH]; intros sent_count error_count [s tr lg]; cbn zeta.
  - exists lg. cbn. rewrite app_nil_r, !Z.add_0_r. reflexivity.
  - cbn [for_fold send_events]. unfold delivered_count, failed_count. run_monad.
    destruct (send_message_result env (length tr) (ChatId u) body) as [e|] eqn:E;
      cbn [bool_decide decide_rel]; run_monad.
    + edestruct (IH sent_count (error_count + 1)) as [lg' ->].
      eexists. unfold clock; cbn [trace store]. run_monad.
      rewrite <- app_assoc. cbn [List.filter is_delivered_send is_failed_send length app].
      rewrite bool_decide_eq_false_2 by done.
      cbn [List.filter is_delivered_send is_failed_send length app].
      unfold delivered_count, failed_count.
      f_equal; try reflexivity; do 2 f_equal; lia.
    + edestruct (IH (sent_count + 1) error_count) as [lg' ->].
      eexists. unfold clock; cbn [trace store]. run_monad.
      rewrite <- app_assoc. cbn [List.filter is_delivered_send is_failed_send length app].
      rewrite bool_decide_eq_true_2 by done.
      cbn [List.filter is_delivered_send is_failed_send length app].
      unfold delivered_count, failed_count.
      f_equal; try reflexivity; do 2 f_equal; lia.
Qed.

Lemma send_to_all_run (env : Env) (what : string) (users : list Z) (body : string)
    (mk : markup) (w : World Main.App) :
  exists lg,
    Main.send_to_all env what users body mk w =
      (inr tt, mkWorld (store w) (trace w ++ send_events env (clock w) users body mk) lg).
Proof.
  unfold Main.send_to_all.
  apply (for_each_guarded_sends env users body mk
           (fun user e => "Error sending " +:+ what +:+ " to " +:+ py_str user +:+ ": "
                            +:+ exn_str e)).
Qed.

(** C3 (as amended): every recipient is attempted, in order, whatever
    happened to the earlier sends, and a failed send never ends the loop.
    In main_bot_code.py the admin is then told sent = N - K and
    failed = K, K being the number of failed sends; in main.py the admin
    is told one fixed sentence, without counts. *)
Theorem broadcast_attempts_every_recipient
    (env : Env)
    (cfg1 : Main.Config) (u : Main.Update) (w1 : World Main.App)
    (cfg2 : MainBotCode.Config) (message : MainBotCode.Message)
    (w2 : World MainBotCode.App)
    (Hadmin1 : int_in (Main.effective_user_id u) (Main.ADMIN_IDS cfg1) = true)
    (Hargs : Main.args u <> [])
    (Hadmin2 :
       let user_id := py_str (MainBotCode.id (MainBotCode.from_user message)) in
       MainBotCode.is_admin_check cfg2 user_id
         (MainBotCode.select_is_admin_text env user_id (MainBotCode.users (store w2))) = true)
    (Hstarted :
       send_message_result env (clock w2) (ChatId (MainBotCode.chat_id message))
         "Xabar yuborish boshlandi..." = None) :
  (let users := Main.select_active_users (Main.db (store w1)) in
   let sends := send_events env (clock w1) users (py_join " " (Main.args u)) NoMarkup in
   exists r ok w1',
     Main.broadcast cfg1 env u w1 = (r, w1') /\
     store w1' = store w1 /\
     trace w1' =
       trace w1 ++ sends ++
       [EvSend (ChatId (Main.chat_id u)) "Xabar barcha foydalanuvchilarga yuborildi."
          NoMarkup ok] /\
     recipients sends = map ChatId users) /\
  (let users := map MainBotCode.u_user_id (MainBotCode.users (store w2)) in
   let body := MainBotCode.admin_broadcast_header +:+ nl +:+ nl +:+ MainBotCode.text message in
   let sends := send_events env (S (clock w2)) users body NoMarkup in
   let N := length users in
   let K := failed_count sends in
   exists r ok w2',
     MainBotCode.broadcast_message cfg2 env message w2 = (r, w2') /\
     MainBotCode.users (store w2') = MainBotCode.users (store w2) /\
     trace w2' =
       trace w2 ++
       [EvSend (ChatId (MainBotCode.chat_id message)) "Xabar yuborish boshlandi..."
          NoMarkup true] ++
       sends ++
       [EvSend (ChatId (MainBotCode.chat_id message))
          (MainBotCode.broadcast_report (Z.of_nat (N - K)) (Z.of_nat K)) NoMarkup ok] /\
     recipients sends = map ChatId users /\
     (K <= N)%nat).
Proof.
  split.
  - cbn zeta. unfold Main.broadcast. rewrite Hadmin1. cbn [negb].
    rewrite bool_decide_eq_false_2 by done.
    unfold Main.connect, Main.reply_text.
    destruct w1 as [s tr lg].
    destruct (send_to_all_run env "broadcast" (Main.select_active_users (Main.db s))
                (py_join " " (Main.args u)) NoMarkup (mkWorld s tr lg)) as [lg' Hloop].
    eexists _, _, _. split.
    { cbv beta iota zeta delta [bind get_store ret store].
      rewrite Hloop, send_message_run. reflexivity. }
    cbn [store trace logs]. split; [done|].
    split; [by rewrite <- app_assoc|]. apply send_events_recipients.
  - cbn zeta in *. unfold MainBotCode.broadcast_message, MainBotCode.admin_required.
    destruct w2 as [s tr lg]. unfold clock in Hstarted. cbn [trace store] in *.
    cbv beta iota zeta delta [bind get_store ret store].
    rewrite Hadmin2. unfold MainBotCode.answer. rewrite send_message_run.
    unfold clock; cbn [trace store logs]. rewrite Hstarted. clear Hstarted.
    rewrite bool_decide_eq_true_2 by done.
    unfold MainBotCode.broadcast_loop.
    edestruct (broadcast_loop_run env (map MainBotCode.u_user_id (MainBotCode.users s))
                 (MainBotCode.text message) 0 0) as [lg' ->].
    unfold clock; cbn [trace store logs]. rewrite length_app; cbn [length].
    rewrite Nat.add_1_r, !Z.add_0_l.
    set (sends := send_events env (S (length tr)) _ _ _).
    pose proof (send_events_counts env (S (length tr))
                  (map MainBotCode.u_user_id (MainBotCode.users s))
                  (MainBotCode.admin_broadcast_header +:+ nl +:+ nl +:+ MainBotCode.text message)
                  NoMarkup) as Hc.
    fold sends in Hc.
    rewrite send_message_run. cbn [store trace logs].
    replace (delivered_count sends)
      with (length (map MainBotCode.u_user_id (MainBotCode.users s)) - failed_count sends)%nat
      by lia.
    destruct (send_message_result env _ _ _) as [e|];
      (eexists _, _, _; split; [reflexivity|]; cbn [store trace MainBotCode.users];
       split; [try done|]; split; [by rewrite <- !app_assoc|];
       split; [apply send_events_recipients | lia]).
Qed.

(** C3, witness: an admin broadcasts to users 1, 2 and 3 while user 2 has
    blocked the bot. *)
Lemma broadcast_attempts_every_recipient_witness :
  exists r1 w1' r2 w2',
    Main.broadcast Samples.main_cfg Samples.env_blocked2
      (Samples.main_update 100 "/broadcast Hello" ["Hello"]) Samples.three_users = (r1, w1') /\
    recipients (trace w1') = [ChatId 1; ChatId 2; ChatId 3; ChatId 100] /\
    MainBotCode.broadcast_message Samples.bot_cfg Samples.env_blocked2
      (Samples.bot_message 100 "Hello")
      (Samples.bot_world [Samples.bot_user 1 0; Samples.bot_user 2 0; Samples.bot_user 3 0])
      = (r2, w2') /\
    recipients (trace w2') = [ChatId 100; ChatId 1; ChatId 2; ChatId 3; ChatId 100] /\
    bodies_to (ChatId 100) (trace w2') =
      ["Xabar yuborish boshlandi..."; MainBotCode.broadcast_report 2 1].
Proof.
  destruct (broadcast_attempts_every_recipient Samples.env_blocked2
              Samples.main_cfg (Samples.main_update 100 "/broadcast Hello" ["Hello"])
              Samples.three_users
              Samples.bot_cfg (Samples.bot_message 100 "Hello")
              (Samples.bot_world
                 [Samples.bot_user 1 0; Samples.bot_user 2 0; Samples.bot_user 3 0]))
    as [(r1 & ok1 & w1' & H1 & _ & T1 & _) (r2 & ok2 & w2' & H2 & _ & T2 & _)];
    [reflexivity | discriminate | reflexivity | reflexivity | ].
  exists r1, w1', r2, w2'.
  rewrite H1, H2, T1, T2. repeat split; reflexivity.
Defined.

(** C3, counterexample: in main.py the admin of a broadcast in which one
    of three sends failed is told the same sentence as when none failed,
    and no count. *)
Lemma broadcast_reports_no_counts :
  let run env :=
    Main.broadcast Samples.main_cfg env
      (Samples.main_update 100 "/broadcast Hello" ["Hello"]) Samples.three_users in
  (run Samples.env_blocked2).1 = inr tt /\
  failed_count (trace (run Samples.env_blocked2).2) = 1%nat /\
  bodies_to (ChatId 100) (trace (run Samples.env_blocked2).2) =
    ["Xabar barcha foydalanuvchilarga yuborildi."] /\
  bodies_to (ChatId 100) (trace (run Samples.env_ok).2) =
    ["Xabar barcha foydalanuvchilarga yuborildi."].
Proof. vm_compute. repeat split; reflexivity. Qed.

(** * Decimal identifiers in callback data *)

Lemma decimal_value_str (z : Z) : decimal_value (py_str z) = Some z.
Proof.
  unfold decimal_value, py_str.
  rewrite NilZero.isi.
  - cbn. by rewrite DecimalZ.of_to.
  - destruct z; simpl; try discriminate.
    intros [= H]. by apply DecimalPos.Unsigned.to_uint_nonnil in H.
  - destruct z; simpl; try discriminate.
    intros [= H]. by apply DecimalPos.Unsigned.to_uint_nonnil in H.
Qed.

Lemma py_int_str (env : Env) (z : Z) : py_int env (py_str z) = inr z.
Proof. unfold py_int. by rewrite decimal_value_str. Qed.

Lemma sql_integer_of_str (env : Env) (z : Z) : sql_integer_of_text env (py_str z) = Some z.
Proof. unfold sql_integer_of_text. by rewrite decimal_value_str. Qed.

Lemma string_of_uint_no_underscore (d : Decimal.uint) :
  has_char "_" (NilEmpty.string_of_uint d) = false.
Proof. induction d; simpl; auto. Qed.

Lemma py_str_no_underscore (z : Z) : has_char "_" (py_str z) = false.
Proof.
  unfold py_str, NilZero.string_of_int, NilZero.string_of_uint.
  destruct (Z.to_int z) as [d|d]; destruct d; simpl;
    auto using string_of_uint_no_underscore.
Qed.

Lemma py_split_whole (sep : ascii) (s : string) :
  has_char sep s = false -> py_split sep s = [s].
Proof.
  induction s as [|a s IH]; simpl; [done|].
  destruct (Ascii.eqb a sep); simpl; [done|].
  intros H. by rewrite IH.
Qed.

Lemma py_split_first (sep : ascii) (s rest : string) :
  has_char sep s = false ->
  py_split sep (s +:+ String sep rest) = s :: py_split sep rest.
Proof.
  induction s as [|a s IH]; simpl.
  - by rewrite Ascii.eqb_refl.
  - destruct (Ascii.eqb a sep); simpl; [done|].
    intros H. by rewrite IH.
Qed.

Lemma split_action (name : string) (mid : Z) :
  has_char "_" name = false ->
  py_split "_" (name +:+ String "_" (py_str mid)) = [name; py_str mid].
Proof.
  intros H. rewrite py_split_first by done.
  by rewrite py_split_whole by apply py_str_no_underscore.
Qed.

(** * Moderation actions *)

Lemma select_text_update_status (st : string) (mid : Z) (d : Main.Db) :
  Main.select_text mid (Main.update_status st mid d) = Main.select_text mid d.
Proof.
  unfold Main.select_text, Main.update_status; cbn [Main.motivations].
  induction (Main.motivations d) as [|r rs IH]; [done|].
  cbn [map]. destruct (Z.eqb_spec (Main.m_id r) mid) as [E|E].
  - rewrite !filter_cons_True by done. done.
  - rewrite !filter_cons_False by done. apply IH.
Qed.

Lemma update_status_absent (st : string) (mid : Z) (d : Main.Db) :
  Main.select_text mid d = None -> Main.update_status st mid d = d.
Proof.
  unfold Main.select_text, Main.update_status. destruct d as [us ms sq]; cbn.
  intros H. f_equal.
  induction ms as [|r rs IH]; [done|].
  cbn [map]. destruct (Z.eqb_spec (Main.m_id r) mid) as [E|E].
  - rewrite filter_cons_True in H by done. discriminate.
  - rewrite filter_cons_False in H by done. by rewrite IH.
Qed.

Lemma set_db_same (a : Main.App) : Main.set_db (Main.db a) a = a.
Proof. by destruct a. Qed.

Lemma moderation_store
    (cfg : Main.Config) (env : Env) (user : Z) (shown : string) (mid : Z)
    (w : World Main.App) :
  answer_result env (clock w) = None ->
  let query action :=
    {| Main.cq_data := action +:+ py_str mid; Main.cq_from_user_id := user;
       Main.cq_message_text := shown |} in
  store (Main.button_callback cfg env (query "approve_") w).2 =
    Main.set_db (Main.update_status "approved" mid (Main.db (store w))) (store w) /\
  store (Main.button_callback cfg env (query "reject_") w).2 =
    Main.set_db (Main.update_status "rejected" mid (Main.db (store w))) (store w).
Proof.
  intros Hack.
  cbn zeta. destruct w as [s tr lg]. unfold clock in Hack; cbn [trace] in Hack.
  split.
  - unfold Main.button_callback. cbn [Main.cq_data].
    change (("approve_" +:+ py_str mid =? "check_membership")%string) with false.
    change (String.prefix "approve_" ("approve_" +:+ py_str mid))
      with (String.prefix "" (py_str mid)).
    replace (String.prefix "" (py_str mid)) with true by (by destruct (py_str mid)).
    unfold Main.approve.
    change ("approve_" +:+ py_str mid) with ("approve" +:+ String "_" (py_str mid)).
    rewrite split_action by reflexivity.
    run_monad. rewrite Hack. run_monad. cbn [lookup list_lookup].
    rewrite py_int_str. unfold Main.connect, Main.commit. run_monad.
    rewrite select_text_update_status.
    destruct (Main.select_text mid (Main.db s)) as [t|] eqn:Et.
    + run_monad.
      edestruct (send_to_all_run env "motivation") as [lg' ->].
      run_monad.
      destruct (edit_text_result env _); reflexivity.
    + run_monad. rewrite update_status_absent by done. by rewrite set_db_same.
  - unfold Main.button_callback. cbn [Main.cq_data].
    change (("reject_" +:+ py_str mid =? "check_membership")%string) with false.
    change (String.prefix "approve_" ("reject_" +:+ py_str mid)) with false.
    change (String.prefix "reject_" ("reject_" +:+ py_str mid))
      with (String.prefix "" (py_str mid)).
    replace (String.prefix "" (py_str mid)) with true by (by destruct (py_str mid)).
    unfold Main.reject.
    change ("reject_" +:+ py_str mid) with ("reject" +:+ String "_" (py_str mid)).
    rewrite split_action by reflexivity.
    run_monad. rewrite Hack. run_monad. cbn [lookup list_lookup].
    rewrite py_int_str. unfold Main.connect, Main.commit. run_monad.
    destruct (edit_text_result env _); reflexivity.
Qed.

(** C1 (as amended): when the callback query is acknowledged, an approve
    or a reject action gives the status approved, respectively rejected,
    to the submission whose identifier it names, whatever the status was
    before: there is no test for pending.  Every other column of that
    submission (the schedule date among them), every other submission,
    their order, the users table and the per-user data are as before. *)
Theorem moderation_overwrites_status
    (cfg : Main.Config) (env : Env) (user : Z) (shown : string) (mid : Z)
    (w : World Main.App)
    (Hack : answer_result env (clock w) = None) :
  let query action :=
    {| Main.cq_data := action +:+ py_str mid; Main.cq_from_user_id := user;
       Main.cq_message_text := shown |} in
  let restated st r :=
    if Main.m_id r =? mid
    then {| Main.m_id := Main.m_id r; Main.m_text := Main.m_text r;
            Main.m_submitted_by := Main.m_submitted_by r; Main.m_status := st;
            Main.m_schedule_date := Main.m_schedule_date r;
            Main.m_message_id := Main.m_message_id r |}
    else r in
  let outcome action st :=
    let a' := store (Main.button_callback cfg env (query action) w).2 in
    Main.motivations (Main.db a') = map (restated st) (Main.motivations (Main.db (store w))) /\
    Main.users (Main.db a') = Main.users (Main.db (store w)) /\
    Main.user_data a' = Main.user_data (store w) in
  outcome "approve_" "approved" /\ outcome "reject_" "rejected".
Proof.
  cbv zeta. destruct (moderation_store cfg env user shown mid w Hack) as [-> ->].
  repeat split.
Qed.

(** C1, witness: the pending submission 1 is approved on a world where
    the acknowledgement goes through. *)
Lemma moderation_overwrites_status_witness :
  let w0 := Samples.main_world [Samples.main_user 1 1]
              [Samples.main_motivation 1 "Never give up" "pending" None;
               Samples.main_motivation 2 "Keep going" "pending" None] in
  map (fun r => (Main.m_id r, Main.m_status r, Main.m_schedule_date r))
    (Main.motivations
       (Main.db (store (Main.button_callback Samples.main_cfg Samples.env_ok
                          {| Main.cq_data := "approve_" +:+ py_str 1;
                             Main.cq_from_user_id := 100;
                             Main.cq_message_text := "Yangi motivatsiya" |} w0).2)))
  = [(1, "approved", None); (2, "pending", None)].
Proof.
  cbv zeta.
  rewrite (proj1 (proj1 (moderation_overwrites_status Samples.main_cfg Samples.env_ok 100
                           "Yangi motivatsiya" 1
                           (Samples.main_world [Samples.main_user 1 1]
                              [Samples.main_motivation 1 "Never give up" "pending" None;
                               Samples.main_motivation 2 "Keep going" "pending" None])
                           eq_refl))).
  reflexivity.
Defined.

(** C1, counterexample: submission 1 is approved, then a reject action on
    the same identifier is applied and the stored status changes a second
    time, from approved to rejected. *)
Lemma second_action_changes_status :
  let w0 := Samples.main_world [Samples.main_user 1 1]
              [Samples.main_motivation 1 "Never give up" "pending" None] in
  let w1 := (Main.button_callback Samples.main_cfg Samples.env_ok
               (Samples.main_query 100 "approve_1") w0).2 in
  let w2 := (Main.button_callback Samples.main_cfg Samples.env_ok
               (Samples.main_query 100 "reject_1") w1).2 in
  map Main.m_status (Main.motivations (Main.db (store w0))) = ["pending"] /\
  map Main.m_status (Main.motivations (Main.db (store w1))) = ["approved"] /\
  map Main.m_status (Main.motivations (Main.db (store w2))) = ["rejected"].
Proof. vm_compute. repeat split; reflexivity. Qed.

Lemma py_split_nonempty (sep : ascii) (s : string) :
  exists h t, py_split sep s = h :: t.
Proof.
  induction s as [|a s (h & t & IH)]; simpl; [eauto|].
  destruct (Ascii.eqb a sep); [eauto|]. rewrite IH. eauto.
Qed.

(** C8: a schedule action never reaches its UPDATE.  Whatever follows
    [schedule_] in the callback data, the handler ends with an exception
    and the store is as before; on a pending submission 1 with data
    [schedule_1_1] the exception is the NameError of [timedelta], which
    the module never imports, and the submission stays pending with no
    schedule date. *)
Theorem schedule_action_raises :
  (forall (cfg : Main.Config) (env : Env) (user : Z) (shown rest : string)
          (w : World Main.App),
     exists e w',
       Main.button_callback cfg env
         {| Main.cq_data := "schedule_" +:+ rest; Main.cq_from_user_id := user;
            Main.cq_message_text := shown |} w = (inl e, w') /\
       store w' = store w) /\
  (let w0 := Samples.main_world [Samples.main_user 1 1]
               [Samples.main_motivation 1 "Never give up" "pending" None] in
   let run := Main.button_callback Samples.main_cfg Samples.env_ok
                (Samples.main_query 100 "schedule_1_1") w0 in
   run.1 = inl (Exn "NameError" "name 'timedelta' is not defined") /\
   map (fun r => (Main.m_status r, Main.m_schedule_date r))
     (Main.motivations (Main.db (store run.2))) = [("pending", None)]).
Proof.
  split; [|vm_compute; split; reflexivity].
  intros cfg env user shown rest [s tr lg].
  unfold Main.button_callback. cbn [Main.cq_data].
  change (("schedule_" +:+ rest =? "check_membership")%string) with false.
  change (String.prefix "approve_" ("schedule_" +:+ rest)) with false.
  change (String.prefix "reject_" ("schedule_" +:+ rest)) with false.
  change (String.prefix "schedule_" ("schedule_" +:+ rest)) with (String.prefix "" rest).
  replace (String.prefix "" rest) with true by (by destruct rest).
  unfold Main.schedule_branch.
  change ("schedule_" +:+ rest) with ("schedule" +:+ String "_" rest).
  rewrite py_split_first by reflexivity.
  destruct (py_split_nonempty "_" rest) as (h & t & ->).
  run_monad.
  destruct (answer_result env (length tr)); [eauto|].
  run_monad. cbn [lookup list_lookup].
  destruct t as [|days t]; cbn [lookup list_lookup]; [eauto|].
  unfold Main.load_global.
  change (str_in "datetime" Main.module_globals) with true.
  change (str_in "timedelta" Main.module_globals) with false.
  run_monad. eauto.
Qed.

(** * The daily job and the timer *)

(** C10: the job the timer runs is [lambda: send_daily_motivation], which
    returns the function without calling it.  So however often the
    scheduler wakes up and whether or not the job is due, the world is
    left exactly as it was: nothing is queued and nothing is sent, although
    a call of [send_daily_motivation] itself would queue a delivery. *)
Theorem timer_never_runs_daily_job :
  (forall (env : Env) (due : list bool) (w : World Main.App),
     Main.run_scheduler env due w = (inr tt, w)) /\
  (let w0 := Samples.main_world [Samples.main_user 1 1]
               [Samples.main_motivation 1 "Never give up" "approved" None] in
   Main.job_queue (store (Main.send_daily_motivation Samples.env_ok w0).2) <> [] /\
   Main.job_queue (store (Main.run_scheduler Samples.env_ok [true; true; true] w0).2) = []).
Proof.
  split; [|vm_compute; split; [discriminate|reflexivity]].
  intros env due. unfold Main.run_scheduler.
  induction due as [|d due IH]; intros w; [reflexivity|].
  cbn [for_each]. unfold bind at 1.
  assert (Main.run_pending env d w = (inr tt, w)) as ->.
  { destruct d; [|reflexivity]. by destruct w. }
  apply IH.
Qed.

Lemma daily_loop_run (env : Env) (c : nat) (motivation : string) (users : list Z)
    (w : World Main.App) :
  let j := {| Main.job_user_cell := c; Main.job_motivation := motivation |} in
  exists w' k,
    for_each users (fun row =>
      Main.set_cell c row ;;;
      try_except (Main.run_once env j)
        (fun e => log_error ("Error sending daily motivation to " +:+ py_str row
                               +:+ ": " +:+ exn_str e))) w = (inr tt, w') /\
    Main.db (store w') = Main.db (store w) /\
    Main.user_data (store w') = Main.user_data (store w) /\
    trace w' = trace w /\
    Main.job_queue (store w') = Main.job_queue (store w) ++ replicate k j /\
    (k <= length users)%nat.
Proof.
  cbn zeta. revert w. induction users as [|u us IH]; intros [s tr lg].
  - exists (mkWorld s tr lg), 0%nat. cbn. by rewrite app_nil_r.
  - cbn [for_each]. unfold Main.set_cell, Main.run_once. run_monad.
    destruct (run_once_result env (length tr)) as [e|]; run_monad.
    + edestruct IH as (w' & k & -> & Hd & Hu & Ht & Hq & Hk).
      exists w', k. split; [reflexivity|]. rewrite Hd, Hu, Ht, Hq. cbn. repeat split; lia.
    + edestruct IH as (w' & k & -> & Hd & Hu & Ht & Hq & Hk).
      exists w', (S k). split; [reflexivity|]. rewrite Hd, Hu, Ht, Hq. cbn.
      rewrite <- app_assoc. repeat split; lia.
Qed.

(** C4: a run of the daily job reads the pool of approved submissions
    that have no schedule date or today's, does nothing when the pool is
    empty, and otherwise picks one element of the pool by a random index;
    it sends nothing itself and leaves every table as it was (first
    part).  The delivery is where the code goes wrong: the queued
    callbacks all read the loop variable [user] when they run, after the
    loop, so with users 1 and 2 active both deliveries go to user 2 and
    user 1 gets nothing (second part). *)
Theorem daily_job_reaches_last_user_only :
  (forall (env : Env) (w : World Main.App),
     exists w',
       Main.send_daily_motivation env w = (inr tt, w') /\
       Main.db (store w') = Main.db (store w) /\
       Main.user_data (store w') = Main.user_data (store w) /\
       trace w' = trace w /\
       match Main.select_pool (strftime_now env (clock w) "%Y-%m-%d") (Main.db (store w)) with
       | [] => w' = w
       | pool =>
           exists motivation,
             motivation ∈ pool /\
             Forall (fun j => Main.job_motivation j = motivation)
               (drop (length (Main.job_queue (store w))) (Main.job_queue (store w')))
       end) /\
  (let w0 := Samples.main_world [Samples.main_user 1 1; Samples.main_user 2 1]
               [Samples.main_motivation 1 "Never give up" "approved" None] in
   let w1 := (Main.send_daily_motivation Samples.env_ok w0).2 in
   let w2 := (Main.run_job_queue Samples.env_ok w1).2 in
   Main.select_active_users (Main.db (store w0)) = [1; 2] /\
   length (Main.job_queue (store w1)) = 2%nat /\
   recipients (trace w2) = [ChatId 2; ChatId 2] /\
   bodies_to (ChatId 1) (trace w2) = [] /\
   bodies_to (ChatId 2) (trace w2) = ["Never give up"; "Never give up"]).
Proof.
  split; [|vm_compute; repeat split; reflexivity].
  intros env [s tr lg]. unfold Main.send_daily_motivation, Main.connect. run_monad.
  destruct (Main.select_pool _ _) as [|m pool] eqn:Ep.
  { eexists. split; [reflexivity|]. done. }
  unfold Main.random_choice, Main.new_cell. run_monad.
  destruct (_ !! _) as [motivation|] eqn:Ei.
  2:{ apply lookup_ge_None in Ei. cbn [length] in Ei.
      pose proof (Nat.mod_upper_bound (randbelow env (length tr) (S (length pool)))
                    (S (length pool))). lia. }
  run_monad.
  edestruct (daily_loop_run env (length (Main.cells s)) motivation)
    as (w' & k & -> & Hd & Hu & Ht & Hq & Hk).
  eexists. split; [reflexivity|]. rewrite Hd, Hu, Ht, Hq. cbn.
  repeat split. exists motivation. split.
  - by apply list_elem_of_lookup_2 in Ei.
  - rewrite drop_app_length. by apply Forall_replicate.
Qed.

(** * Text messages *)

Lemma lookups_snoc (tr : list event) (ev : event) :
  lookups (tr ++ [ev]) =
    lookups tr ++ match ev with EvGetChatMember c u => [(c, u)] | _ => [] end.
Proof. unfold lookups. rewrite omap_app. by destruct ev. Qed.

Ltac case_outcomes :=
  repeat match goal with
         | |- context [match ?x with _ => _ end] =>
             lazymatch x with
             | send_message_result _ _ _ _ => destruct x
             | generate_content_result _ _ _ => destruct x
             | edit_text_result _ _ => destruct x
             | answer_result _ _ => destruct x
             | chat_action_result _ _ => destruct x
             | get_chat_member_result _ _ _ _ => destruct x
             end; run_monad
         end.

(** A text message never consults the gate, never touches the users
    table and never changes the per-user data. *)
Lemma handle_message_frame (cfg : Main.Config) (env : Env) (u : Main.Update)
    (w : World Main.App) :
  let w' := (Main.handle_message cfg env u w).2 in
  Main.users (Main.db (store w')) = Main.users (Main.db (store w)) /\
  Main.user_data (store w') = Main.user_data (store w) /\
  lookups (trace w') = lookups (trace w).
Proof.
  cbn zeta. destruct w as [s tr lg].
  unfold Main.handle_message, Main.help_command, Main.about, Main.ai_reply,
    Main.submit_motivation, Main.get_ai_mode, Main.connect, Main.commit,
    Main.insert_motivation, Main.reply_text.
  repeat (repeat match goal with
                 | |- context [if ?b then _ else _] => destruct b
                 end;
          run_monad; case_outcomes);
    cbn [fst snd store trace]; rewrite ?lookups_snoc, ?app_nil_r; auto.
Qed.

(** * Gated features *)

Lemma save_user_run (env : Env) (user : MainBotCode.User) (w : World MainBotCode.App) :
  exists ws,
    MainBotCode.save_user env user w = (inr tt, ws) /\
    trace ws = trace w /\
    MainBotCode.conversations (store ws) = MainBotCode.conversations (store w) /\
    MainBotCode.fsm (store ws) = MainBotCode.fsm (store w).
Proof.
  destruct w as [s tr lg]. unfold MainBotCode.save_user. run_monad.
  eexists. split; [reflexivity|]. done.
Qed.

Lemma save_user_registers (env : Env) (user : MainBotCode.User) (w : World MainBotCode.App) :
  MainBotCode.id user ∈
    map MainBotCode.u_user_id (MainBotCode.users (store (MainBotCode.save_user env user w).2)).
Proof.
  destruct w as [s tr lg]. unfold MainBotCode.save_user. run_monad.
  cbn [snd store MainBotCode.users MainBotCode.set_users].
  rewrite map_update_last_active by done.
  match goal with
  | |- _ ∈ map _ (MainBotCode.insert_or_ignore_user ?r ?us) =>
      destruct (insert_or_ignore_cases r us) as [[Hin ->]|[_ ->]]; [exact Hin|]
  end.
  apply list_elem_of_fmap. eexists. split; [|apply elem_of_insert_by_key; by left]. done.
Qed.

(** [save_user] keeps every row there was, with its columns other than
    last_active, and stamps the rows of the user with the current time. *)
Lemma save_user_keeps (env : Env) (user : MainBotCode.User) (w : World MainBotCode.App) :
  map (fun r => (user_core r, MainBotCode.u_is_admin r)) (MainBotCode.users (store w))
    `sublist_of`
  map (fun r => (user_core r, MainBotCode.u_is_admin r))
    (MainBotCode.users (store (MainBotCode.save_user env user w).2)).
Proof.
  destruct w as [s tr lg]. unfold MainBotCode.save_user. run_monad.
  cbn [snd store MainBotCode.users MainBotCode.set_users].
  rewrite map_update_last_active by done.
  match goal with
  | |- _ `sublist_of` map _ (MainBotCode.insert_or_ignore_user ?r ?us) =>
      destruct (insert_or_ignore_cases r us) as [[_ ->]|[_ ->]]; [done|]
  end.
  apply map_insert_by_key_sublist.
Qed.

Lemma save_user_stamps (env : Env) (user : MainBotCode.User) (w : World MainBotCode.App) :
  Forall (fun r => MainBotCode.u_user_id r = MainBotCode.id user ->
                   MainBotCode.u_last_active r
                   = strftime_now env (clock w) "%Y-%m-%d %H:%M:%S")
    (MainBotCode.users (store (MainBotCode.save_user env user w).2)).
Proof.
  destruct w as [s tr lg]. unfold MainBotCode.save_user. run_monad.
  cbn [snd store MainBotCode.users MainBotCode.set_users].
  unfold MainBotCode.update_last_active. apply Forall_forall.
  intros r (x & -> & _)%list_elem_of_fmap.
  destruct (Z.eqb_spec (MainBotCode.u_user_id x) (MainBotCode.id user)); cbn; [done|].
  intros; congruence.
Qed.

(** [save_user] leaves the rows of the other users as they are. *)
Lemma save_user_others (env : Env) (user : MainBotCode.User) (w : World MainBotCode.App) :
  filter (fun r => MainBotCode.u_user_id r ≠ MainBotCode.id user)
    (MainBotCode.users (store (MainBotCode.save_user env user w).2))
  = filter (fun r => MainBotCode.u_user_id r ≠ MainBotCode.id user)
      (MainBotCode.users (store w)).
Proof.
  destruct w as [s tr lg]. unfold MainBotCode.save_user. run_monad.
  cbn [snd store MainBotCode.users MainBotCode.set_users].
  match goal with
  | |- filter _ (MainBotCode.update_last_active ?t _ ?l) = _ =>
      assert (filter (fun r => MainBotCode.u_user_id r ≠ MainBotCode.id user)
                (MainBotCode.update_last_active t (MainBotCode.id user) l)
              = filter (fun r => MainBotCode.u_user_id r ≠ MainBotCode.id user) l) as ->
  end.
  { unfold MainBotCode.update_last_active.
    match goal with |- context [map _ ?l] => induction l as [|x xs IH] end; [done|].
    cbn [map]. destruct (Z.eqb_spec (MainBotCode.u_user_id x) (MainBotCode.id user)) as [E|E].
    - rewrite !filter_cons_False by (cbn; intros H; by apply H). exact IH.
    - rewrite !filter_cons_True by done. by rewrite IH. }
  match goal with
  | |- filter _ (MainBotCode.insert_or_ignore_user ?r ?us) = _ =>
      destruct (insert_or_ignore_cases r us) as [[_ ->]|[_ ->]]; [done|]
  end.
  apply filter_insert_by_key_out. cbn. intros H. by apply H.
Qed.

(** C5 (as amended): [/ai] in main.py and the site button and free text
    in main_bot_code.py ask the gate first; when it answers no they
    only send the join prompt, whose keyboard has the two join links and
    the re-check button: no ai_mode flag is set and no conversation is
    stored (free text has by then refreshed the sender's users row, before
    the gate).  The text handler of main.py never asks the gate. *)
Theorem gated_features_prompt_to_join
    (env : Env)
    (cfg1 : Main.Config) (u : Main.Update) (w1 : World Main.App)
    (cfg2 : MainBotCode.Config) (message : MainBotCode.Message)
    (w2 : World MainBotCode.App)
    (Hout1 : gate_passes env (clock w1) (Main.CHANNEL_ID cfg1) (Main.GROUP_ID cfg1)
               (Main.effective_user_id u) = false)
    (Hout2 : gate_passes env (clock w2) (MainBotCode.REQUIRED_CHANNEL_ID cfg2)
               (MainBotCode.REQUIRED_GROUP_ID cfg2)
               (MainBotCode.id (MainBotCode.from_user message)) = false) :
  let looked1 := gate_events env (clock w1) (Main.CHANNEL_ID cfg1) (Main.GROUP_ID cfg1)
                   (Main.effective_user_id u) in
  let looked2 := gate_events env (clock w2) (MainBotCode.REQUIRED_CHANNEL_ID cfg2)
                   (MainBotCode.REQUIRED_GROUP_ID cfg2)
                   (MainBotCode.id (MainBotCode.from_user message)) in
  let prompt2 :=
    EvSend (ChatId (MainBotCode.chat_id message))
      "Botdan foydalanish uchun quyidagi kanal va guruhga a'zo bo'ling:"
      (MainBotCode.get_subscription_keyboard cfg2) in
  (exists r ok w',
     Main.ai_command cfg1 env u w1 = (r, w') /\
     store w' = store w1 /\
     trace w' =
       trace w1 ++ looked1 ++
       [EvSend (ChatId (Main.chat_id u))
          "AI bilan suhbatlashish uchun kanal va guruhga a'zo bo'ling:"
          (Main.get_membership_keyboard cfg1) ok]) /\
  (exists r ok w',
     MainBotCode.website_link cfg2 env message w2 = (r, w') /\
     store w' = store w2 /\
     trace w' = trace w2 ++ looked2 ++ [prompt2 ok]) /\
  (exists r ok w',
     MainBotCode.process_message cfg2 env message w2 = (r, w') /\
     store w' = store (MainBotCode.save_user env (MainBotCode.from_user message) w2).2 /\
     MainBotCode.conversations (store w') = MainBotCode.conversations (store w2) /\
     trace w' = trace w2 ++ looked2 ++ [prompt2 ok]) /\
  (exists l1 l2 l3 url1 url2,
     Main.get_membership_keyboard cfg1 =
       InlineKeyboard [[UrlButton l1 url1]; [UrlButton l2 url2];
                       [CallbackButton l3 "check_membership"]]) /\
  (exists l1 l2 l3 url1 url2,
     MainBotCode.get_subscription_keyboard cfg2 =
       InlineKeyboard [[UrlButton l1 url1]; [UrlButton l2 url2];
                       [CallbackButton l3 "check_subscription"]]) /\
  lookups (trace (Main.handle_message cfg1 env u w1).2) = lookups (trace w1).
Proof.
  cbn zeta.
  destruct (check_membership_run cfg1 env (Main.effective_user_id u) w1)
    as (wg1 & G1 & S1 & T1).
  destruct (check_subscription_run cfg2 env
              (MainBotCode.id (MainBotCode.from_user message)) w2) as (wg2 & G2 & S2 & T2).
  destruct (save_user_run env (MainBotCode.from_user message) w2) as (ws & Hs & Hts & Hcs & _).
  destruct (check_subscription_run cfg2 env
              (MainBotCode.id (MainBotCode.from_user message)) ws) as (wg3 & G3 & S3 & T3).
  unfold clock in G3, T3. rewrite Hts in G3, T3. fold (clock w2) in G3, T3.
  rewrite Hout1 in G1. rewrite Hout2 in G2, G3.
  split; [|split; [|split; [|split; [|split]]]].
  - unfold Main.ai_command, Main.reply_text, bind at 1. rewrite G1. cbn [negb].
    rewrite send_message_run. eexists _, _, _. split; [reflexivity|].
    cbn [store trace]. rewrite S1, T1. split; [done|]. by rewrite <- app_assoc.
  - unfold MainBotCode.website_link, MainBotCode.answer, bind at 1. rewrite G2. cbn [negb].
    rewrite send_message_run. eexists _, _, _. split; [reflexivity|].
    cbn [store trace]. rewrite S2, T2. split; [done|]. by rewrite <- app_assoc.
  - unfold MainBotCode.process_message, MainBotCode.answer, bind at 1. rewrite Hs.
    unfold bind at 1. rewrite G3. cbn [negb].
    rewrite send_message_run. eexists _, _, _. split; [reflexivity|].
    cbn [store trace snd]. rewrite S3, T3, Hcs. split; [done|]. split; [done|].
    by rewrite <- app_assoc.
  - unfold Main.get_membership_keyboard. eauto 10.
  - unfold MainBotCode.get_subscription_keyboard. eauto 10.
  - apply handle_message_frame.
Qed.

(** C5, witness: user 7 has not joined the group. *)
Lemma gated_features_prompt_to_join_witness :
  exists r w',
    Main.ai_command Samples.main_cfg Samples.env_outsider (Samples.main_update 7 "/ai" [])
      (Samples.main_world [Samples.main_user 7 1] []) = (r, w') /\
    Main.user_data (store w') = ∅ /\
    bodies_to (ChatId 7) (trace w') =
      ["AI bilan suhbatlashish uchun kanal va guruhga a'zo bo'ling:"].
Proof.
  destruct (gated_features_prompt_to_join Samples.env_outsider
              Samples.main_cfg (Samples.main_update 7 "/ai" [])
              (Samples.main_world [Samples.main_user 7 1] [])
              Samples.bot_cfg (Samples.bot_message 7 "Salom")
              (Samples.bot_world [Samples.bot_user 7 0]) eq_refl eq_refl)
    as [(r & ok & w' & H & S & T) _].
  exists r, w'. rewrite S, T. split; [exact H|]. split; reflexivity.
Defined.

(** C5, counterexample: in main.py user 7, for whom the gate answers no,
    sends a free text and then presses the site button; the text is stored
    as a pending submission, the site link is revealed, and the gate was
    never asked. *)
Lemma text_handler_is_not_gated :
  let w0 := Samples.main_world [Samples.main_user 7 1] [] in
  let w1 := (Main.handle_message Samples.main_cfg Samples.env_outsider
               (Samples.main_update 7 "Hayot go'zal" []) w0).2 in
  let w2 := (Main.handle_message Samples.main_cfg Samples.env_outsider
               (Samples.main_update 7 "Veb sayt" []) w1).2 in
  (Main.check_membership Samples.main_cfg Samples.env_outsider 7 w0).1 = inr false /\
  map (fun r => (Main.m_text r, Main.m_submitted_by r, Main.m_status r))
    (Main.motivations (Main.db (store w1))) = [("Hayot go'zal", 7, "pending")] /\
  bodies_to (ChatId 7) (trace w2) =
    ["Motivatsiyangiz adminga yuborildi. Tasdiqlanishini kuting.";
     "Veb sayt: https://tezkor.example"] /\
  lookups (trace w2) = [].
Proof. vm_compute. repeat split; reflexivity. Qed.

(** * Failures of the completion service *)

(** C6 (as amended): a failure of the completion service is caught in
    both files and exactly one message is sent to the user.  In main.py
    nothing stored changes, the ai_mode flag stays set, and the message is
    "Xato yuz berdi: " followed by the text of the error.  In
    main_bot_code.py the message is one fixed sentence; no conversation is
    stored and the pending states are untouched, and the users table
    changes only by what [save_user] did before the gate: the sender has a
    row, stamped with the time of the message, every row there was is
    kept with its other columns, and the rows of the other users are as
    before. *)
Theorem completion_failure_is_reported
    (env : Env)
    (cfg1 : Main.Config) (u : Main.Update) (w1 : World Main.App)
    (cfg2 : MainBotCode.Config) (message : MainBotCode.Message)
    (w2 : World MainBotCode.App) (e1 e2 : exn)
    (Hmode : default false
               (default ∅ (Main.user_data (store w1) !! Main.effective_user_id u)
                  !! "ai_mode") = true)
    (Hfree1 : str_in (Main.message_text u)
                ["Yordam"; "Biz haqimizda"; "Kanal"; "Guruh"; "Veb sayt"] = false)
    (Hfail1 : generate_content_result env (clock w1) (Main.message_text u) = inl e1)
    (Hin : gate_passes env (clock w2) (MainBotCode.REQUIRED_CHANNEL_ID cfg2)
             (MainBotCode.REQUIRED_GROUP_ID cfg2)
             (MainBotCode.id (MainBotCode.from_user message)) = true)
    (Hfree2 : str_in (MainBotCode.text message) MainBotCode.special_commands = false)
    (Hfail2 : generate_content_result env (S (S (S (clock w2)))) (MainBotCode.text message)
              = inl e2) :
  (exists r ok w',
     Main.handle_message cfg1 env u w1 = (r, w') /\
     store w' = store w1 /\
     trace w' =
       trace w1 ++
       [EvGenerate (Main.message_text u);
        EvSend (ChatId (Main.chat_id u)) ("Xato yuz berdi: " +:+ exn_str e1) NoMarkup ok]) /\
  (exists r ok w' evs,
     MainBotCode.process_message cfg2 env message w2 = (r, w') /\
     store w' = store (MainBotCode.save_user env (MainBotCode.from_user message) w2).2 /\
     MainBotCode.conversations (store w') = MainBotCode.conversations (store w2) /\
     MainBotCode.fsm (store w') = MainBotCode.fsm (store w2) /\
     filter (fun r => MainBotCode.u_user_id r ≠ MainBotCode.id (MainBotCode.from_user message))
       (MainBotCode.users (store w'))
     = filter (fun r => MainBotCode.u_user_id r ≠ MainBotCode.id (MainBotCode.from_user message))
         (MainBotCode.users (store w2)) /\
     MainBotCode.id (MainBotCode.from_user message)
       ∈ map MainBotCode.u_user_id (MainBotCode.users (store w')) /\
     Forall (fun r => MainBotCode.u_user_id r = MainBotCode.id (MainBotCode.from_user message) ->
                      MainBotCode.u_last_active r
                      = strftime_now env (clock w2) "%Y-%m-%d %H:%M:%S")
       (MainBotCode.users (store w')) /\
     map (fun r => (user_core r, MainBotCode.u_is_admin r)) (MainBotCode.users (store w2))
       `sublist_of`
     map (fun r => (user_core r, MainBotCode.u_is_admin r)) (MainBotCode.users (store w')) /\
     trace w' = trace w2 ++ evs /\
     List.filter is_send evs =
       [EvSend (ChatId (MainBotCode.chat_id message)) MainBotCode.generic_error_text
          NoMarkup ok]).
Proof.
  split; [|enough (exists r ok w' evs,
              MainBotCode.process_message cfg2 env message w2 = (r, w') /\
              store w' = store (MainBotCode.save_user env (MainBotCode.from_user message) w2).2 /\
              MainBotCode.conversations (store w') = MainBotCode.conversations (store w2) /\
              trace w' = trace w2 ++ evs /\
              List.filter is_send evs =
                [EvSend (ChatId (MainBotCode.chat_id message)) MainBotCode.generic_error_text
                   NoMarkup ok])
             as (r & ok & w' & evs & H & Hst & Hc & Ht & Hf)].
  2:{ exists r, ok, w', evs. split; [exact H|]. split; [exact Hst|]. split; [exact Hc|].
      rewrite Hst.
      destruct (save_user_run env (MainBotCode.from_user message) w2)
        as (ws & Hs & _ & _ & Hfsm).
      split; [by rewrite Hs|].
      split; [apply save_user_others|].
      split; [apply save_user_registers|].
      split; [apply save_user_stamps|].
      split; [apply save_user_keeps|]. by split. }
  - destruct w1 as [s tr lg]. unfold clock in Hfail1. cbn [store trace] in *.
    cbn [str_in existsb] in Hfree1. rewrite !orb_false_iff in Hfree1.
    destruct Hfree1 as (F1 & F2 & F3 & F4 & F5 & _).
    unfold Main.handle_message. cbn [str_in existsb].
    rewrite F1, F2, F3, F4, F5. cbn [orb].
    unfold Main.get_ai_mode, Main.ai_reply, Main.reply_text. run_monad.
    rewrite Hmode. run_monad. rewrite Hfail1. run_monad.
    case_outcomes;
      (eexists _, _, _; split; [reflexivity|]; cbn [store trace];
       split; [done|]; by rewrite <- app_assoc).
  - destruct (save_user_run env (MainBotCode.from_user message) w2)
      as (ws & Hs & Hts & Hcs & _).
    destruct (check_subscription_run cfg2 env
                (MainBotCode.id (MainBotCode.from_user message)) ws) as (wg & G & S & T).
    unfold clock in G, T. rewrite Hts in G, T. fold (clock w2) in G, T.
    rewrite Hin in G.
    assert (gate_events env (clock w2) (MainBotCode.REQUIRED_CHANNEL_ID cfg2)
              (MainBotCode.REQUIRED_GROUP_ID cfg2)
              (MainBotCode.id (MainBotCode.from_user message))
            = [EvGetChatMember (MainBotCode.REQUIRED_CHANNEL_ID cfg2)
                 (MainBotCode.id (MainBotCode.from_user message));
               EvGetChatMember (MainBotCode.REQUIRED_GROUP_ID cfg2)
                 (MainBotCode.id (MainBotCode.from_user message))]) as Hev.
    { unfold gate_events. unfold gate_passes in Hin.
      by destruct (get_chat_member_result env (clock w2) _ _). }
    rewrite Hev in T. clear Hev.
    unfold MainBotCode.process_message, bind at 1. rewrite Hs.
    unfold bind at 1. rewrite G. cbn [negb]. rewrite Hfree2.
    unfold MainBotCode.answer, MainBotCode.save_conversation.
    destruct wg as [sg trg lgg]. cbn [store trace] in S, T. subst sg trg.
    unfold clock in Hfail2. run_monad. cbn [length]. rewrite ?Nat.add_succ_r, ?Nat.add_0_r.
    destruct (chat_action_result env _) as [ea|]; run_monad.
    + case_outcomes;
        (eexists _, _, _, _; split; [reflexivity|]; cbn [store trace snd];
         split; [done|]; split; [done|];
         split; [rewrite <- !app_assoc; reflexivity|]; reflexivity).
    + cbn [length]. rewrite ?Nat.add_succ_r, ?Nat.add_0_r. rewrite Hfail2. run_monad.
      case_outcomes;
        (eexists _, _, _, _; split; [reflexivity|]; cbn [store trace snd];
         split; [done|]; split; [done|];
         split; [rewrite <- !app_assoc; reflexivity|]; reflexivity).
Qed.

(** C6, witness: the completion service is out of quota while user 1 is
    in AI mode. *)
Lemma completion_failure_is_reported_witness :
  exists r w',
    Main.handle_message Samples.main_cfg (Samples.env_ai_down Samples.quota)
      (Samples.main_update 1 "Salom" []) Samples.in_ai_mode = (r, w') /\
    store w' = store Samples.in_ai_mode /\
    length (trace w') = 2%nat.
Proof.
  destruct (completion_failure_is_reported (Samples.env_ai_down Samples.quota)
              Samples.main_cfg (Samples.main_update 1 "Salom" []) Samples.in_ai_mode
              Samples.bot_cfg (Samples.bot_message 1 "Salom")
              (Samples.bot_world [Samples.bot_user 1 0]) Samples.quota Samples.quota
              eq_refl eq_refl eq_refl eq_refl eq_refl eq_refl)
    as [(r & ok & w' & H & S & T) _].
  exists r, w'. rewrite T. split; [exact H|]. split; [exact S|]. reflexivity.
Defined.

(** C6, counterexample: in main.py the reply to a failed prompt carries
    the text of the error, so it differs from one failure to another. *)
Lemma error_reply_carries_error_text :
  let run e :=
    Main.handle_message Samples.main_cfg (Samples.env_ai_down e)
      (Samples.main_update 1 "Salom" []) Samples.in_ai_mode in
  bodies_to (ChatId 1) (trace (run Samples.quota).2) =
    ["Xato yuz berdi: 429 quota exceeded for project 1234"] /\
  bodies_to (ChatId 1) (trace (run Samples.timeout).2) =
    ["Xato yuz berdi: 504 Deadline Exceeded"] /\
  store (run Samples.quota).2 = store Samples.in_ai_mode.
Proof. vm_compute. repeat split; reflexivity. Qed.

(** * Removing an admin *)

Lemma update_is_admin_rows (env : Env) (v : Z) (target : string)
    (us : list MainBotCode.user_row) :
  Forall (fun r => sql_key_eq_text env (MainBotCode.u_user_id r) target = true ->
                   MainBotCode.u_is_admin r = v)
    (MainBotCode.update_is_admin env v target us).
Proof.
  unfold MainBotCode.update_is_admin.
  induction us as [|r rs IH]; cbn [map]; constructor; auto.
  destruct (sql_key_eq_text env (MainBotCode.u_user_id r) target) eqn:E; cbn; [done|].
  congruence.
Qed.

(** C9: the two guards of [remove_admin_process] compare the text typed
    with [str(message.from_user.id)] and with the entries of ADMIN_IDS as
    texts, and the UPDATE that follows compares the INTEGER key with the
    text as a number.  First part: the users table changes exactly when
    the requester is admitted and the text is neither of these spellings,
    and then the rows whose key equals the text as a number get
    is_admin = 0, every other column and row staying as it was.  Second
    part: with ADMIN_IDS = ["100"] and rows 5 and 100 flagged, requester 5
    is refused on [5] and on [100], but [05] clears the requester's own
    flag and [0100] the flag of the allowlisted 100. *)
Theorem demotion_guards_compare_spellings :
  (forall (cfg : MainBotCode.Config) (env : Env) (message : MainBotCode.Message)
          (w : World MainBotCode.App),
     let requester := py_str (MainBotCode.id (MainBotCode.from_user message)) in
     let target := py_strip (MainBotCode.text message) in
     let before := MainBotCode.users (store w) in
     let after :=
       MainBotCode.users (store (MainBotCode.remove_admin_process cfg env message w).2) in
     let demoted r :=
       {| MainBotCode.u_user_id := MainBotCode.u_user_id r;
          MainBotCode.u_username := MainBotCode.u_username r;
          MainBotCode.u_first_name := MainBotCode.u_first_name r;
          MainBotCode.u_last_name := MainBotCode.u_last_name r;
          MainBotCode.u_is_admin := 0;
          MainBotCode.u_joined_date := MainBotCode.u_joined_date r;
          MainBotCode.u_last_active := MainBotCode.u_last_active r |} in
     if MainBotCode.is_admin_check cfg requester
          (MainBotCode.select_is_admin_text env requester before)
        && negb (String.eqb requester target || str_in target (MainBotCode.ADMIN_IDS cfg))
     then after = map (fun r => if sql_key_eq_text env (MainBotCode.u_user_id r) target
                                then demoted r else r) before
     else after = before) /\
  (let w0 := Samples.bot_world [Samples.bot_user 5 1; Samples.bot_user 100 1] in
   let flags typed :=
     map (fun r => (MainBotCode.u_user_id r, MainBotCode.u_is_admin r))
       (MainBotCode.users
          (store (MainBotCode.remove_admin_process Samples.bot_cfg Samples.env_ok
                    (Samples.bot_message 5 typed) w0).2)) in
   MainBotCode.ADMIN_IDS Samples.bot_cfg = ["100"] /\
   flags "5" = [(5, 1); (100, 1)] /\
   flags "100" = [(5, 1); (100, 1)] /\
   flags "05" = [(5, 0); (100, 1)] /\
   flags "0100" = [(5, 1); (100, 0)]).
Proof.
  split; [|vm_compute; repeat split; reflexivity].
  intros cfg env message [s tr lg]. cbn zeta. cbn [store].
  unfold MainBotCode.remove_admin_process, MainBotCode.admin_required. run_monad.
  destruct (MainBotCode.is_admin_check cfg _ _); cbn [andb].
  2:{ unfold MainBotCode.answer. run_monad. by case_outcomes. }
  unfold MainBotCode.remove_admin_try, MainBotCode.answer, MainBotCode.state_finish.
  destruct (String.eqb _ _); cbn [orb negb]; [run_monad; by case_outcomes|].
  destruct (str_in _ _); cbn [negb]; run_monad; by case_outcomes.
Qed.

(** * What the handlers of main.py write *)

Ltac case_matches :=
  repeat (match goal with
          | |- context [match ?x with _ => _ end] => destruct x eqn:?
          end; run_monad).

Ltac close_writes :=
  cbn [snd store];
  first [ apply rtc_refl
        | apply rtc_once; constructor ].

Lemma approve_writes (env : Env) (data : string) (w : World Main.App) :
  rtc main_write (store w) (store (Main.approve env data w).2).
Proof.
  destruct w as [s tr lg]. unfold Main.approve, Main.connect, Main.commit. run_monad.
  destruct (py_split "_" data !! 1%nat) as [part|]; run_monad; [|close_writes].
  destruct (py_int env part) as [e|mid]; run_monad; [close_writes|].
  destruct (Main.select_text mid _) as [t|]; run_monad; [|close_writes].
  edestruct (send_to_all_run env "motivation") as [lg' ->]. run_monad.
  case_outcomes; close_writes.
Qed.

Lemma reject_writes (env : Env) (data : string) (w : World Main.App) :
  rtc main_write (store w) (store (Main.reject env data w).2).
Proof.
  destruct w as [s tr lg]. unfold Main.reject, Main.connect, Main.commit. run_monad.
  destruct (py_split "_" data !! 1%nat) as [part|]; run_monad; [|close_writes].
  destruct (py_int env part) as [e|mid]; run_monad; [close_writes|].
  case_outcomes; close_writes.
Qed.

Lemma schedule_branch_keeps_store (env : Env) (data : string) (w : World Main.App) :
  store (Main.schedule_branch env data w).2 = store w.
Proof.
  destruct w as [s tr lg]. unfold Main.schedule_branch, Main.load_global.
  change (str_in "datetime" Main.module_globals) with true.
  change (str_in "timedelta" Main.module_globals) with false.
  run_monad.
  destruct (py_split "_" data !! 1%nat); run_monad; [|done].
  destruct (py_split "_" data !! 2%nat); run_monad; done.
Qed.

Lemma start_store (cfg : Main.Config) (env : Env) (u : Main.Update) (w : World Main.App) :
  store (Main.start cfg env u w).2 =
    Main.set_db
      (Main.insert_or_replace_user
         {| Main.u_user_id := Main.effective_user_id u;
            Main.u_username := Main.effective_username u; Main.u_is_active := 1 |}
         (Main.db (store w))) (store w).
Proof.
  destruct w as [s tr lg]. unfold Main.start, Main.connect, Main.commit, Main.reply_text.
  run_monad.
  edestruct (check_membership_run cfg env (Main.effective_user_id u)) as (w' & -> & Hs & _).
  destruct (gate_passes _ _ _ _ _); run_monad; case_outcomes; cbn [snd store]; by rewrite Hs.
Qed.

Lemma stop_store (env : Env) (u : Main.Update) (w : World Main.App) :
  store (Main.stop env u w).2 =
    Main.set_db (Main.deactivate_user (Main.effective_user_id u) (Main.db (store w))) (store w).
Proof.
  destruct w as [s tr lg]. unfold Main.stop, Main.connect, Main.commit, Main.reply_text.
  run_monad. case_outcomes; reflexivity.
Qed.

Lemma button_callback_writes (cfg : Main.Config) (env : Env) (q : Main.CallbackQuery)
    (w : World Main.App) :
  rtc main_write (store w) (store (Main.button_callback cfg env q w).2).
Proof.
  destruct w as [s tr lg]. unfold Main.button_callback. run_monad.
  destruct (answer_result env (length tr)); run_monad; [close_writes|].
  destruct (String.eqb _ _).
  { edestruct (check_membership_run cfg env (Main.cq_from_user_id q)) as (w' & -> & Hs & _).
    destruct w' as [s' tr' lg']. cbn [store] in Hs. subst s'.
    destruct (gate_passes _ _ _ _ _); run_monad; case_outcomes; close_writes. }
  destruct (String.prefix "approve_" _); [apply (approve_writes env _ (mkWorld s _ lg))|].
  destruct (String.prefix "reject_" _); [apply (reject_writes env _ (mkWorld s _ lg))|].
  destruct (String.prefix "schedule_" _).
  { rewrite schedule_branch_keeps_store. close_writes. }
  destruct (String.prefix "like_" _); run_monad; case_outcomes; close_writes.
Qed.

Lemma handle_message_writes (cfg : Main.Config) (env : Env) (u : Main.Update)
    (w : World Main.App) :
  rtc main_write (store w) (store (Main.handle_message cfg env u w).2).
Proof.
  destruct w as [s tr lg].
  unfold Main.handle_message, Main.help_command, Main.about, Main.ai_reply,
    Main.submit_motivation, Main.get_ai_mode, Main.connect, Main.commit, Main.reply_text.
  pose proof (write_submission (Main.message_text u) (Main.effective_user_id u) s) as Hsub.
  unfold Main.insert_motivation in *. cbn [fst] in Hsub.
  repeat (repeat match goal with
                 | |- context [if ?b then _ else _] => destruct b
                 end;
          run_monad; case_outcomes);
    try close_writes.
  all: cbn [snd store]; apply rtc_once; exact Hsub.
Qed.

Lemma ai_command_writes (cfg : Main.Config) (env : Env) (u : Main.Update)
    (w : World Main.App) :
  rtc main_write (store w) (store (Main.ai_command cfg env u w).2).
Proof.
  edestruct (check_membership_run cfg env (Main.effective_user_id u) w) as (w' & Hg & Hs & _).
  unfold Main.ai_command, Main.reply_text, Main.set_ai_mode, bind at 1. rewrite Hg.
  destruct w as [s tr lg], w' as [s' tr' lg']. cbn [store] in Hs. subst s'.
  destruct (gate_passes _ _ _ _ _); cbn [negb]; run_monad; case_outcomes; close_writes.
Qed.

Lemma broadcast_keeps_store (cfg : Main.Config) (env : Env) (u : Main.Update)
    (w : World Main.App) :
  store (Main.broadcast cfg env u w).2 = store w.
Proof.
  destruct w as [s tr lg]. unfold Main.broadcast, Main.connect, Main.reply_text.
  destruct (negb _); [run_monad; by case_outcomes|].
  destruct (bool_decide _); [run_monad; by case_outcomes|].
  run_monad. edestruct (send_to_all_run env "broadcast") as [lg' ->].
  run_monad. by case_outcomes.
Qed.

(** Every handler changes the store only through the statements listed in
    [main_write]. *)
Lemma main_dispatch_writes (cfg : Main.Config) (env : Env) (i : main_incoming)
    (w : World Main.App) :
  rtc main_write (store w) (store (main_dispatch cfg env i w).2).
Proof.
  destruct i as [u|u|u|u|u|u|q|u|due]; cbn [main_dispatch].
  - rewrite start_store. apply rtc_once. constructor.
  - rewrite stop_store. apply rtc_once. constructor.
  - destruct w as [s tr lg]. unfold Main.help_command, Main.reply_text.
    run_monad. case_outcomes; close_writes.
  - apply ai_command_writes.
  - destruct w as [s tr lg]. unfold Main.about, Main.reply_text.
    run_monad. case_outcomes; close_writes.
  - rewrite broadcast_keeps_store. apply rtc_refl.
  - apply button_callback_writes.
  - apply handle_message_writes.
  - destruct due, w; apply rtc_refl.
Qed.

(** * Opting out *)

Lemma deactivate_user_rows (uid : Z) (d : Main.Db) :
  Forall (fun r => Main.u_user_id r = uid -> Main.u_is_active r = 0)
    (Main.users (Main.deactivate_user uid d)).
Proof.
  unfold Main.deactivate_user; cbn [Main.users].
  induction (Main.users d) as [|r rs IH]; cbn [map]; constructor; auto.
  destruct (Z.eqb_spec (Main.u_user_id r) uid); cbn; [done|]. intros; congruence.
Qed.

Lemma insert_or_replace_rows (r : Main.user_row) (d : Main.Db) :
  r ∈ Main.users (Main.insert_or_replace_user r d) /\
  Forall (fun r' => Main.u_user_id r' = Main.u_user_id r -> r' = r)
    (Main.users (Main.insert_or_replace_user r d)).
Proof.
  unfold Main.insert_or_replace_user; cbn [Main.users]. split.
  - apply elem_of_insert_by_key. by left.
  - apply Forall_forall. intros r' [->|Hr']%elem_of_insert_by_key E; [done|].
    apply list_elem_of_filter in Hr' as [Hne _]. done.
Qed.

Lemma approve_users (env : Env) (data : string) (w : World Main.App) :
  Main.users (Main.db (store (Main.approve env data w).2)) = Main.users (Main.db (store w)).
Proof.
  destruct w as [s tr lg]. unfold Main.approve, Main.connect, Main.commit. run_monad.
  destruct (py_split "_" data !! 1%nat) as [part|]; run_monad; [|done].
  destruct (py_int env part) as [e|mid]; run_monad; [done|].
  destruct (Main.select_text mid _) as [t|]; run_monad; [|done].
  edestruct (send_to_all_run env "motivation") as [lg' ->]. run_monad.
  by case_outcomes.
Qed.

Lemma reject_users (env : Env) (data : string) (w : World Main.App) :
  Main.users (Main.db (store (Main.reject env data w).2)) = Main.users (Main.db (store w)).
Proof.
  destruct w as [s tr lg]. unfold Main.reject, Main.connect, Main.commit. run_monad.
  destruct (py_split "_" data !! 1%nat) as [part|]; run_monad; [|done].
  destruct (py_int env part) as [e|mid]; run_monad; [done|].
  by case_outcomes.
Qed.

Lemma button_callback_users (cfg : Main.Config) (env : Env) (q : Main.CallbackQuery)
    (w : World Main.App) :
  Main.users (Main.db (store (Main.button_callback cfg env q w).2))
  = Main.users (Main.db (store w)).
Proof.
  destruct w as [s tr lg]. unfold Main.button_callback. run_monad.
  destruct (answer_result env (length tr)); run_monad; [done|].
  destruct (String.eqb _ _).
  { edestruct (check_membership_run cfg env (Main.cq_from_user_id q)) as (w' & -> & Hs & _).
    destruct w' as [s' tr' lg']. cbn [store] in Hs. subst s'.
    destruct (gate_passes _ _ _ _ _); run_monad; by case_outcomes. }
  destruct (String.prefix "approve_" _); [apply (approve_users env _ (mkWorld s _ lg))|].
  destruct (String.prefix "reject_" _); [apply (reject_users env _ (mkWorld s _ lg))|].
  destruct (String.prefix "schedule_" _).
  { by rewrite schedule_branch_keeps_store. }
  destruct (String.prefix "like_" _); run_monad; by case_outcomes.
Qed.

(** Only [/start] and [/stop] write the users table. *)
Lemma main_dispatch_users (cfg : Main.Config) (env : Env) (i : main_incoming)
    (w : World Main.App) :
  Main.users (Main.db (store (main_dispatch cfg env i w).2)) =
    match i with
    | OnStart u =>
        Main.users
          (Main.insert_or_replace_user
             {| Main.u_user_id := Main.effective_user_id u;
                Main.u_username := Main.effective_username u; Main.u_is_active := 1 |}
             (Main.db (store w)))
    | OnStop u =>
        Main.users (Main.deactivate_user (Main.effective_user_id u) (Main.db (store w)))
    | _ => Main.users (Main.db (store w))
    end.
Proof.
  destruct i as [u|u|u|u|u|u|q|u|due]; cbn [main_dispatch].
  - by rewrite start_store.
  - by rewrite stop_store.
  - destruct w as [s tr lg]. unfold Main.help_command, Main.reply_text.
    run_monad. by case_outcomes.
  - edestruct (check_membership_run cfg env (Main.effective_user_id u) w)
      as (w' & Hg & Hs & _).
    unfold Main.ai_command, Main.reply_text, Main.set_ai_mode, bind at 1. rewrite Hg.
    destruct w as [s tr lg], w' as [s' tr' lg']. cbn [store] in Hs. subst s'.
    destruct (gate_passes _ _ _ _ _); cbn [negb]; run_monad; by case_outcomes.
  - destruct w as [s tr lg]. unfold Main.about, Main.reply_text.
    run_monad. by case_outcomes.
  - by rewrite broadcast_keeps_store.
  - apply button_callback_users.
  - apply handle_message_frame.
  - destruct due, w; reflexivity.
Qed.

Lemma inactive_kept (cfg : Main.Config) (env : Env) (uid : Z) (i : main_incoming)
    (w : World Main.App) :
  starts_user uid i = false ->
  Forall (fun r => Main.u_user_id r = uid -> Main.u_is_active r = 0)
    (Main.users (Main.db (store w))) ->
  Forall (fun r => Main.u_user_id r = uid -> Main.u_is_active r = 0)
    (Main.users (Main.db (store (main_dispatch cfg env i w).2))).
Proof.
  intros Hi Hw. rewrite main_dispatch_users.
  destruct i as [u|u|u|u|u|u|q|u|due]; try exact Hw.
  - cbn [starts_user] in Hi. apply Z.eqb_neq in Hi.
    unfold Main.insert_or_replace_user; cbn [Main.users].
    rewrite Forall_forall in *. intros r [->|Hr]%elem_of_insert_by_key; [done|].
    apply list_elem_of_filter in Hr as [_ Hr]. auto.
  - unfold Main.deactivate_user; cbn [Main.users].
    rewrite Forall_forall in *. intros r (x & -> & Hx)%list_elem_of_fmap.
    destruct (Main.u_user_id x =? Main.effective_user_id u); cbn; auto.
Qed.

(** C7 (as amended): in main.py, after stop every users row of the user
    has is_active = 0 and the other rows are as before.  The flag stays 0
    whatever is served next, texts, /help, /about, /ai, /broadcast, button
    presses, timer wake-ups, /stop and the /start of other users, none of
    which but /start and /stop writes the users table at all; only the
    /start of the user writes the row again, with is_active = 1.  In
    main_bot_code.py stop only replies and changes nothing in the store,
    which has no is_active column. *)
Theorem stop_deactivates_until_start
    (cfg : Main.Config) (env : Env) (u : Main.Update) (w : World Main.App)
    (message : MainBotCode.Message) (w2 : World MainBotCode.App)
    (i : main_incoming) (ins : list main_incoming)
    (Hnostart : forallb (fun j => negb (starts_user (Main.effective_user_id u) j)) ins = true) :
  let uid := Main.effective_user_id u in
  let after_stop := Main.db (store (Main.stop env u w).2) in
  let after_text := Main.db (store (Main.handle_message cfg env u w).2) in
  let after_start := Main.db (store (Main.start cfg env u w).2) in
  let later := Main.db (store (main_serve cfg env ins (Main.stop env u w).2)) in
  let inactive r := Main.u_user_id r = uid -> Main.u_is_active r = 0 in
  let fresh := {| Main.u_user_id := uid; Main.u_username := Main.effective_username u;
                  Main.u_is_active := 1 |} in
  (Main.users after_stop =
     map (fun r => if Main.u_user_id r =? uid
                   then {| Main.u_user_id := Main.u_user_id r;
                           Main.u_username := Main.u_username r; Main.u_is_active := 0 |}
                   else r) (Main.users (Main.db (store w))) /\
   Main.motivations after_stop = Main.motivations (Main.db (store w)) /\
   Forall inactive (Main.users after_stop)) /\
  Main.users after_text = Main.users (Main.db (store w)) /\
  match i with
  | OnStart _ | OnStop _ => True
  | _ => Main.users (Main.db (store (main_dispatch cfg env i w).2))
         = Main.users (Main.db (store w))
  end /\
  Forall inactive (Main.users later) /\
  (fresh ∈ Main.users after_start /\
   Forall (fun r => Main.u_user_id r = uid -> r = fresh) (Main.users after_start)) /\
  store (MainBotCode.stop_command env message w2).2 = store w2.
Proof.
  cbv zeta. rewrite start_store, stop_store. cbn [Main.db Main.set_db].
  split; [split; [done | split; [done | apply deactivate_user_rows]]|].
  split; [apply handle_message_frame|].
  split; [rewrite main_dispatch_users; by destruct i|].
  split.
  { assert (forall w1 : World Main.App,
              Forall (fun r => Main.u_user_id r = Main.effective_user_id u ->
                               Main.u_is_active r = 0) (Main.users (Main.db (store w1))) ->
              Forall (fun r => Main.u_user_id r = Main.effective_user_id u ->
                               Main.u_is_active r = 0)
                (Main.users (Main.db (store (main_serve cfg env ins w1))))) as Hkeep.
    { induction ins as [|j ins IH]; intros w1 Hw1; [exact Hw1|].
      cbn [forallb] in Hnostart. apply andb_true_iff in Hnostart as [Hj Hrest].
      cbn [main_serve]. apply (IH Hrest).
      apply inactive_kept; [by apply negb_true_iff|exact Hw1]. }
    apply Hkeep. rewrite stop_store. cbn [Main.db Main.set_db].
    apply deactivate_user_rows. }
  split; [apply insert_or_replace_rows|].
  unfold MainBotCode.stop_command, MainBotCode.answer. by rewrite send_message_run.
Qed.

(** C7, witness: user 4 stops the bot; a text, /help, /ai, an approve
    button press, a broadcast, the timer and the /start of user 5 follow. *)
Lemma stop_deactivates_until_start_witness :
  let ins := [OnText (Samples.main_update 4 "Salom" []);
              OnHelp (Samples.main_update 4 "/help" []);
              OnAi (Samples.main_update 4 "/ai" []);
              OnCallback (Samples.main_query 100 "approve_1");
              OnBroadcast (Samples.main_update 100 "/broadcast Hello" ["Hello"]);
              OnTimer true;
              OnStart (Samples.main_update 5 "/start" [])] in
  let w0 := Samples.main_world [Samples.main_user 4 1] [] in
  Forall (fun r => Main.u_user_id r = 4 -> Main.u_is_active r = 0)
    (Main.users
       (Main.db (store (main_serve Samples.main_cfg Samples.env_ok ins
                          (Main.stop Samples.env_ok (Samples.main_update 4 "/stop" []) w0).2)))).
Proof.
  cbv zeta.
  apply (stop_deactivates_until_start Samples.main_cfg Samples.env_ok
           (Samples.main_update 4 "/stop" [])
           (Samples.main_world [Samples.main_user 4 1] [])
           (Samples.bot_message 4 "/stop") (Samples.bot_world [])
           (OnTimer true)
           [OnText (Samples.main_update 4 "Salom" []);
            OnHelp (Samples.main_update 4 "/help" []);
            OnAi (Samples.main_update 4 "/ai" []);
            OnCallback (Samples.main_query 100 "approve_1");
            OnBroadcast (Samples.main_update 100 "/broadcast Hello" ["Hello"]);
            OnTimer true;
            OnStart (Samples.main_update 5 "/start" [])]).
  reflexivity.
Defined.

(** C7, counterexample: user 1 stops the bot and then sends a text
    message; the row of user 1 still has is_active = 0. *)
Lemma text_after_stop_stays_inactive :
  let w0 := Samples.main_world [Samples.main_user 1 1] [] in
  let w1 := (Main.stop Samples.env_ok (Samples.main_update 1 "/stop" []) w0).2 in
  let w2 := (Main.handle_message Samples.main_cfg Samples.env_ok
               (Samples.main_update 1 "Salom" []) w1).2 in
  map Main.u_is_active (Main.users (Main.db (store w1))) = [0] /\
  map Main.u_is_active (Main.users (Main.db (store w2))) = [0].
Proof. vm_compute. split; reflexivity. Qed.

(** * Invariants of main.py *)

Lemma le_foldr_max (x : Z) (l : list Z) : x ∈ l -> x <= foldr Z.max 0 l.
Proof.
  induction l as [|y l IH]; [by intros ?%elem_of_nil|].
  intros [->|H]%elem_of_cons; cbn [foldr]; [lia|]. specialize (IH H). lia.
Qed.

Lemma next_motivation_id_fresh (d : Main.Db) :
  Main.next_motivation_id d ∉ map Main.m_id (Main.motivations d).
Proof.
  intros H%le_foldr_max. unfold Main.next_motivation_id in H. lia.
Qed.

Lemma map_update_status (A : Type) (f : Main.motivation_row -> A) (st : string) (mid : Z)
    (ms : list Main.motivation_row) :
  (forall r, f (Main.with_status st r) = f r) ->
  map f (map (fun r => if Main.m_id r =? mid then Main.with_status st r else r) ms) = map f ms.
Proof.
  intros Hf. rewrite map_map. apply map_ext. intros r. by destruct (_ =? _).
Qed.

Lemma main_write_user_ids_nodup (a a' : Main.App) :
  main_write a a' ->
  NoDup (map Main.u_user_id (Main.users (Main.db a))) ->
  NoDup (map Main.u_user_id (Main.users (Main.db a'))).
Proof.
  destruct 1 as [r a|uid a|user a|body uid a|st mid a]; cbn; auto.
  - intros Hn.
    rewrite (Permutation_map Main.u_user_id (insert_by_key_perm Main.u_user_id r _)).
    cbn [map]. apply NoDup_cons. split.
    + intros Hi. apply list_elem_of_fmap in Hi as (y & Hy & Hin).
      apply list_elem_of_filter in Hin as [Hne _]. congruence.
    + induction (Main.users (Main.db a)) as [|x xs IH]; [constructor|].
      cbn [map] in Hn. apply NoDup_cons in Hn as [Hx Hn].
      destruct (decide (Main.u_user_id x ≠ Main.u_user_id r)).
      * rewrite filter_cons_True by done. cbn [map]. apply NoDup_cons. split; [|auto].
        intros Hin. apply Hx. apply list_elem_of_fmap in Hin as (y & -> & Hy).
        apply list_elem_of_filter in Hy as [_ Hy]. apply list_elem_of_fmap. eauto.
      * rewrite filter_cons_False by done. auto.
  - intros Hn. rewrite map_map.
    erewrite map_ext; [exact Hn|]. intros x. by destruct (_ =? _).
Qed.

Lemma main_write_user_ids_grow (a a' : Main.App) (uid : Z) :
  main_write a a' ->
  uid ∈ map Main.u_user_id (Main.users (Main.db a)) ->
  uid ∈ map Main.u_user_id (Main.users (Main.db a')).
Proof.
  destruct 1 as [r a|uid' a|user a|body uid' a|st mid a]; cbn; auto.
  - intros (x & -> & Hx)%list_elem_of_fmap.
    destruct (decide (Main.u_user_id x = Main.u_user_id r)) as [E|E].
    + rewrite E. apply list_elem_of_fmap. exists r. split; [done|].
      apply elem_of_insert_by_key. by left.
    + apply list_elem_of_fmap. exists x. split; [done|].
      apply elem_of_insert_by_key. right. by apply list_elem_of_filter.
  - intros H. rewrite map_map.
    erewrite map_ext; [exact H|]. intros x. by destruct (_ =? _).
Qed.

Lemma main_write_ai_mode (a a' : Main.App) (user : Z) :
  main_write a a' -> ai_mode_of a user = true -> ai_mode_of a' user = true.
Proof.
  destruct 1 as [r a|uid a|user' a|body uid a|st mid a]; cbn; auto.
  unfold ai_mode_of; cbn. intros H.
  destruct (decide (user' = user)) as [->|Hne].
  - rewrite lookup_insert_eq. cbn. by rewrite lookup_insert_eq.
  - by rewrite lookup_insert_ne.
Qed.

Lemma main_write_core (a a' : Main.App) :
  main_write a a' ->
  map submission_core (Main.motivations (Main.db a))
    `prefix_of` map submission_core (Main.motivations (Main.db a')).
Proof.
  destruct 1 as [r a|uid a|user a|body uid a|st mid a]; cbn; try done.
  - rewrite map_app. by apply prefix_app_r.
  - by rewrite map_update_status.
Qed.

Lemma main_write_submission_ids_nodup (a a' : Main.App) :
  main_write a a' ->
  NoDup (map Main.m_id (Main.motivations (Main.db a))) ->
  NoDup (map Main.m_id (Main.motivations (Main.db a'))).
Proof.
  destruct 1 as [r a|uid a|user a|body uid a|st mid a]; cbn; auto.
  - intros Hn. rewrite map_app. apply NoDup_app. split; [done|]. split.
    + intros i Hi [->|[]%elem_of_nil]%elem_of_cons.
      by apply next_motivation_id_fresh in Hi.
    + apply NoDup_singleton.
  - by rewrite map_update_status.
Qed.

Lemma main_serve_rtc (cfg : Main.Config) (env : Env) (ins : list main_incoming)
    (w : World Main.App) :
  rtc main_write (store w) (store (main_serve cfg env ins w)).
Proof.
  revert w. induction ins as [|i ins IH]; intros w; cbn [main_serve]; [apply rtc_refl|].
  etrans; [apply (main_dispatch_writes cfg env i w) | apply IH].
Qed.

Lemma rtc_main_write_invariant (P : Main.App -> Prop) (a a' : Main.App) :
  (forall x y, main_write x y -> P x -> P y) -> rtc main_write a a' -> P a -> P a'.
Proof. intros Hstep. induction 1; eauto. Qed.

(** * What the handlers of main_bot_code.py write *)

Ltac close_bot_writes :=
  cbn [snd store];
  repeat lazymatch goal with
         | |- rtc _ ?s ?s => apply rtc_refl
         | |- rtc _ _ (MainBotCode.set_fsm _ _) => eapply rtc_r; [|apply write_fsm]
         | |- rtc _ _ (MainBotCode.set_conversations _ _) =>
             eapply rtc_r; [|apply write_conversation]
         | |- rtc _ _ (MainBotCode.set_users (MainBotCode.update_is_admin _ _ _ _) _) =>
             eapply rtc_r; [|by apply write_admin]
         | |- rtc _ _ (MainBotCode.set_users (MainBotCode.update_last_active _ _ _) _) =>
             eapply rtc_r; [|by apply write_seen]
         end.

Lemma admin_required_writes (cfg : MainBotCode.Config) (env : Env) (may : bool)
    (func : MainBotCode.Message -> M MainBotCode.App unit) (message : MainBotCode.Message)
    (w : World MainBotCode.App) :
  (forall w0, rtc (bot_write env may) (store w0) (store (func message w0).2)) ->
  rtc (bot_write env may) (store w) (store (MainBotCode.admin_required cfg env func message w).2).
Proof.
  intros Hf. destruct w as [s tr lg]. unfold MainBotCode.admin_required, MainBotCode.answer.
  run_monad. destruct (MainBotCode.is_admin_check _ _ _); [apply (Hf (mkWorld s tr lg))|].
  run_monad. case_outcomes; close_bot_writes.
Qed.

Lemma save_user_writes (env : Env) (may : bool) (user : MainBotCode.User)
    (w : World MainBotCode.App) :
  exists w', MainBotCode.save_user env user w = (inr tt, w') /\
             trace w' = trace w /\ logs w' = logs w /\
             bot_write env may (store w) (store w').
Proof.
  destruct w as [s tr lg]. unfold MainBotCode.save_user. run_monad.
  eexists. split; [reflexivity|]. cbn [store trace logs]. repeat split.
  by apply (write_seen env may
              {| MainBotCode.u_user_id := MainBotCode.id user;
                 MainBotCode.u_username := default "" (MainBotCode.username user);
                 MainBotCode.u_first_name := default "" (MainBotCode.first_name user);
                 MainBotCode.u_last_name := default "" (MainBotCode.last_name user);
                 MainBotCode.u_is_admin := 0;
                 MainBotCode.u_joined_date := strftime_now env (length tr) "%Y-%m-%d %H:%M:%S";
                 MainBotCode.u_last_active := strftime_now env (length tr) "%Y-%m-%d %H:%M:%S" |}
              (strftime_now env (length tr) "%Y-%m-%d %H:%M:%S") s).
Qed.

Lemma get_main_keyboard_run (cfg : MainBotCode.Config) (user_id : Z)
    (w : World MainBotCode.App) :
  exists kb, MainBotCode.get_main_keyboard cfg user_id w = (inr kb, w).
Proof.
  destruct w as [s tr lg]. unfold MainBotCode.get_main_keyboard. run_monad.
  destruct (MainBotCode.is_admin_check _ _ _); eauto.
Qed.

Lemma process_message_writes (cfg : MainBotCode.Config) (env : Env)
    (message : MainBotCode.Message) (w : World MainBotCode.App) :
  rtc (bot_write env false) (store w) (store (MainBotCode.process_message cfg env message w).2).
Proof.
  destruct (save_user_writes env false (MainBotCode.from_user message) w)
    as (ws & Hs & _ & _ & Hw).
  destruct (check_subscription_run cfg env
              (MainBotCode.id (MainBotCode.from_user message)) ws) as (wg & G & S & _).
  unfold MainBotCode.process_message, bind at 1. rewrite Hs. unfold bind at 1. rewrite G.
  eapply rtc_l; [exact Hw|]. rewrite <- S. clear.
  destruct wg as [s tr lg].
  unfold MainBotCode.answer, MainBotCode.save_conversation.
  destruct (gate_passes _ _ _ _ _); cbn [negb].
  - destruct (str_in _ _); run_monad; [close_bot_writes|].
    case_outcomes; close_bot_writes.
  - run_monad. case_outcomes; close_bot_writes.
Qed.

Lemma send_welcome_writes (cfg : MainBotCode.Config) (env : Env)
    (message : MainBotCode.Message) (w : World MainBotCode.App) :
  rtc (bot_write env false) (store w) (store (MainBotCode.send_welcome cfg env message w).2).
Proof.
  destruct (save_user_writes env false (MainBotCode.from_user message) w)
    as (ws & Hs & _ & _ & Hw).
  destruct (check_subscription_run cfg env
              (MainBotCode.id (MainBotCode.from_user message)) ws) as (wg & G & S & _).
  destruct (get_main_keyboard_run cfg (MainBotCode.id (MainBotCode.from_user message)) wg)
    as (kb & K).
  unfold MainBotCode.send_welcome, bind at 1. rewrite Hs. unfold bind at 1. rewrite G.
  eapply rtc_l; [exact Hw|]. rewrite <- S.
  destruct (gate_passes _ _ _ _ _).
  - unfold bind at 1. rewrite K. unfold MainBotCode.answer. rewrite send_message_run.
    apply rtc_refl.
  - unfold MainBotCode.answer. rewrite send_message_run. apply rtc_refl.
Qed.

Lemma broadcast_message_body_writes (env : Env) (message : MainBotCode.Message)
    (w : World MainBotCode.App) :
  rtc (bot_write env false) (store w)
    (store
       ((a <~ get_store ;;
         let users := map MainBotCode.u_user_id (MainBotCode.users a) in
         MainBotCode.answer env message "Xabar yuborish boshlandi..." NoMarkup ;;;
         counts <~ MainBotCode.broadcast_loop env users (MainBotCode.text message) ;;
         let '(sent_count, error_count) := counts in
         MainBotCode.answer env message
           (MainBotCode.broadcast_report sent_count error_count) NoMarkup ;;;
         MainBotCode.state_finish message) w).2).
Proof.
  destruct w as [s tr lg]. unfold MainBotCode.answer, MainBotCode.state_finish.
  unfold MainBotCode.broadcast_loop. run_monad.
  destruct (send_message_result env (length tr) _ _); run_monad; [close_bot_writes|].
  edestruct (broadcast_loop_run env (map MainBotCode.u_user_id (MainBotCode.users s))
               (MainBotCode.text message) 0 0) as [lg' ->].
  run_monad. case_outcomes; close_bot_writes.
Qed.

(** Every handler changes the store only through the statements listed in
    [bot_write], and only the two admin dialogues write is_admin. *)
Lemma bot_dispatch_writes (cfg : MainBotCode.Config) (env : Env) (i : bot_incoming)
    (w : World MainBotCode.App) :
  rtc (bot_write env (writes_admin i)) (store w) (store (bot_dispatch cfg env i w).2).
Proof.
  destruct i; cbn [bot_dispatch writes_admin].
  - apply send_welcome_writes.
  - unfold MainBotCode.stop_command, MainBotCode.answer. rewrite send_message_run.
    apply rtc_refl.
  - destruct w as [s tr lg]. unfold MainBotCode.admin_panel, MainBotCode.answer. run_monad.
    destruct (MainBotCode.is_admin_check _ _ _); run_monad; case_outcomes; close_bot_writes.
  - destruct (get_main_keyboard_run cfg (MainBotCode.id (MainBotCode.from_user m)) w)
      as (kb & K).
    unfold MainBotCode.user_mode, bind at 1, MainBotCode.answer. rewrite K.
    rewrite send_message_run. apply rtc_refl.
  - apply admin_required_writes. intros [s tr lg]. unfold MainBotCode.answer.
    run_monad. case_outcomes; close_bot_writes.
  - apply admin_required_writes. intros [s tr lg].
    unfold MainBotCode.answer, MainBotCode.state_set.
    run_monad. case_outcomes; close_bot_writes.
  - apply admin_required_writes. intros [s tr lg].
    unfold MainBotCode.add_admin_try, MainBotCode.answer, MainBotCode.state_finish.
    run_monad. destruct (MainBotCode.select_user_text env _ _); run_monad;
      case_outcomes; close_bot_writes.
  - apply admin_required_writes. intros [s tr lg].
    unfold MainBotCode.answer, MainBotCode.state_set.
    run_monad. case_outcomes; close_bot_writes.
  - apply admin_required_writes. intros [s tr lg].
    unfold MainBotCode.remove_admin_try, MainBotCode.answer, MainBotCode.state_finish.
    destruct (String.eqb _ _); [run_monad; case_outcomes; close_bot_writes|].
    destruct (str_in _ _); run_monad; case_outcomes; close_bot_writes.
  - apply admin_required_writes. intros [s tr lg].
    unfold MainBotCode.answer, MainBotCode.state_set.
    run_monad. case_outcomes; close_bot_writes.
  - apply admin_required_writes. intros w0. apply broadcast_message_body_writes.
  - destruct (check_subscription_run cfg env
                (MainBotCode.id (MainBotCode.from_user m)) w) as (wg & G & S & _).
    unfold MainBotCode.website_link, bind at 1, MainBotCode.answer. rewrite G.
    destruct (negb _); rewrite send_message_run; cbn [snd store]; rewrite S; apply rtc_refl.
  - destruct w as [s tr lg]. unfold MainBotCode.check_subscription_callback. run_monad.
    destruct (answer_result env (length tr)); run_monad; [close_bot_writes|].
    edestruct (check_subscription_run cfg env from_user_id) as (wg & -> & S & _).
    cbn [store] in S.
    edestruct (get_main_keyboard_run cfg from_user_id wg) as (kb & K).
    destruct (gate_passes _ _ _ _ _).
    + rewrite K. destruct wg. cbn [store] in S. subst. run_monad.
      case_outcomes; close_bot_writes.
    + destruct wg. cbn [store] in S. subst. run_monad. case_outcomes; close_bot_writes.
  - apply process_message_writes.
Qed.

(** * Invariants of main_bot_code.py *)

Lemma bot_write_weaken (env : Env) (may : bool) (a a' : MainBotCode.App) :
  bot_write env may a a' -> bot_write env true a a'.
Proof. destruct 1; by constructor. Qed.

Lemma map_update_is_admin (env : Env) (A : Type) (f : MainBotCode.user_row -> A) (v : Z)
    (target : string) (us : list MainBotCode.user_row) :
  (forall r, f (MainBotCode.with_is_admin v r) = f r) ->
  map f (MainBotCode.update_is_admin env v target us) = map f us.
Proof.
  intros Hf. unfold MainBotCode.update_is_admin. rewrite map_map.
  apply map_ext. intros r. by destruct (sql_key_eq_text env _ _).
Qed.

Lemma bot_write_user_ids_nodup (env : Env) (may : bool) (a a' : MainBotCode.App) :
  bot_write env may a a' ->
  NoDup (map MainBotCode.u_user_id (MainBotCode.users a)) ->
  NoDup (map MainBotCode.u_user_id (MainBotCode.users a')).
Proof.
  destruct 1 as [r t a Hr|v target a Hm|c a|f a]; cbn; auto.
  - rewrite map_update_last_active by done.
    destruct (insert_or_ignore_cases r (MainBotCode.users a)) as [[_ ->]|[Hn ->]]; [done|].
    intros Hd.
    rewrite (Permutation_map MainBotCode.u_user_id
               (insert_by_key_perm MainBotCode.u_user_id r _)).
    cbn [map]. by apply NoDup_cons.
  - by rewrite map_update_is_admin.
Qed.


Lemma bot_write_conversations (env : Env) (may : bool) (a a' : MainBotCode.App) :
  bot_write env may a a' ->
  MainBotCode.conversations a `prefix_of` MainBotCode.conversations a'.
Proof.
  destruct 1 as [r t a Hr|v target a Hm|c a|f a]; cbn; try done. by apply prefix_app_r.
Qed.

(** Without the admin dialogues the admin flags of the rows there are
    stay, and a row that is added has is_admin = 0. *)
Lemma bot_write_is_admin (env : Env) (a a' : MainBotCode.App) :
  bot_write env false a a' ->
  map admin_flag (MainBotCode.users a) `sublist_of` map admin_flag (MainBotCode.users a') /\
  Forall (fun p => p ∈ map admin_flag (MainBotCode.users a) \/ p.2 = 0)
    (map admin_flag (MainBotCode.users a')).
Proof.
  assert (forall l : list (Z * Z), Forall (fun p => p ∈ l \/ p.2 = 0) l) as Hsame.
  { intros l. apply Forall_forall. auto. }
  destruct 1 as [r t a Hr|v target a Hm|c a|f a]; cbn; [|done|by split|by split].
  rewrite map_update_last_active by done.
  destruct (insert_or_ignore_cases r (MainBotCode.users a)) as [[_ ->]|[_ ->]]; [by split|].
  split; [apply map_insert_by_key_sublist|].
  apply Forall_forall. intros p (x & -> & Hx)%list_elem_of_fmap.
  apply elem_of_insert_by_key in Hx as [->|Hx]; [by right|].
  left. apply list_elem_of_fmap. eauto.
Qed.

Lemma bot_serve_rtc (cfg : MainBotCode.Config) (env : Env) (ins : list bot_incoming)
    (w : World MainBotCode.App) :
  rtc (bot_write env true) (store w) (store (bot_serve cfg env ins w)).
Proof.
  revert w. induction ins as [|i ins IH]; intros w; cbn [bot_serve]; [apply rtc_refl|].
  etrans; [|apply IH].
  eapply rtc_subrel; [|apply (bot_dispatch_writes cfg env i w)].
  intros x y. apply bot_write_weaken.
Qed.

Lemma bot_serve_rtc_no_admin (cfg : MainBotCode.Config) (env : Env)
    (ins : list bot_incoming) (w : World MainBotCode.App) :
  forallb (fun i => negb (writes_admin i)) ins = true ->
  rtc (bot_write env false) (store w) (store (bot_serve cfg env ins w)).
Proof.
  revert w. induction ins as [|i ins IH]; intros w; cbn [bot_serve forallb];
    [intros; apply rtc_refl|].
  intros [Hi Hr]%andb_true_iff. etrans; [|by apply IH].
  pose proof (bot_dispatch_writes cfg env i w) as H.
  destruct (writes_admin i); [discriminate|exact H].
Qed.

(** * Properties of whole sessions *)

(** X1: whatever updates main.py serves, the users table keeps one row
    per user identifier and no identifier that is registered disappears
    from it. *)
Theorem main_users_stay_unique_and_registered
    (cfg : Main.Config) (env : Env) (ins : list main_incoming) (w : World Main.App)
    (Hunique : NoDup (map Main.u_user_id (Main.users (Main.db (store w))))) :
  let w' := main_serve cfg env ins w in
  NoDup (map Main.u_user_id (Main.users (Main.db (store w')))) /\
  (forall uid,
     uid ∈ map Main.u_user_id (Main.users (Main.db (store w))) ->
     uid ∈ map Main.u_user_id (Main.users (Main.db (store w')))).
Proof.
  cbn zeta. pose proof (main_serve_rtc cfg env ins w) as Hr. split.
  - apply (rtc_main_write_invariant
             (fun a => NoDup (map Main.u_user_id (Main.users (Main.db a)))) _ _
             main_write_user_ids_nodup Hr Hunique).
  - intros uid.
    apply (rtc_main_write_invariant
             (fun a => uid ∈ map Main.u_user_id (Main.users (Main.db a))) _ _
             (fun x y Hxy => main_write_user_ids_grow x y uid Hxy) Hr).
Qed.

Lemma main_users_stay_unique_and_registered_witness :
  NoDup (map Main.u_user_id
           (Main.users (Main.db (store (main_serve Samples.main_cfg Samples.env_blocked2
                                          Sessions.main_day Samples.three_users))))).
Proof.
  apply (main_users_stay_unique_and_registered Samples.main_cfg Samples.env_blocked2
           Sessions.main_day Samples.three_users).
  apply (bool_decide_unpack _). vm_compute. exact I.
Defined.

(** X2: once a user is in AI mode, no update served by main.py takes the
    user out of it. *)
Theorem ai_mode_is_never_left
    (cfg : Main.Config) (env : Env) (ins : list main_incoming) (w : World Main.App)
    (user : Z)
    (Hmode : ai_mode_of (store w) user = true) :
  ai_mode_of (store (main_serve cfg env ins w)) user = true.
Proof.
  apply (rtc_main_write_invariant (fun a => ai_mode_of a user = true) _ _
           (fun x y Hxy => main_write_ai_mode x y user Hxy)
           (main_serve_rtc cfg env ins w) Hmode).
Qed.

Lemma ai_mode_is_never_left_witness :
  ai_mode_of (store (main_serve Samples.main_cfg Samples.env_ok Sessions.main_day
                       Samples.in_ai_mode)) 1 = true.
Proof.
  apply (ai_mode_is_never_left Samples.main_cfg Samples.env_ok Sessions.main_day
           Samples.in_ai_mode 1).
  reflexivity.
Defined.

(** X3: main.py never deletes, reorders or rewrites a submission: after
    any updates the identifiers, texts and submitters of the submissions
    there were are the first rows of the table, unchanged. *)
Theorem submissions_are_never_lost
    (cfg : Main.Config) (env : Env) (ins : list main_incoming) (w : World Main.App) :
  map submission_core (Main.motivations (Main.db (store w)))
    `prefix_of`
  map submission_core (Main.motivations (Main.db (store (main_serve cfg env ins w)))).
Proof.
  apply (rtc_main_write_invariant
           (fun a => map submission_core (Main.motivations (Main.db (store w)))
                       `prefix_of` map submission_core (Main.motivations (Main.db a)))
           (store w) _); [|apply main_serve_rtc|done].
  intros x y Hxy Hx. etrans; [exact Hx|]. by apply main_write_core.
Qed.

(** X4: the identifiers of the submissions stay pairwise different,
    whatever updates main.py serves. *)
Theorem submission_ids_stay_unique
    (cfg : Main.Config) (env : Env) (ins : list main_incoming) (w : World Main.App)
    (Hunique : NoDup (map Main.m_id (Main.motivations (Main.db (store w))))) :
  NoDup (map Main.m_id (Main.motivations (Main.db (store (main_serve cfg env ins w))))).
Proof.
  apply (rtc_main_write_invariant
           (fun a => NoDup (map Main.m_id (Main.motivations (Main.db a)))) _ _
           main_write_submission_ids_nodup (main_serve_rtc cfg env ins w) Hunique).
Qed.

Lemma submission_ids_stay_unique_witness :
  NoDup (map Main.m_id
           (Main.motivations
              (Main.db (store (main_serve Samples.main_cfg Samples.env_ok
                                 Sessions.main_day Samples.three_users))))).
Proof.
  apply (submission_ids_stay_unique Samples.main_cfg Samples.env_ok Sessions.main_day
           Samples.three_users).
  apply (bool_decide_unpack _). vm_compute. exact I.
Defined.


(** X6: whatever updates main_bot_code.py serves, the users table keeps
    one row per user identifier. *)
Theorem bot_user_ids_stay_unique
    (cfg : MainBotCode.Config) (env : Env) (ins : list bot_incoming)
    (w : World MainBotCode.App)
    (Hunique : NoDup (map MainBotCode.u_user_id (MainBotCode.users (store w)))) :
  NoDup (map MainBotCode.u_user_id (MainBotCode.users (store (bot_serve cfg env ins w)))).
Proof.
  pose proof (bot_serve_rtc cfg env ins w) as Hr.
  induction Hr as [|x y z Hxy _ IH]; [done|].
  apply IH. by eapply bot_write_user_ids_nodup.
Qed.

Lemma bot_user_ids_stay_unique_witness :
  NoDup (map MainBotCode.u_user_id
           (MainBotCode.users (store (bot_serve Samples.bot_cfg Samples.env_ok
                                        Sessions.bot_admin_day Sessions.bot_two_users)))).
Proof.
  apply (bot_user_ids_stay_unique Samples.bot_cfg Samples.env_ok Sessions.bot_admin_day
           Sessions.bot_two_users).
  apply (bool_decide_unpack _). vm_compute. exact I.
Defined.

(** X7: the conversation log of main_bot_code.py is append-only: after
    any updates the rows there were are the first rows of the table,
    unchanged. *)
Theorem conversations_are_append_only
    (cfg : MainBotCode.Config) (env : Env) (ins : list bot_incoming)
    (w : World MainBotCode.App) :
  MainBotCode.conversations (store w)
    `prefix_of` MainBotCode.conversations (store (bot_serve cfg env ins w)).
Proof.
  pose proof (bot_serve_rtc cfg env ins w) as Hr.
  induction Hr as [|x y z Hxy _ IH]; [done|].
  etrans; [by eapply bot_write_conversations|exact IH].
Qed.

(** X8: only the two admin dialogues write is_admin.  When none of the
    updates served goes to [add_admin_process] or [remove_admin_process],
    every row there was keeps its is_admin value, the rows keeping their
    order, and every row added has is_admin = 0. *)
Theorem is_admin_changes_only_in_admin_dialogues
    (cfg : MainBotCode.Config) (env : Env) (ins : list bot_incoming)
    (w : World MainBotCode.App)
    (Hplain : forallb (fun i => negb (writes_admin i)) ins = true) :
  let before := map admin_flag (MainBotCode.users (store w)) in
  let after := map admin_flag (MainBotCode.users (store (bot_serve cfg env ins w))) in
  before `sublist_of` after /\
  Forall (fun p => p ∈ before \/ p.2 = 0) after.
Proof.
  cbn zeta. pose proof (bot_serve_rtc_no_admin cfg env ins w Hplain) as Hr.
  induction Hr as [x|x y z Hxy _ [IHs IHf]].
  - split; [done|]. apply Forall_forall. auto.
  - destruct (bot_write_is_admin env x y Hxy) as [Hs Hf]. split; [by etrans|].
    rewrite Forall_forall in *. intros p Hp.
    destruct (IHf p Hp) as [Hy|H0]; [|by right]. exact (Hf p Hy).
Qed.

Lemma is_admin_changes_only_in_admin_dialogues_witness :
  let after :=
    map admin_flag
      (MainBotCode.users (store (bot_serve Samples.bot_cfg Samples.env_ok
                                   Sessions.bot_plain_day Sessions.bot_two_users))) in
  [(1, 0); (100, 1)] `sublist_of` after /\
  Forall (fun p => p ∈ [(1, 0); (100, 1)] \/ p.2 = 0) after.
Proof.
  apply (is_admin_changes_only_in_admin_dialogues Samples.bot_cfg Samples.env_ok
           Sessions.bot_plain_day Sessions.bot_two_users).
  reflexivity.
Defined.

(** * Authorisation *)

Lemma admin_required_rejects (cfg : MainBotCode.Config) (env : Env)
    (func : MainBotCode.Message -> M MainBotCode.App unit) (message : MainBotCode.Message)
    (w : World MainBotCode.App) :
  (let user_id := py_str (MainBotCode.id (MainBotCode.from_user message)) in
   MainBotCode.is_admin_check cfg user_id
     (MainBotCode.select_is_admin_text env user_id (MainBotCode.users (store w))) = false) ->
  exists r ok,
    MainBotCode.admin_required cfg env func message w =
      (r, mkWorld (store w)
            (trace w ++ [EvSend (ChatId (MainBotCode.chat_id message))
                           "Bu funksiya faqat adminlar uchun." NoMarkup ok])
            (logs w)).
Proof.
  cbn zeta. intros Hnot. destruct w as [s tr lg]. cbn [store] in Hnot.
  unfold MainBotCode.admin_required, MainBotCode.answer. run_monad. rewrite Hnot.
  run_monad. case_outcomes; eauto.
Qed.

(** X9: a requester who is neither in ADMIN_IDS nor flagged is_admin = 1
    gets the one reply "Bu funksiya faqat adminlar uchun." from each of
    the seven admin-only handlers of main_bot_code.py, and the handler does
    nothing else: the tables and the pending states are as before and
    nothing is sent to anybody else. *)
Theorem admin_only_handlers_reject_others
    (cfg : MainBotCode.Config) (env : Env) (message : MainBotCode.Message)
    (w : World MainBotCode.App)
    (Hnot :
       let user_id := py_str (MainBotCode.id (MainBotCode.from_user message)) in
       MainBotCode.is_admin_check cfg user_id
         (MainBotCode.select_is_admin_text env user_id (MainBotCode.users (store w))) = false) :
  Forall
    (fun handler : MainBotCode.Message -> M MainBotCode.App unit =>
       exists r ok,
         handler message w =
           (r, mkWorld (store w)
                 (trace w ++ [EvSend (ChatId (MainBotCode.chat_id message))
                                "Bu funksiya faqat adminlar uchun." NoMarkup ok])
                 (logs w)))
    [MainBotCode.admin_stats cfg env; MainBotCode.add_admin_start cfg env;
     MainBotCode.add_admin_process cfg env; MainBotCode.remove_admin_start cfg env;
     MainBotCode.remove_admin_process cfg env; MainBotCode.broadcast_start cfg env;
     MainBotCode.broadcast_message cfg env].
Proof.
  repeat constructor; by apply admin_required_rejects.
Qed.

Lemma admin_only_handlers_reject_others_witness :
  exists r ok,
    MainBotCode.broadcast_message Samples.bot_cfg Samples.env_ok
      (Samples.bot_message 1 "Hello") Sessions.bot_two_users =
      (r, mkWorld (store Sessions.bot_two_users)
            [EvSend (ChatId 1) "Bu funksiya faqat adminlar uchun." NoMarkup ok] []).
Proof.
  pose proof (admin_only_handlers_reject_others Samples.bot_cfg Samples.env_ok
                (Samples.bot_message 1 "Hello") Sessions.bot_two_users eq_refl) as H.
  apply Forall_lookup_1 with (i := 6%nat) (x := MainBotCode.broadcast_message Samples.bot_cfg
                                                 Samples.env_ok) in H; [exact H|reflexivity].
Defined.

(** X10: [/broadcast] of main.py sends nothing to the users when the
    sender is not in ADMIN_IDS or gives no text: the sender gets the one
    matching reply (for admins only, or the usage line) and the store is
    as before. *)
Theorem broadcast_refuses_without_right_or_text
    (cfg : Main.Config) (env : Env) (u : Main.Update) (w : World Main.App)
    (Hrefuse : int_in (Main.effective_user_id u) (Main.ADMIN_IDS cfg) = false \/
               Main.args u = []) :
  exists r ok,
    Main.broadcast cfg env u w =
      (r, mkWorld (store w)
            (trace w ++
             [EvSend (ChatId (Main.chat_id u))
                (if int_in (Main.effective_user_id u) (Main.ADMIN_IDS cfg)
                 then "Xabar yuborish uchun matn kiriting: /broadcast Xabar matni"
                 else "Bu buyruq faqat adminlar uchun.")
                NoMarkup ok])
            (logs w)).
Proof.
  destruct w as [s tr lg]. unfold Main.broadcast, Main.reply_text.
  destruct (int_in _ _) eqn:E; cbn [negb].
  - destruct Hrefuse as [?|Hargs]; [done|]. rewrite bool_decide_eq_true_2 by done.
    run_monad. case_outcomes; eauto.
  - run_monad. case_outcomes; eauto.
Qed.

Lemma broadcast_refuses_without_right_or_text_witness :
  exists r ok,
    Main.broadcast Samples.main_cfg Samples.env_ok
      (Samples.main_update 1 "/broadcast Hi" ["Hi"]) Samples.three_users =
      (r, mkWorld (store Samples.three_users)
            [EvSend (ChatId 1) "Bu buyruq faqat adminlar uchun." NoMarkup ok] []).
Proof.
  apply (broadcast_refuses_without_right_or_text Samples.main_cfg Samples.env_ok
           (Samples.main_update 1 "/broadcast Hi" ["Hi"]) Samples.three_users).
  left. reflexivity.
Defined.

(** * The admin dialogues *)

Lemma bot_key_of_str (env : Env) (k z : Z) : sql_key_eq_text env k (py_str z) = (k =? z).
Proof. unfold sql_key_eq_text. by rewrite sql_integer_of_str. Qed.



Lemma select_is_admin_kept (env : Env) (who target : string)
    (us : list MainBotCode.user_row) :
  MainBotCode.select_is_admin_text env who us = Some 1 ->
  MainBotCode.select_is_admin_text env who (MainBotCode.update_is_admin env 1 target us) = Some 1.
Proof.
  unfold MainBotCode.select_is_admin_text, MainBotCode.update_is_admin.
  induction us as [|r rs IH]; [done|]. cbn [map]. intros H.
  set (r' := if sql_key_eq_text env (MainBotCode.u_user_id r) target
             then MainBotCode.with_is_admin 1 r else r).
  assert (MainBotCode.u_user_id r' = MainBotCode.u_user_id r) as Hid
    by (unfold r'; by destruct (sql_key_eq_text env _ target)).
  destruct (sql_key_eq_text env (MainBotCode.u_user_id r) who) eqn:E.
  - rewrite filter_cons_True in H by done. cbn in H. injection H as Hr.
    rewrite filter_cons_True by (by rewrite Hid). cbn. f_equal.
    unfold r'. by destruct (sql_key_eq_text env _ target).
  - rewrite filter_cons_False in H by (by rewrite E).
    rewrite filter_cons_False by (by rewrite Hid, E). by apply IH.
Qed.

Lemma demote_promoted (env : Env) (target : string) (us : list MainBotCode.user_row) :
  Forall (fun r => sql_key_eq_text env (MainBotCode.u_user_id r) target = true ->
                   MainBotCode.u_is_admin r = 0) us ->
  MainBotCode.update_is_admin env 0 target (MainBotCode.update_is_admin env 1 target us) = us.
Proof.
  unfold MainBotCode.update_is_admin. induction 1 as [|r rs Hr _ IH]; [done|].
  cbn [map]. rewrite IH. f_equal.
  destruct (sql_key_eq_text env (MainBotCode.u_user_id r) target) eqn:E; cbn.
  - rewrite E. destruct r; cbn in *. by rewrite Hr.
  - by rewrite E.
Qed.

Lemma add_admin_process_store (cfg : MainBotCode.Config) (env : Env)
    (message : MainBotCode.Message) (w : World MainBotCode.App) :
  (let user_id := py_str (MainBotCode.id (MainBotCode.from_user message)) in
   MainBotCode.is_admin_check cfg user_id
     (MainBotCode.select_is_admin_text env user_id (MainBotCode.users (store w))) = true) ->
  let target := py_strip (MainBotCode.text message) in
  MainBotCode.users (store (MainBotCode.add_admin_process cfg env message w).2) =
    match MainBotCode.select_user_text env target (MainBotCode.users (store w)) with
    | None => MainBotCode.users (store w)
    | Some _ => MainBotCode.update_is_admin env 1 target (MainBotCode.users (store w))
    end.
Proof.
  cbn zeta. intros Hadmin. destruct w as [s tr lg]. cbn [store] in *.
  unfold MainBotCode.add_admin_process, MainBotCode.admin_required.
  run_monad. rewrite Hadmin.
  unfold MainBotCode.add_admin_try, MainBotCode.answer, MainBotCode.state_finish.
  run_monad. destruct (MainBotCode.select_user_text env _ _); run_monad; by case_outcomes.
Qed.

Lemma remove_admin_process_store (cfg : MainBotCode.Config) (env : Env)
    (message : MainBotCode.Message) (w : World MainBotCode.App) :
  (let user_id := py_str (MainBotCode.id (MainBotCode.from_user message)) in
   MainBotCode.is_admin_check cfg user_id
     (MainBotCode.select_is_admin_text env user_id (MainBotCode.users (store w))) = true) ->
  let target := py_strip (MainBotCode.text message) in
  MainBotCode.users (store (MainBotCode.remove_admin_process cfg env message w).2) =
    if String.eqb (py_str (MainBotCode.id (MainBotCode.from_user message))) target
       || str_in target (MainBotCode.ADMIN_IDS cfg)
    then MainBotCode.users (store w)
    else MainBotCode.update_is_admin env 0 target (MainBotCode.users (store w)).
Proof.
  cbn zeta. intros Hadmin. destruct w as [s tr lg]. cbn [store] in *.
  unfold MainBotCode.remove_admin_process, MainBotCode.admin_required.
  run_monad. rewrite Hadmin.
  unfold MainBotCode.remove_admin_try, MainBotCode.answer, MainBotCode.state_finish.
  destruct (String.eqb _ _); cbn [orb]; [run_monad; by case_outcomes|].
  destruct (str_in _ _); run_monad; by case_outcomes.
Qed.

Lemma update_is_admin_unmatched (env : Env) (v : Z) (target : string)
    (us : list MainBotCode.user_row) :
  MainBotCode.select_user_text env target us = None ->
  MainBotCode.update_is_admin env v target us = us.
Proof.
  intros E. unfold MainBotCode.update_is_admin. rewrite <- (map_id us) at 2.
  apply map_ext_in. intros r Hr.
  destruct (sql_key_eq_text env (MainBotCode.u_user_id r) target) eqn:Ek; [|done].
  exfalso. unfold MainBotCode.select_user_text in E. apply head_None in E.
  assert (r ∈ filter (fun u => sql_key_eq_text env (MainBotCode.u_user_id u) target = true) us)
    as Hin.
  { apply list_elem_of_filter. split; [done|]. by apply list_elem_of_In. }
  rewrite E in Hin. by apply elem_of_nil in Hin.
Qed.

(** X11: when an admin answers the add-admin prompt, the rows whose
    INTEGER key equals the text typed (stripped, and compared as SQLite
    compares a key with a text) get is_admin = 1 and nothing else in the
    users table changes; when no row has such a key the table is as
    before and the admin is told that the user was not found. *)
Theorem add_admin_promotes_known_users_only
    (cfg : MainBotCode.Config) (env : Env) (message : MainBotCode.Message)
    (w : World MainBotCode.App)
    (Hadmin :
       let user_id := py_str (MainBotCode.id (MainBotCode.from_user message)) in
       MainBotCode.is_admin_check cfg user_id
         (MainBotCode.select_is_admin_text env user_id (MainBotCode.users (store w))) = true) :
  let target := py_strip (MainBotCode.text message) in
  let before := MainBotCode.users (store w) in
  let run := MainBotCode.add_admin_process cfg env message w in
  let matched r := sql_key_eq_text env (MainBotCode.u_user_id r) target in
  let promoted r :=
    {| MainBotCode.u_user_id := MainBotCode.u_user_id r;
       MainBotCode.u_username := MainBotCode.u_username r;
       MainBotCode.u_first_name := MainBotCode.u_first_name r;
       MainBotCode.u_last_name := MainBotCode.u_last_name r;
       MainBotCode.u_is_admin := 1;
       MainBotCode.u_joined_date := MainBotCode.u_joined_date r;
       MainBotCode.u_last_active := MainBotCode.u_last_active r |} in
  MainBotCode.users (store run.2) = map (fun r => if matched r then promoted r else r) before /\
  if existsb matched before
  then head (bodies_to (ChatId (MainBotCode.chat_id message))
               (drop (length (trace w)) (trace run.2)))
       = Some ("Foydalanuvchi (ID: " +:+ target +:+ ") admin qilib tayinlandi.")
  else MainBotCode.users (store run.2) = before /\
       head (bodies_to (ChatId (MainBotCode.chat_id message))
               (drop (length (trace w)) (trace run.2)))
       = Some "Bu ID raqamli foydalanuvchi topilmadi. Foydalanuvchi avval botdan foydalangan bo'lishi kerak.".
Proof.
  cbv zeta.
  assert (existsb (fun r => sql_key_eq_text env (MainBotCode.u_user_id r)
                              (py_strip (MainBotCode.text message)))
            (MainBotCode.users (store w))
          = bool_decide (MainBotCode.select_user_text env
                           (py_strip (MainBotCode.text message))
                           (MainBotCode.users (store w)) <> None)) as ->.
  { unfold MainBotCode.select_user_text. clear Hadmin.
    induction (MainBotCode.users (store w)) as [|r rs IH]; [done|]. cbn [existsb].
    destruct (sql_key_eq_text env (MainBotCode.u_user_id r) _) eqn:E.
    - rewrite filter_cons_True by done. symmetry. by apply bool_decide_eq_true_2.
    - rewrite filter_cons_False by (by rewrite E). exact IH. }
  destruct w as [s tr lg]. cbn [store trace] in *.
  unfold MainBotCode.add_admin_process, MainBotCode.admin_required. run_monad.
  rewrite Hadmin. unfold MainBotCode.add_admin_try, MainBotCode.answer, MainBotCode.state_finish.
  run_monad.
  destruct (MainBotCode.select_user_text env _ _) as [u|] eqn:E.
  - rewrite (bool_decide_eq_true_2 (Some u <> None)) by done. run_monad.
    case_outcomes; cbn [snd store trace MainBotCode.users MainBotCode.set_users
                        MainBotCode.set_fsm];
      (split; [reflexivity|]); rewrite <- ?app_assoc, drop_app_length; cbn;
      by rewrite bool_decide_eq_true_2.
  - rewrite (bool_decide_eq_false_2 (@None MainBotCode.user_row <> None))
      by (intros H; by apply H).
    run_monad.
    pose proof (update_is_admin_unmatched env 1 _ _ E) as Hsame.
    unfold MainBotCode.update_is_admin in Hsame.
    case_outcomes; cbn [snd store trace MainBotCode.users MainBotCode.set_users
                        MainBotCode.set_fsm];
      rewrite <- ?app_assoc, drop_app_length; cbn;
      rewrite bool_decide_eq_true_2 by done; cbn;
      (split; [symmetry; exact Hsame|done]).
Qed.

Lemma add_admin_promotes_known_users_only_witness :
  map admin_flag
    (MainBotCode.users
       (store (MainBotCode.add_admin_process Samples.bot_cfg Samples.env_ok
                 (Samples.bot_message 100 " 1 ") Sessions.bot_two_users).2))
  = [(1, 1); (100, 1)].
Proof.
  pose proof (add_admin_promotes_known_users_only Samples.bot_cfg Samples.env_ok
                (Samples.bot_message 100 " 1 ") Sessions.bot_two_users eq_refl) as H.
  cbv zeta in H. destruct H as [-> _]. reflexivity.
Defined.



(** X13: adding an admin and then removing the same text gives back the
    users table there was, when the rows whose key the text equals had
    is_admin = 0 and the text is neither [str] of the requester's
    identifier nor an entry of ADMIN_IDS. *)
Theorem add_then_remove_admin_restores_table
    (cfg : MainBotCode.Config) (env : Env) (message : MainBotCode.Message)
    (w : World MainBotCode.App)
    (Hadmin :
       let user_id := py_str (MainBotCode.id (MainBotCode.from_user message)) in
       MainBotCode.is_admin_check cfg user_id
         (MainBotCode.select_is_admin_text env user_id (MainBotCode.users (store w))) = true)
    (Hother : String.eqb (py_str (MainBotCode.id (MainBotCode.from_user message)))
                (py_strip (MainBotCode.text message)) = false)
    (Hfree : str_in (py_strip (MainBotCode.text message)) (MainBotCode.ADMIN_IDS cfg) = false)
    (Hplain : Forall (fun r => sql_key_eq_text env (MainBotCode.u_user_id r)
                                 (py_strip (MainBotCode.text message)) = true ->
                               MainBotCode.u_is_admin r = 0)
                (MainBotCode.users (store w))) :
  let w1 := (MainBotCode.add_admin_process cfg env message w).2 in
  let w2 := (MainBotCode.remove_admin_process cfg env message w1).2 in
  MainBotCode.users (store w2) = MainBotCode.users (store w).
Proof.
  cbn zeta.
  pose proof (add_admin_process_store cfg env message w Hadmin) as H1. cbn zeta in H1.
  assert (let user_id := py_str (MainBotCode.id (MainBotCode.from_user message)) in
          MainBotCode.is_admin_check cfg user_id
            (MainBotCode.select_is_admin_text env user_id
               (MainBotCode.users
                  (store (MainBotCode.add_admin_process cfg env message w).2))) = true)
    as Hadmin1.
  { cbn zeta in *. rewrite H1. destruct (MainBotCode.select_user_text env _ _); [|done].
    unfold MainBotCode.is_admin_check in *.
    apply orb_true_iff in Hadmin as [Hl|Hr]; [by rewrite Hl|].
    destruct (MainBotCode.select_is_admin_text env _ (MainBotCode.users (store w)))
      as [v|] eqn:E; [|done].
    apply Z.eqb_eq in Hr. subst v.
    rewrite (select_is_admin_kept _ _ _ _ E). by rewrite orb_true_r. }
  rewrite (remove_admin_process_store cfg env message _ Hadmin1).
  rewrite Hother, Hfree. cbn [orb]. rewrite H1.
  destruct (MainBotCode.select_user_text env _ _) eqn:E.
  - by apply demote_promoted.
  - by apply update_is_admin_unmatched.
Qed.

Lemma add_then_remove_admin_restores_table_witness :
  let w1 := (MainBotCode.add_admin_process Samples.bot_cfg Samples.env_ok
               (Samples.bot_message 100 "1") Sessions.bot_two_users).2 in
  let w2 := (MainBotCode.remove_admin_process Samples.bot_cfg Samples.env_ok
               (Samples.bot_message 100 "1") w1).2 in
  MainBotCode.users (store w2) = MainBotCode.users (store Sessions.bot_two_users).
Proof.
  apply (add_then_remove_admin_restores_table Samples.bot_cfg Samples.env_ok
           (Samples.bot_message 100 "1") Sessions.bot_two_users).
  - reflexivity.
  - reflexivity.
  - reflexivity.
  - apply (bool_decide_unpack _). vm_compute. exact I.
Defined.

(** X14: when an admin's answer to a pending prompt (add admin, remove
    admin, broadcast text) is handled without an exception, the pending
    state of that admin is cleared, whatever the handler decided, and the
    states of the other users are untouched. *)
Theorem pending_state_is_cleared
    (cfg : MainBotCode.Config) (env : Env) (message : MainBotCode.Message)
    (w : World MainBotCode.App)
    (Hadmin :
       let user_id := py_str (MainBotCode.id (MainBotCode.from_user message)) in
       MainBotCode.is_admin_check cfg user_id
         (MainBotCode.select_is_admin_text env user_id (MainBotCode.users (store w))) = true) :
  Forall
    (fun handler : MainBotCode.Message -> M MainBotCode.App unit =>
       (handler message w).1 = inr tt ->
       MainBotCode.fsm (store (handler message w).2)
       = delete (MainBotCode.id (MainBotCode.from_user message)) (MainBotCode.fsm (store w)))
    [MainBotCode.add_admin_process cfg env; MainBotCode.remove_admin_process cfg env;
     MainBotCode.broadcast_message cfg env].
Proof.
  cbn zeta in Hadmin. destruct w as [s tr lg]. cbn [store] in Hadmin.
  repeat constructor.
  - unfold MainBotCode.add_admin_process, MainBotCode.admin_required.
    run_monad. rewrite Hadmin.
    unfold MainBotCode.add_admin_try, MainBotCode.answer, MainBotCode.state_finish.
    run_monad. destruct (MainBotCode.select_user_text env _ _); run_monad;
      case_outcomes; cbn; done.
  - unfold MainBotCode.remove_admin_process, MainBotCode.admin_required.
    run_monad. rewrite Hadmin.
    unfold MainBotCode.remove_admin_try, MainBotCode.answer, MainBotCode.state_finish.
    destruct (String.eqb _ _); [run_monad; case_outcomes; cbn; done|].
    destruct (str_in _ _); run_monad; case_outcomes; cbn; done.
  - unfold MainBotCode.broadcast_message, MainBotCode.admin_required.
    run_monad. rewrite Hadmin.
    unfold MainBotCode.answer, MainBotCode.state_finish, MainBotCode.broadcast_loop.
    run_monad.
    destruct (send_message_result env (length tr) _ _); run_monad; [done|].
    edestruct (broadcast_loop_run env (map MainBotCode.u_user_id (MainBotCode.users s))
                 (MainBotCode.text message) 0 0) as [lg' ->].
    run_monad. case_outcomes; cbn; done.
Qed.

Lemma pending_state_is_cleared_witness :
  let w0 := (MainBotCode.remove_admin_start Samples.bot_cfg Samples.env_ok
               (Samples.bot_message 100 "remove") Sessions.bot_two_users).2 in
  MainBotCode.fsm (store w0) !! 100 = Some MainBotCode.waiting_for_admin_action /\
  MainBotCode.fsm
    (store (MainBotCode.remove_admin_process Samples.bot_cfg Samples.env_ok
              (Samples.bot_message 100 "100") w0).2) !! 100 = None.
Proof.
  split; [reflexivity|].
  pose proof (pending_state_is_cleared Samples.bot_cfg Samples.env_ok
                (Samples.bot_message 100 "100")
                (MainBotCode.remove_admin_start Samples.bot_cfg Samples.env_ok
                   (Samples.bot_message 100 "remove") Sessions.bot_two_users).2
                eq_refl) as H.
  apply Forall_lookup_1 with (i := 1%nat)
    (x := MainBotCode.remove_admin_process Samples.bot_cfg Samples.env_ok) in H;
    [|reflexivity].
  rewrite (H eq_refl). apply lookup_delete_eq.
Defined.

(** * Registration in main.py *)

Lemma insert_over_insert (r0 r : Main.user_row) (d : Main.Db) :
  Main.u_user_id r0 = Main.u_user_id r ->
  Main.insert_or_replace_user r (Main.insert_or_replace_user r0 d)
  = Main.insert_or_replace_user r d.
Proof.
  intros E. unfold Main.insert_or_replace_user; cbn. f_equal. f_equal.
  rewrite filter_insert_by_key_out by (intros H; by apply H).
  rewrite E. induction (Main.users d) as [|x xs IH]; [done|].
  destruct (decide (Main.u_user_id x ≠ Main.u_user_id r)).
  - rewrite !filter_cons_True by done. by rewrite IH.
  - by rewrite !filter_cons_False by done.
Qed.

Lemma insert_over_deactivate (r : Main.user_row) (d : Main.Db) :
  Main.insert_or_replace_user r (Main.deactivate_user (Main.u_user_id r) d)
  = Main.insert_or_replace_user r d.
Proof.
  unfold Main.insert_or_replace_user, Main.deactivate_user; cbn. f_equal. f_equal.
  induction (Main.users d) as [|x xs IH]; [done|]. cbn [map].
  destruct (Z.eqb_spec (Main.u_user_id x) (Main.u_user_id r)) as [E|E].
  - rewrite !filter_cons_False by (cbn; intros H; by apply H). exact IH.
  - rewrite !filter_cons_True by done. by rewrite IH.
Qed.

(** X15: [/start] writes the whole row of the user again, so what was
    there before does not matter: [/start] after [/stop], and [/start]
    after an earlier [/start] of the same user, leave exactly the tables
    that [/start] alone leaves. *)
Theorem start_overrides_earlier_start_and_stop
    (cfg : Main.Config) (env : Env) (earlier u : Main.Update) (w : World Main.App)
    (Hsame : Main.effective_user_id earlier = Main.effective_user_id u) :
  let alone := Main.db (store (Main.start cfg env u w).2) in
  Main.db (store (Main.start cfg env u (Main.stop env earlier w).2).2) = alone /\
  Main.db (store (Main.start cfg env u (Main.start cfg env earlier w).2).2) = alone.
Proof.
  cbn zeta. rewrite !start_store, stop_store. cbn [Main.set_db Main.db].
  split.
  - rewrite Hsame.
    apply (insert_over_deactivate
             {| Main.u_user_id := Main.effective_user_id u;
                Main.u_username := Main.effective_username u; Main.u_is_active := 1 |}).
  - by apply insert_over_insert.
Qed.

Lemma start_overrides_earlier_start_and_stop_witness :
  let u := Samples.main_update 2 "/start" [] in
  Main.db (store (Main.start Samples.main_cfg Samples.env_ok u
                    (Main.stop Samples.env_ok (Samples.main_update 2 "/stop" [])
                       Samples.three_users).2).2)
  = Main.db (store (Main.start Samples.main_cfg Samples.env_ok u Samples.three_users).2).
Proof.
  apply (start_overrides_earlier_start_and_stop Samples.main_cfg Samples.env_ok
           (Samples.main_update 2 "/stop" []) (Samples.main_update 2 "/start" [])
           Samples.three_users).
  reflexivity.
Defined.

(** * Submissions and their approval *)

Lemma approve_button_run (cfg : Main.Config) (env : Env) (user : Z) (shown : string)
    (mid : Z) (w : World Main.App) :
  answer_result env (clock w) = None ->
  let q := {| Main.cq_data := "approve_" +:+ py_str mid; Main.cq_from_user_id := user;
              Main.cq_message_text := shown |} in
  let acked := trace w ++ [EvAnswer true] in
  match Main.select_text mid (Main.db (store w)) with
  | None =>
      Main.button_callback cfg env q w =
        (inl (Exn "TypeError" "'NoneType' object is not subscriptable"),
         mkWorld (store w) acked (logs w))
  | Some text =>
      let kb := Main.like_share_keyboard ("like_" +:+ py_str mid) text in
      let sends :=
        send_events env (S (clock w)) (Main.select_active_users (Main.db (store w))) text kb in
      exists r ok lg,
        Main.button_callback cfg env q w =
          (r, mkWorld
                (Main.set_db (Main.update_status "approved" mid (Main.db (store w))) (store w))
                (acked ++ sends ++
                 [EvEdit ("Motivatsiya tasdiqlandi va yuborildi:" +:+ nl +:+ text) NoMarkup ok])
                lg)
  end.
Proof.
  intros Hack. cbn zeta. destruct w as [s tr lg]. unfold clock in *. cbn [trace store] in *.
  unfold Main.button_callback. cbn [Main.cq_data].
  change (("approve_" +:+ py_str mid =? "check_membership")%string) with false.
  change (String.prefix "approve_" ("approve_" +:+ py_str mid))
    with (String.prefix "" (py_str mid)).
  replace (String.prefix "" (py_str mid)) with true by (by destruct (py_str mid)).
  unfold Main.approve.
  change ("approve_" +:+ py_str mid) with ("approve" +:+ String "_" (py_str mid)).
  rewrite split_action by reflexivity.
  run_monad. rewrite Hack. run_monad. cbn [lookup list_lookup].
  rewrite py_int_str. unfold Main.connect, Main.commit. run_monad.
  rewrite select_text_update_status.
  rewrite bool_decide_eq_true_2 by done.
  destruct (Main.select_text mid (Main.db s)) as [t|] eqn:Et; run_monad; [|done].
  edestruct (send_to_all_run env "motivation") as [lg' ->].
  run_monad.
  assert (Main.select_active_users
            (Main.db (Main.set_db (Main.update_status "approved" mid (Main.db s)) s))
          = Main.select_active_users (Main.db s)) as -> by done.
  case_outcomes; (eexists _, _, _; rewrite <- !app_assoc; reflexivity).
Qed.

Lemma update_status_fresh (st : string) (mid : Z) (ms : list Main.motivation_row) :
  mid ∉ map Main.m_id ms ->
  map (fun r => if Main.m_id r =? mid then Main.with_status st r else r) ms = ms.
Proof.
  intros Hn. rewrite <- (map_id ms) at 2. apply map_ext_in. intros r Hr.
  destruct (Z.eqb_spec (Main.m_id r) mid) as [E|E]; [|done].
  exfalso. apply Hn. apply list_elem_of_fmap. exists r. split; [done|].
  by apply list_elem_of_In.
Qed.

Lemma submission_run (cfg : Main.Config) (env : Env) (u : Main.Update) (w : World Main.App) :
  str_in (Main.message_text u) ["Yordam"; "Biz haqimizda"; "Kanal"; "Guruh"; "Veb sayt"]
    = false ->
  ai_mode_of (store w) (Main.effective_user_id u) = false ->
  let d := Main.db (store w) in
  exists r ok rest lg,
    Main.handle_message cfg env u w =
      (r, mkWorld
            (Main.set_db
               (Main.insert_motivation (Main.message_text u) (Main.effective_user_id u)
                  "pending" d).1 (store w))
            (trace w ++
             EvSend (ChatName (Main.MOTIVATION_GROUP_ID cfg))
               ("Yangi motivatsiya:" +:+ nl +:+ Main.message_text u +:+ nl +:+
                "Yuboruvchi: @" +:+ py_str_opt (Main.effective_username u))
               (Main.moderation_keyboard (Main.next_motivation_id d)) ok :: rest)
            lg) /\
    (ok = false -> rest = []) /\
    (length rest <= 1)%nat.
Proof.
  intros Hfree Hmode. cbn zeta. destruct w as [s tr lg]. cbn [store] in *.
  cbn [str_in existsb] in Hfree. rewrite !orb_false_iff in Hfree.
  destruct Hfree as (F1 & F2 & F3 & F4 & F5 & _).
  unfold Main.handle_message. cbn [str_in existsb].
  rewrite F1, F2, F3, F4, F5. cbn [orb].
  unfold Main.get_ai_mode, Main.submit_motivation, Main.connect, Main.commit,
    Main.reply_text. run_monad.
  unfold ai_mode_of in Hmode. rewrite Hmode.
  unfold Main.insert_motivation. cbn [fst]. run_monad.
  case_outcomes;
    (eexists _, _, _, _; split;
     [rewrite <- ?app_assoc; cbn [app]; reflexivity | split; [done|cbn; lia]]).
Qed.

(** X16: a text that is no menu label, from a user who is not in AI mode,
    is stored as a new row with status pending, the sender as submitter,
    no schedule date and an identifier that no row has yet; the rows there
    were and the users table are untouched.  The row is committed before
    the moderation group is told, so it is stored even when that message
    fails, in which case the sender gets no confirmation. *)
Theorem free_text_is_stored_as_pending
    (cfg : Main.Config) (env : Env) (u : Main.Update) (w : World Main.App)
    (Hfree : str_in (Main.message_text u)
               ["Yordam"; "Biz haqimizda"; "Kanal"; "Guruh"; "Veb sayt"] = false)
    (Hmode : ai_mode_of (store w) (Main.effective_user_id u) = false) :
  let d := Main.db (store w) in
  let i := Main.next_motivation_id d in
  let row := {| Main.m_id := i; Main.m_text := Main.message_text u;
                Main.m_submitted_by := Main.effective_user_id u;
                Main.m_status := "pending"; Main.m_schedule_date := None;
                Main.m_message_id := None |} in
  exists r ok rest w',
    Main.handle_message cfg env u w = (r, w') /\
    Main.motivations (Main.db (store w')) = Main.motivations d ++ [row] /\
    ~ (i ∈ map Main.m_id (Main.motivations d)) /\
    Main.users (Main.db (store w')) = Main.users d /\
    trace w' =
      trace w ++
      EvSend (ChatName (Main.MOTIVATION_GROUP_ID cfg))
        ("Yangi motivatsiya:" +:+ nl +:+ Main.message_text u +:+ nl +:+
         "Yuboruvchi: @" +:+ py_str_opt (Main.effective_username u))
        (Main.moderation_keyboard i) ok :: rest /\
    (ok = false -> rest = []).
Proof.
  cbn zeta. destruct (submission_run cfg env u w Hfree Hmode) as (r & ok & rest & lg & H & Hr & _).
  eexists r, ok, rest, _. split; [exact H|]. cbn [store trace].
  split; [done|]. split; [apply next_motivation_id_fresh|]. done.
Qed.

Lemma free_text_is_stored_as_pending_witness :
  map (fun r => (Main.m_id r, Main.m_text r, Main.m_status r))
    (Main.motivations
       (Main.db (store (Main.handle_message Samples.main_cfg Samples.env_ok
                          (Samples.main_update 2 "Never give up" [])
                          Samples.three_users).2)))
  = [(1, "Never give up", "pending")].
Proof.
  destruct (free_text_is_stored_as_pending Samples.main_cfg Samples.env_ok
              (Samples.main_update 2 "Never give up" []) Samples.three_users
              eq_refl eq_refl) as (r & ok & rest & w' & H & Hm & _).
  rewrite H. cbn [snd]. rewrite Hm. reflexivity.
Defined.

(** X17: the approve button that is sent to the moderation group with a
    new submission names exactly that submission: pressing it sets the
    status of the new row to approved and changes no other row. *)
Theorem approve_button_approves_its_submission
    (cfg : Main.Config) (env : Env) (u : Main.Update) (moderator : Z) (shown : string)
    (w : World Main.App)
    (Hfree : str_in (Main.message_text u)
               ["Yordam"; "Biz haqimizda"; "Kanal"; "Guruh"; "Veb sayt"] = false)
    (Hmode : ai_mode_of (store w) (Main.effective_user_id u) = false)
    (Hack : answer_result env (clock (Main.handle_message cfg env u w).2) = None) :
  let d := Main.db (store w) in
  let i := Main.next_motivation_id d in
  let w1 := (Main.handle_message cfg env u w).2 in
  let data := "approve_" +:+ py_str i in
  let w2 := (Main.button_callback cfg env
               {| Main.cq_data := data; Main.cq_from_user_id := moderator;
                  Main.cq_message_text := shown |} w1).2 in
  (exists label others rows,
     Main.moderation_keyboard i
     = InlineKeyboard ((CallbackButton label data :: others) :: rows)) /\
  Main.motivations (Main.db (store w2)) =
    Main.motivations d ++
    [{| Main.m_id := i; Main.m_text := Main.message_text u;
        Main.m_submitted_by := Main.effective_user_id u;
        Main.m_status := "approved"; Main.m_schedule_date := None;
        Main.m_message_id := None |}].
Proof.
  cbn zeta. split; [unfold Main.moderation_keyboard; eauto|].
  destruct (submission_run cfg env u w Hfree Hmode) as (r & ok & rest & lg & H & _).
  rewrite H in Hack |- *. cbn [snd] in *.
  pose proof (approve_button_run cfg env moderator shown
                (Main.next_motivation_id (Main.db (store w))) _ Hack) as Ha.
  cbn zeta in Ha. cbn [store] in Ha.
  assert (Main.motivations
            (Main.update_status "approved" (Main.next_motivation_id (Main.db (store w)))
               (Main.insert_motivation (Main.message_text u) (Main.effective_user_id u)
                  "pending" (Main.db (store w))).1)
          = Main.motivations (Main.db (store w)) ++
            [{| Main.m_id := Main.next_motivation_id (Main.db (store w));
                Main.m_text := Main.message_text u;
                Main.m_submitted_by := Main.effective_user_id u;
                Main.m_status := "approved"; Main.m_schedule_date := None;
                Main.m_message_id := None |}]) as Hm.
  { cbn. rewrite map_app. cbn. rewrite Z.eqb_refl.
    by rewrite (update_status_fresh _ _ _ (next_motivation_id_fresh (Main.db (store w)))). }
  destruct (Main.select_text _ _) eqn:Et.
  - destruct Ha as (r' & ok' & lg' & ->). cbn [snd store]. exact Hm.
  - exfalso. revert Et. unfold Main.select_text. cbn.
    rewrite filter_app, filter_cons_True by done.
    destruct (filter _ (Main.motivations (Main.db (store w)))); discriminate.
Qed.

Lemma approve_button_approves_its_submission_witness :
  let w1 := (Main.handle_message Samples.main_cfg Samples.env_ok
               (Samples.main_update 2 "Never give up" []) Samples.three_users).2 in
  map Main.m_status
    (Main.motivations
       (Main.db (store (Main.button_callback Samples.main_cfg Samples.env_ok
                          {| Main.cq_data := "approve_" +:+ py_str 1;
                             Main.cq_from_user_id := 100;
                             Main.cq_message_text := "Yangi motivatsiya" |} w1).2)))
  = ["approved"].
Proof.
  destruct (approve_button_approves_its_submission Samples.main_cfg Samples.env_ok
              (Samples.main_update 2 "Never give up" []) 100 "Yangi motivatsiya"
              Samples.three_users eq_refl eq_refl eq_refl) as [_ H].
  cbn zeta. etrans; [exact (f_equal (map Main.m_status) H)|]. reflexivity.
Defined.

(** X18: an acknowledged approve action on an identifier that no
    submission has raises a TypeError before anything is committed or
    sent.  On an identifier that exists, the text of that submission is
    sent, with the like and share buttons, to the users with
    is_active = 1 and to nobody else, one attempt each in table order
    whatever the earlier attempts gave, and then the moderation message is
    edited. *)
Theorem approve_fans_out_to_active_users
    (cfg : Main.Config) (env : Env) (moderator : Z) (shown : string) (mid : Z)
    (w : World Main.App)
    (Hack : answer_result env (clock w) = None) :
  let q := {| Main.cq_data := "approve_" +:+ py_str mid; Main.cq_from_user_id := moderator;
              Main.cq_message_text := shown |} in
  match Main.select_text mid (Main.db (store w)) with
  | None =>
      Main.button_callback cfg env q w =
        (inl (Exn "TypeError" "'NoneType' object is not subscriptable"),
         mkWorld (store w) (trace w ++ [EvAnswer true]) (logs w))
  | Some text =>
      exists r w' sends edit,
        Main.button_callback cfg env q w = (r, w') /\
        trace w' = trace w ++ [EvAnswer true] ++ sends ++ [edit] /\
        recipients sends = map ChatId (Main.select_active_users (Main.db (store w))) /\
        Forall (fun e => exists to ok,
                  e = EvSend to text
                        (Main.like_share_keyboard ("like_" +:+ py_str mid) text) ok) sends /\
        is_send edit = false
  end.
Proof.
  cbn zeta. pose proof (approve_button_run cfg env moderator shown mid w Hack) as H.
  cbn zeta in H. destruct (Main.select_text _ _) as [text|]; [|exact H].
  destruct H as (r & ok & lg & H).
  eexists r, _,
    (send_events env (S (clock w)) (Main.select_active_users (Main.db (store w))) text
       (Main.like_share_keyboard ("like_" +:+ py_str mid) text)),
    (EvEdit ("Motivatsiya tasdiqlandi va yuborildi:" +:+ nl +:+ text) NoMarkup ok).
  split; [exact H|]. cbn [trace].
  split; [by rewrite <- app_assoc|].
  split; [apply send_events_recipients|]. split; [|done].
  eapply Forall_impl; [apply send_events_all_sends|].
  intros e (to & ok' & ->). eauto.
Qed.

Lemma approve_fans_out_to_active_users_witness :
  let w0 := Samples.main_world
              [Samples.main_user 1 1; Samples.main_user 2 0; Samples.main_user 3 1]
              [Samples.main_motivation 1 "Never give up" "pending" None] in
  exists r w' sends edit,
    Main.button_callback Samples.main_cfg Samples.env_ok
      {| Main.cq_data := "approve_" +:+ py_str 1; Main.cq_from_user_id := 100;
         Main.cq_message_text := "Yangi motivatsiya" |} w0 = (r, w') /\
    trace w' = [EvAnswer true] ++ sends ++ [edit] /\
    recipients sends = [ChatId 1; ChatId 3].
Proof.
  pose proof (approve_fans_out_to_active_users Samples.main_cfg Samples.env_ok 100
                "Yangi motivatsiya" 1
                (Samples.main_world
                   [Samples.main_user 1 1; Samples.main_user 2 0; Samples.main_user 3 1]
                   [Samples.main_motivation 1 "Never give up" "pending" None])
                eq_refl) as H.
  cbn zeta in H.
  change (Main.select_text 1 _) with (Some "Never give up") in H.
  destruct H as (r & w' & sends & edit & H & T & R & _).
  exists r, w', sends, edit. split; [exact H|]. split; [exact T|]. exact R.
Defined.

(** * Who receives a broadcast *)

Lemma broadcast_run (cfg : Main.Config) (env : Env) (b : Main.Update) (w : World Main.App) :
  int_in (Main.effective_user_id b) (Main.ADMIN_IDS cfg) = true ->
  Main.args b <> [] ->
  exists r ok lg,
    Main.broadcast cfg env b w =
      (r, mkWorld (store w)
            (trace w ++
             send_events env (clock w) (Main.select_active_users (Main.db (store w)))
               (py_join " " (Main.args b)) NoMarkup ++
             [EvSend (ChatId (Main.chat_id b)) "Xabar barcha foydalanuvchilarga yuborildi."
                NoMarkup ok]) lg).
Proof.
  intros Hadmin Hargs. unfold Main.broadcast. rewrite Hadmin. cbn [negb].
  rewrite bool_decide_eq_false_2 by done.
  unfold Main.connect, Main.reply_text. destruct w as [s tr lg].
  destruct (send_to_all_run env "broadcast" (Main.select_active_users (Main.db s))
              (py_join " " (Main.args b)) NoMarkup (mkWorld s tr lg)) as [lg' Hloop].
  cbv beta iota zeta delta [bind get_store ret store].
  rewrite Hloop, send_message_run. cbn [store trace logs].
  rewrite <- app_assoc. eauto.
Qed.

Lemma active_after_insert (r : Main.user_row) (d : Main.Db) :
  Main.u_is_active r = 1 ->
  Main.u_user_id r ∈ Main.select_active_users (Main.insert_or_replace_user r d).
Proof.
  intros Hactive. unfold Main.select_active_users, Main.insert_or_replace_user.
  cbn [Main.users]. apply list_elem_of_fmap. exists r. split; [done|].
  apply list_elem_of_filter. split; [done|].
  apply elem_of_insert_by_key. by left.
Qed.

Lemma inactive_after_deactivate (uid : Z) (d : Main.Db) :
  ~ (uid ∈ Main.select_active_users (Main.deactivate_user uid d)).
Proof.
  unfold Main.select_active_users. intros Hin.
  apply list_elem_of_fmap in Hin as (r & -> & Hr).
  apply list_elem_of_filter in Hr as [Hactive Hr].
  pose proof (deactivate_user_rows (Main.u_user_id r) d) as Hall.
  rewrite Forall_forall in Hall. specialize (Hall r Hr eq_refl). lia.
Qed.

Lemma recipients_app (l1 l2 : list event) :
  recipients (l1 ++ l2) = recipients l1 ++ recipients l2.
Proof. unfold recipients. apply omap_app. Qed.

(** X19: the recipients of a broadcast follow the last /start or /stop of
    a user, not the membership gate: a user who has sent /start is among
    the recipients of the next broadcast whatever the gate answered, and a
    user who has sent /stop is not sent the next broadcast. *)
Theorem broadcast_follows_start_and_stop
    (cfg : Main.Config) (env : Env) (u b : Main.Update) (w : World Main.App)
    (Hadmin : int_in (Main.effective_user_id b) (Main.ADMIN_IDS cfg) = true)
    (Hargs : Main.args b <> []) :
  let uid := Main.effective_user_id u in
  let reached (w1 : World Main.App) :=
    recipients (drop (length (trace w1)) (trace (Main.broadcast cfg env b w1).2)) in
  ChatId uid ∈ reached (Main.start cfg env u w).2 /\
  (Main.chat_id b <> uid -> ~ (ChatId uid ∈ reached (Main.stop env u w).2)).
Proof.
  cbv beta zeta.
  assert (forall w1 : World Main.App,
            recipients (drop (length (trace w1)) (trace (Main.broadcast cfg env b w1).2))
            = map ChatId (Main.select_active_users (Main.db (store w1)))
              ++ [ChatId (Main.chat_id b)]) as Hreached.
  { intros w1. destruct (broadcast_run cfg env b w1 Hadmin Hargs) as (r & ok & lg & ->).
    cbn [snd trace]. rewrite drop_app_length, recipients_app.
    by rewrite send_events_recipients. }
  rewrite !Hreached, start_store, stop_store. cbn [Main.db Main.set_db]. split.
  - apply elem_of_app. left. apply list_elem_of_fmap.
    exists (Main.effective_user_id u). split; [done|].
    by apply (active_after_insert
                {| Main.u_user_id := Main.effective_user_id u;
                   Main.u_username := Main.effective_username u; Main.u_is_active := 1 |}).
  - intros Hother Hin. apply elem_of_app in Hin as [Hin|Hin].
    + apply list_elem_of_fmap in Hin as (x & [= <-] & Hx).
      by apply inactive_after_deactivate in Hx.
    + apply list_elem_of_singleton in Hin. congruence.
Qed.

Lemma broadcast_follows_start_and_stop_witness :
  let b := Samples.main_update 100 "/broadcast Hello" ["Hello"] in
  let reached (w1 : World Main.App) :=
    recipients (drop (length (trace w1))
                  (trace (Main.broadcast Samples.main_cfg Samples.env_outsider b w1).2)) in
  ChatId 4 ∈ reached (Main.start Samples.main_cfg Samples.env_outsider
                        (Samples.main_update 4 "/start" []) Samples.three_users).2 /\
  (100 <> 4 ->
   ~ (ChatId 4 ∈ reached (Main.stop Samples.env_outsider
                            (Samples.main_update 4 "/stop" []) Samples.three_users).2)).
Proof.
  apply (broadcast_follows_start_and_stop Samples.main_cfg Samples.env_outsider
           (Samples.main_update 4 "/start" []) (Samples.main_update 100 "/broadcast Hello" ["Hello"])
           Samples.three_users); [reflexivity | discriminate].
Defined.

(** * Entering the AI chat *)

Lemma gate_events_passed (env : Env) (t : nat) (channel group : string) (user : Z) :
  gate_passes env t channel group user = true ->
  gate_events env t channel group user =
    [EvGetChatMember channel user; EvGetChatMember group user].
Proof.
  unfold gate_passes, gate_events.
  by destruct (get_chat_member_result env t channel user).
Qed.

Lemma ai_command_run (cfg : Main.Config) (env : Env) (u : Main.Update) (w : World Main.App) :
  gate_passes env (clock w) (Main.CHANNEL_ID cfg) (Main.GROUP_ID cfg)
    (Main.effective_user_id u) = true ->
  let uid := Main.effective_user_id u in
  let greeting := "Gemini AI bilan suhbat boshlandi. Savolingizni yozing:" in
  let outcome := send_message_result env (S (S (clock w))) (ChatId (Main.chat_id u)) greeting in
  exists lg,
    Main.ai_command cfg env u w =
      (match outcome with Some e => inl e | None => inr tt end,
       mkWorld
         (match outcome with
          | Some _ => store w
          | None =>
              Main.set_user_data
                (<[uid := <["ai_mode" := true]> (default ∅ (Main.user_data (store w) !! uid))]>
                   (Main.user_data (store w))) (store w)
          end)
         (trace w ++
          [EvGetChatMember (Main.CHANNEL_ID cfg) uid; EvGetChatMember (Main.GROUP_ID cfg) uid;
           EvSend (ChatId (Main.chat_id u)) greeting NoMarkup
             (bool_decide (outcome = None))])
         lg).
Proof.
  intros Hin. cbv zeta.
  destruct (check_membership_run cfg env (Main.effective_user_id u) w) as (wg & G & S & T).
  rewrite Hin in G. rewrite (gate_events_passed _ _ _ _ _ Hin) in T.
  unfold Main.ai_command, bind at 1. rewrite G. cbn [negb].
  destruct wg as [sg trg lgg], w as [s tr lg]. cbn [store trace] in S, T. subst sg trg.
  unfold Main.reply_text, Main.set_ai_mode. run_monad.
  cbn [length]. rewrite ?Nat.add_succ_r, ?Nat.add_0_r.
  destruct (send_message_result env (S (S (length tr))) _ _) as [e|]; run_monad;
    rewrite <- app_assoc; cbn [app]; eauto.
Qed.

(** X20: [/ai] of a member switches AI mode on for that user only, and
    only after the greeting was delivered: when sending the greeting
    fails, the error escapes and the store is as before, so the next text
    of the user is still taken as a submission.  The tables and the AI
    mode of every other user are never touched. *)
Theorem ai_mode_needs_delivered_greeting
    (cfg : Main.Config) (env : Env) (u : Main.Update) (w : World Main.App)
    (Hin : gate_passes env (clock w) (Main.CHANNEL_ID cfg) (Main.GROUP_ID cfg)
             (Main.effective_user_id u) = true) :
  let uid := Main.effective_user_id u in
  let greeting := "Gemini AI bilan suhbat boshlandi. Savolingizni yozing:" in
  let run := Main.ai_command cfg env u w in
  Main.db (store run.2) = Main.db (store w) /\
  (forall v, v <> uid -> ai_mode_of (store run.2) v = ai_mode_of (store w) v) /\
  match send_message_result env (S (S (clock w))) (ChatId (Main.chat_id u)) greeting with
  | None => run.1 = inr tt /\ ai_mode_of (store run.2) uid = true
  | Some e => run.1 = inl e /\ store run.2 = store w
  end.
Proof.
  cbv zeta. destruct (ai_command_run cfg env u w Hin) as [lg' ->]. cbv zeta.
  destruct (send_message_result env (S (S (clock w))) _ _) as [e|];
    cbn [fst snd store Main.db Main.set_user_data]; [done|].
  split; [done|]. unfold ai_mode_of, Main.set_user_data; cbn [Main.user_data]. split.
  - intros v Hv. by rewrite lookup_insert_ne.
  - split; [done|]. rewrite lookup_insert_eq. cbn. by rewrite lookup_insert_eq.
Qed.

Lemma ai_mode_needs_delivered_greeting_witness :
  let run := Main.ai_command Samples.main_cfg Samples.env_ok
               (Samples.main_update 1 "/ai" []) Samples.three_users in
  run.1 = inr tt /\ ai_mode_of (store run.2) 1 = true /\ ai_mode_of (store run.2) 2 = false.
Proof.
  pose proof (ai_mode_needs_delivered_greeting Samples.main_cfg Samples.env_ok
                (Samples.main_update 1 "/ai" []) Samples.three_users eq_refl)
    as (_ & Hothers & Hsent).
  cbv zeta in *. cbn [Samples.env_ok send_message_result] in Hsent.
  destruct Hsent as [Hr Hon].
  split; [exact Hr|]. split; [exact Hon|].
  rewrite (Hothers 2) by discriminate. reflexivity.
Defined.

(** * Texts in main.py *)



(** X22: in AI mode a text that is no menu label is forwarded unchanged
    to the completion service and the answer is sent back unchanged;
    nothing is stored.  The reply is sent inside the same [try] as the
    request, so when the reply cannot be delivered a second message is
    attempted, with the text of that error. *)
Theorem ai_answer_is_relayed_verbatim
    (cfg : Main.Config) (env : Env) (u : Main.Update) (w : World Main.App)
    (response : string)
    (Hmode : ai_mode_of (store w) (Main.effective_user_id u) = true)
    (Hfree : str_in (Main.message_text u)
               ["Yordam"; "Biz haqimizda"; "Kanal"; "Guruh"; "Veb sayt"] = false)
    (Hanswer : generate_content_result env (clock w) (Main.message_text u) = inr response) :
  let to := ChatId (Main.chat_id u) in
  exists r ok2 w',
    Main.handle_message cfg env u w = (r, w') /\
    store w' = store w /\
    match send_message_result env (S (clock w)) to response with
    | None =>
        r = inr tt /\
        trace w' = trace w ++ [EvGenerate (Main.message_text u);
                               EvSend to response NoMarkup true]
    | Some e =>
        trace w' = trace w ++ [EvGenerate (Main.message_text u);
                               EvSend to response NoMarkup false;
                               EvSend to ("Xato yuz berdi: " +:+ exn_str e) NoMarkup ok2]
    end.
Proof.
  cbv zeta. destruct w as [s tr lg]. unfold clock in *. cbn [store trace] in *.
  cbn [str_in existsb] in Hfree. rewrite !orb_false_iff in Hfree.
  destruct Hfree as (F1 & F2 & F3 & F4 & F5 & _).
  unfold Main.handle_message. cbn [str_in existsb].
  rewrite F1, F2, F3, F4, F5. cbn [orb].
  unfold Main.get_ai_mode, Main.ai_reply, Main.reply_text. run_monad.
  unfold ai_mode_of in Hmode. rewrite Hmode. run_monad. rewrite Hanswer. run_monad.
  rewrite ?Nat.add_succ_r, ?Nat.add_0_r. cbn [length].
  rewrite ?Nat.add_succ_r, ?Nat.add_0_r.
  destruct (send_message_result env (S (length tr)) _ response) as [e|]; run_monad.
  - case_outcomes;
      (eexists _, _, _; split; [reflexivity|]; cbn [store trace];
       split; [done|]; rewrite <- !app_assoc; reflexivity).
  - eexists _, true, _. split; [reflexivity|]. cbn [store trace].
    split; [done|]. split; [done|]. by rewrite <- !app_assoc.
Qed.

Lemma ai_answer_is_relayed_verbatim_witness :
  exists r w',
    Main.handle_message Samples.main_cfg Samples.env_ok
      (Samples.main_update 1 "Salom" []) Samples.in_ai_mode = (r, w') /\
    store w' = store Samples.in_ai_mode /\
    trace w' = [EvGenerate "Salom"; EvSend (ChatId 1) "Javob: Salom" NoMarkup true].
Proof.
  destruct (ai_answer_is_relayed_verbatim Samples.main_cfg Samples.env_ok
              (Samples.main_update 1 "Salom" []) Samples.in_ai_mode "Javob: Salom"
              eq_refl eq_refl eq_refl) as (r & ok2 & w' & H & Hs & Ht).
  exists r, w'. split; [exact H|]. split; [exact Hs|]. exact (proj2 Ht).
Defined.

(** * Texts in main_bot_code.py *)

Lemma process_message_gate (cfg : MainBotCode.Config) (env : Env)
    (message : MainBotCode.Message) (w : World MainBotCode.App) :
  let uid := MainBotCode.id (MainBotCode.from_user message) in
  gate_passes env (clock w) (MainBotCode.REQUIRED_CHANNEL_ID cfg)
    (MainBotCode.REQUIRED_GROUP_ID cfg) uid = true ->
  exists lg,
    MainBotCode.process_message cfg env message w =
      try_except
        (let user_message := MainBotCode.text message in
         if str_in user_message MainBotCode.special_commands then ret tt
         else
           send_chat_action env (MainBotCode.chat_id message) "typing" ;;;
           response_text <~ generate_content env user_message ;;
           MainBotCode.answer env message response_text NoMarkup ;;;
           MainBotCode.save_conversation env uid user_message response_text)
        (fun e =>
           log_error ("Error processing message: " +:+ exn_str e) ;;;
           MainBotCode.answer env message MainBotCode.generic_error_text NoMarkup)
        (mkWorld (store (MainBotCode.save_user env (MainBotCode.from_user message) w).2)
           (trace w ++
            [EvGetChatMember (MainBotCode.REQUIRED_CHANNEL_ID cfg) uid;
             EvGetChatMember (MainBotCode.REQUIRED_GROUP_ID cfg) uid])
           lg).
Proof.
  cbv zeta. intros Hin.
  destruct (save_user_run env (MainBotCode.from_user message) w) as (ws & Hs & Hts & _).
  destruct (check_subscription_run cfg env
              (MainBotCode.id (MainBotCode.from_user message)) ws) as (wg & G & S & T).
  unfold clock in G, T. rewrite Hts in G, T. fold (clock w) in G, T.
  rewrite Hin in G. rewrite (gate_events_passed _ _ _ _ _ Hin) in T.
  unfold MainBotCode.process_message, bind at 1. rewrite Hs.
  unfold bind at 1. rewrite G. cbn [negb snd].
  destruct wg as [sg trg lgg]. cbn [store trace] in S, T. subst sg trg. eauto.
Qed.

(** X23: a text of a member that is no menu label is logged exactly when
    it was answered: after the typing action and the completion request
    succeed and the answer is delivered, one row with the sender, the text
    and the answer is appended to the conversation log; when the answer
    cannot be delivered nothing is logged and the fixed apology is
    attempted instead. *)
Theorem answered_text_is_logged
    (cfg : MainBotCode.Config) (env : Env) (message : MainBotCode.Message)
    (w : World MainBotCode.App) (response : string)
    (Hin : gate_passes env (clock w) (MainBotCode.REQUIRED_CHANNEL_ID cfg)
             (MainBotCode.REQUIRED_GROUP_ID cfg)
             (MainBotCode.id (MainBotCode.from_user message)) = true)
    (Hfree : str_in (MainBotCode.text message) MainBotCode.special_commands = false)
    (Htyping : chat_action_result env (S (S (clock w))) = None)
    (Hanswer : generate_content_result env (S (S (S (clock w)))) (MainBotCode.text message)
               = inr response) :
  let uid := MainBotCode.id (MainBotCode.from_user message) in
  let to := ChatId (MainBotCode.chat_id message) in
  let old := MainBotCode.conversations (store w) in
  let row :=
    {| MainBotCode.c_id := MainBotCode.next_conversation_id old;
       MainBotCode.c_user_id := uid;
       MainBotCode.c_message := MainBotCode.text message;
       MainBotCode.c_response := response;
       MainBotCode.c_timestamp :=
         strftime_now env (S (S (S (S (S (clock w)))))) "%Y-%m-%d %H:%M:%S" |} in
  let asked :=
    [EvGetChatMember (MainBotCode.REQUIRED_CHANNEL_ID cfg) uid;
     EvGetChatMember (MainBotCode.REQUIRED_GROUP_ID cfg) uid;
     EvChatAction (MainBotCode.chat_id message) "typing" true;
     EvGenerate (MainBotCode.text message)] in
  exists r ok2 w',
    MainBotCode.process_message cfg env message w = (r, w') /\
    match send_message_result env (S (S (S (S (clock w))))) to response with
    | None =>
        r = inr tt /\
        MainBotCode.conversations (store w') = old ++ [row] /\
        trace w' = trace w ++ asked ++ [EvSend to response NoMarkup true]
    | Some _ =>
        MainBotCode.conversations (store w') = old /\
        trace w' = trace w ++ asked ++
          [EvSend to response NoMarkup false;
           EvSend to MainBotCode.generic_error_text NoMarkup ok2]
    end.
Proof.
  cbv zeta. destruct (process_message_gate cfg env message w Hin) as [lgg ->]. cbv zeta.
  destruct (save_user_run env (MainBotCode.from_user message) w) as (ws & Hs & _ & Hcs & _).
  rewrite Hs. cbn [snd]. rewrite <- Hcs. clear Hs Hcs.
  rewrite Hfree. unfold MainBotCode.answer, MainBotCode.save_conversation.
  destruct w as [s tr lg], ws as [ss trs lgs]. unfold clock in *. cbn [store trace] in *.
  run_monad. cbn [length]. rewrite ?Nat.add_succ_r, ?Nat.add_0_r.
  rewrite Htyping. run_monad. cbn [length]. rewrite ?Nat.add_succ_r, ?Nat.add_0_r.
  rewrite Hanswer. run_monad. cbn [length]. rewrite ?Nat.add_succ_r, ?Nat.add_0_r.
  destruct (send_message_result env (S (S (S (S (length tr))))) _ response) as [e|];
    run_monad; cbn [length]; rewrite ?Nat.add_succ_r, ?Nat.add_0_r.
  - case_outcomes;
      (eexists _, _, _; split; [reflexivity|]; cbn [store trace];
       split; [done|]; rewrite <- !app_assoc; reflexivity).
  - eexists _, true, _. split; [reflexivity|]. cbn [store trace MainBotCode.conversations].
    split; [done|]. split; [done|]. by rewrite <- !app_assoc.
Qed.

Lemma answered_text_is_logged_witness :
  let w' := (MainBotCode.process_message Samples.bot_cfg Samples.env_ok
               (Samples.bot_message 1 "Salom") (Samples.bot_world [Samples.bot_user 1 0])).2 in
  map (fun c => (MainBotCode.c_user_id c, MainBotCode.c_message c, MainBotCode.c_response c))
    (MainBotCode.conversations (store w')) = [(1, "Salom", "Javob: Salom")].
Proof.
  destruct (answered_text_is_logged Samples.bot_cfg Samples.env_ok
              (Samples.bot_message 1 "Salom") (Samples.bot_world [Samples.bot_user 1 0])
              "Javob: Salom" eq_refl eq_refl eq_refl eq_refl)
    as (r & ok2 & w' & H & Hc).
  cbv zeta. rewrite H. cbn [snd].
  cbn [Samples.env_ok send_message_result] in Hc. destruct Hc as (_ & -> & _).
  reflexivity.
Defined.

(** X24: the text handler stays silent on the seven menu labels: from a
    member such a text only refreshes the sender's users row and asks the
    gate; no typing action, no completion request, no message and no
    conversation row follow. *)
Theorem menu_labels_are_left_to_their_handlers
    (cfg : MainBotCode.Config) (env : Env) (message : MainBotCode.Message)
    (w : World MainBotCode.App)
    (Hin : gate_passes env (clock w) (MainBotCode.REQUIRED_CHANNEL_ID cfg)
             (MainBotCode.REQUIRED_GROUP_ID cfg)
             (MainBotCode.id (MainBotCode.from_user message)) = true)
    (Hlabel : str_in (MainBotCode.text message) MainBotCode.special_commands = true) :
  let uid := MainBotCode.id (MainBotCode.from_user message) in
  exists lg,
    MainBotCode.process_message cfg env message w =
      (inr tt,
       mkWorld (store (MainBotCode.save_user env (MainBotCode.from_user message) w).2)
         (trace w ++
          [EvGetChatMember (MainBotCode.REQUIRED_CHANNEL_ID cfg) uid;
           EvGetChatMember (MainBotCode.REQUIRED_GROUP_ID cfg) uid])
         lg).
Proof.
  cbv zeta. destruct (process_message_gate cfg env message w Hin) as [lgg ->]. cbv zeta.
  rewrite Hlabel. run_monad. eauto.
Qed.

Lemma menu_labels_are_left_to_their_handlers_witness :
  let w' := (MainBotCode.process_message Samples.bot_cfg Samples.env_ok
               (Samples.bot_message 1 MainBotCode.label_website)
               (Samples.bot_world [Samples.bot_user 1 0])).2 in
  recipients (trace w') = [] /\ MainBotCode.conversations (store w') = [].
Proof.
  destruct (menu_labels_are_left_to_their_handlers Samples.bot_cfg Samples.env_ok
              (Samples.bot_message 1 MainBotCode.label_website)
              (Samples.bot_world [Samples.bot_user 1 0]) eq_refl eq_refl) as [lg H].
  cbv zeta in *. rewrite H. split; reflexivity.
Defined.

(** * The admin button *)

Lemma select_is_admin_as_text (env : Env) (uid : Z) (us : list MainBotCode.user_row) :
  MainBotCode.select_is_admin_text env (py_str uid) us = MainBotCode.select_is_admin uid us.
Proof.
  unfold MainBotCode.select_is_admin_text, MainBotCode.select_is_admin.
  do 2 f_equal. apply list_filter_iff. intros r.
  rewrite bot_key_of_str. apply Z.eqb_eq.
Qed.

(** X25: the keyboard shows the admin panel button to exactly the users
    whom the admin-only handlers admit: [get_main_keyboard] asks with the
    integer identifier and [admin_required] and [admin_panel] with its
    decimal text, and the three agree on every users table. *)
Theorem admin_button_matches_admin_rights
    (cfg : MainBotCode.Config) (env : Env)
    (func : MainBotCode.Message -> M MainBotCode.App unit)
    (message : MainBotCode.Message) (w : World MainBotCode.App) :
  let uid := MainBotCode.id (MainBotCode.from_user message) in
  let to := ChatId (MainBotCode.chat_id message) in
  exists shown : bool,
    MainBotCode.get_main_keyboard cfg uid w =
      (inr (ReplyKeyboard
              (if shown then [[MainBotCode.label_website]; [MainBotCode.label_admin_panel]]
               else [[MainBotCode.label_website]])), w) /\
    (if shown
     then MainBotCode.admin_required cfg env func message w = func message w
     else exists r ok,
            MainBotCode.admin_required cfg env func message w =
              (r, mkWorld (store w)
                    (trace w ++ [EvSend to "Bu funksiya faqat adminlar uchun." NoMarkup ok])
                    (logs w))) /\
    bodies_to to (drop (length (trace w)) (trace (MainBotCode.admin_panel cfg env message w).2))
    = [if shown then "Admin paneliga xush kelibsiz!" else "Siz admin emassiz."].
Proof.
  cbv zeta. destruct w as [s tr lg]. cbn [store trace logs].
  exists (MainBotCode.is_admin_check cfg (py_str (MainBotCode.id (MainBotCode.from_user message)))
            (MainBotCode.select_is_admin_text env
               (py_str (MainBotCode.id (MainBotCode.from_user message)))
               (MainBotCode.users s))).
  assert (forall body mk,
            bodies_to (ChatId (MainBotCode.chat_id message))
              (drop (length tr)
                 (trace (MainBotCode.answer env message body mk (mkWorld s tr lg)).2))
            = [body]) as Hsaid.
  { intros body mk. unfold MainBotCode.answer. rewrite send_message_run.
    cbn [snd trace]. rewrite drop_app_length. cbn. by rewrite bool_decide_eq_true_2. }
  destruct (MainBotCode.is_admin_check cfg _ _) eqn:E.
  - split; [|split].
    + unfold MainBotCode.get_main_keyboard. run_monad.
      by rewrite <- (select_is_admin_as_text env), E.
    + unfold MainBotCode.admin_required. run_monad. by rewrite E.
    + unfold MainBotCode.admin_panel.
      cbv beta iota zeta delta [bind get_store ret store]. rewrite E. apply Hsaid.
  - split; [|split].
    + unfold MainBotCode.get_main_keyboard. run_monad.
      by rewrite <- (select_is_admin_as_text env), E.
    + by apply (admin_required_rejects cfg env func message (mkWorld s tr lg)).
    + unfold MainBotCode.admin_panel.
      cbv beta iota zeta delta [bind get_store ret store]. rewrite E. apply Hsaid.
Qed.

(** * Identifiers typed with a leading zero *)

Lemma decimal_value_zero_str (z : Z) :
  0 <= z -> decimal_value (String "0" (py_str z)) = Some z.
Proof.
  intros Hz. destruct z as [|p|p]; [reflexivity| |lia].
  unfold decimal_value, py_str. cbn [Z.to_int NilZero.string_of_int].
  assert (NilZero.string_of_uint (Pos.to_uint p) = NilEmpty.string_of_uint (Pos.to_uint p))
    as ->.
  { pose proof (DecimalPos.Unsigned.to_uint_nonnil p). by destruct (Pos.to_uint p). }
  cbn [NilZero.int_of_string Ascii.eqb Bool.eqb NilZero.uint_of_string
       NilEmpty.uint_of_string].
  rewrite NilEmpty.usu. cbn [uint_of_char option_map fmap option_fmap].
  change (Z.of_int (Decimal.Pos (Decimal.D0 (Pos.to_uint p))))
    with (Z.of_int (Z.to_int (Z.pos p))).
  by rewrite DecimalZ.of_to.
Qed.

Lemma update_is_admin_same_key (env : Env) (v : Z) (t1 t2 : string)
    (us : list MainBotCode.user_row) :
  (forall k, sql_key_eq_text env k t1 = sql_key_eq_text env k t2) ->
  MainBotCode.update_is_admin env v t1 us = MainBotCode.update_is_admin env v t2 us.
Proof.
  intros Hk. unfold MainBotCode.update_is_admin. apply map_ext. intros r. by rewrite Hk.
Qed.

Lemma select_is_admin_demoted (env : Env) (x : Z) (us : list MainBotCode.user_row) :
  MainBotCode.select_is_admin_text env (py_str x)
    (MainBotCode.update_is_admin env 0 (py_str x) us)
  = (fun _ => 0) <$> MainBotCode.select_is_admin_text env (py_str x) us.
Proof.
  unfold MainBotCode.select_is_admin_text, MainBotCode.update_is_admin.
  induction us as [|r rs IH]; [done|]. cbn [map].
  destruct (sql_key_eq_text env (MainBotCode.u_user_id r) (py_str x)) eqn:E.
  - rewrite !filter_cons_True by (cbn; done). done.
  - rewrite !filter_cons_False by (cbn; by rewrite E). apply IH.
Qed.

(** X26: the two guards of [remove_admin_process] compare texts, while
    the UPDATE that follows compares the INTEGER key with the text as a
    number.  So an admin by flag who types the own identifier with a
    leading zero passes both guards, loses the flag like any other target
    and is no longer admitted by [admin_required]. *)
Theorem zero_padded_id_passes_the_self_guard
    (cfg : MainBotCode.Config) (env : Env) (message : MainBotCode.Message)
    (w : World MainBotCode.App)
    (Hid : 0 <= MainBotCode.id (MainBotCode.from_user message))
    (Hflag : MainBotCode.select_is_admin_text env
               (py_str (MainBotCode.id (MainBotCode.from_user message)))
               (MainBotCode.users (store w)) = Some 1)
    (Hlist : str_in (py_str (MainBotCode.id (MainBotCode.from_user message)))
               (MainBotCode.ADMIN_IDS cfg) = false)
    (Hpadded : py_strip (MainBotCode.text message) =
               String "0" (py_str (MainBotCode.id (MainBotCode.from_user message))))
    (Hlist0 : str_in (py_strip (MainBotCode.text message)) (MainBotCode.ADMIN_IDS cfg) = false) :
  let requester := py_str (MainBotCode.id (MainBotCode.from_user message)) in
  let us' := MainBotCode.users (store (MainBotCode.remove_admin_process cfg env message w).2) in
  us' = MainBotCode.update_is_admin env 0 requester (MainBotCode.users (store w)) /\
  MainBotCode.select_is_admin_text env requester us' = Some 0 /\
  MainBotCode.is_admin_check cfg requester (MainBotCode.select_is_admin_text env requester us')
  = false.
Proof.
  cbv zeta.
  set (uid := MainBotCode.id (MainBotCode.from_user message)) in *.
  assert (MainBotCode.users (store (MainBotCode.remove_admin_process cfg env message w).2)
          = MainBotCode.update_is_admin env 0 (py_str uid) (MainBotCode.users (store w))) as ->.
  { rewrite remove_admin_process_store.
    2:{ cbv zeta. fold uid. unfold MainBotCode.is_admin_check. rewrite Hflag.
        by rewrite orb_true_r. }
    cbv zeta. fold uid. rewrite Hlist0, Hpadded, orb_false_r.
    assert (String.eqb (py_str uid) (String "0" (py_str uid)) = false) as ->.
    { apply String.eqb_neq. intros Heq.
      apply (f_equal String.length) in Heq. cbn in Heq. lia. }
    apply update_is_admin_same_key. intros k.
    unfold sql_key_eq_text, sql_integer_of_text.
    by rewrite decimal_value_zero_str, decimal_value_str. }
  split; [done|]. rewrite select_is_admin_demoted, Hflag. split; [done|].
  unfold MainBotCode.is_admin_check. by rewrite Hlist.
Qed.

Lemma zero_padded_id_passes_the_self_guard_witness :
  let w0 := Samples.bot_world [Samples.bot_user 5 1; Samples.bot_user 100 0] in
  map MainBotCode.u_is_admin
    (MainBotCode.users
       (store (MainBotCode.remove_admin_process Samples.bot_cfg Samples.env_ok
                 (Samples.bot_message 5 "05") w0).2)) = [0; 0].
Proof.
  cbv zeta.
  rewrite (proj1 (zero_padded_id_passes_the_self_guard Samples.bot_cfg Samples.env_ok
                    (Samples.bot_message 5 "05")
                    (Samples.bot_world [Samples.bot_user 5 1; Samples.bot_user 100 0])
                    ltac:(cbn; lia) eq_refl eq_refl eq_refl eq_refl)).
  reflexivity.
Defined.

(** * Rejecting what is not there *)

(** X27: an acknowledged reject action on an identifier that no
    submission has changes nothing in the store and still edits the
    moderation message to say that the submission was rejected (the
    approve action raises in the same situation). *)
Theorem reject_of_unknown_submission_reports_success
    (cfg : Main.Config) (env : Env) (moderator : Z) (shown : string) (mid : Z)
    (w : World Main.App)
    (Hack : answer_result env (clock w) = None)
    (Habsent : Main.select_text mid (Main.db (store w)) = None) :
  let q := {| Main.cq_data := "reject_" +:+ py_str mid; Main.cq_from_user_id := moderator;
              Main.cq_message_text := shown |} in
  exists r ok,
    Main.button_callback cfg env q w =
      (r, mkWorld (store w)
            (trace w ++ [EvAnswer true; EvEdit "Motivatsiya bekor qilindi." NoMarkup ok])
            (logs w)).
Proof.
  cbn zeta. destruct w as [s tr lg]. unfold clock in Hack; cbn [store trace logs] in *.
  unfold Main.button_callback. cbn [Main.cq_data].
  change (("reject_" +:+ py_str mid =? "check_membership")%string) with false.
  change (String.prefix "approve_" ("reject_" +:+ py_str mid)) with false.
  change (String.prefix "reject_" ("reject_" +:+ py_str mid))
    with (String.prefix "" (py_str mid)).
  replace (String.prefix "" (py_str mid)) with true by (by destruct (py_str mid)).
  unfold Main.reject.
  change ("reject_" +:+ py_str mid) with ("reject" +:+ String "_" (py_str mid)).
  rewrite split_action by reflexivity.
  run_monad. rewrite Hack. run_monad. cbn [lookup list_lookup].
  rewrite py_int_str. unfold Main.connect, Main.commit. run_monad.
  rewrite update_status_absent by done. rewrite set_db_same.
  rewrite bool_decide_eq_true_2 by done.
  destruct (edit_text_result env _); rewrite <- app_assoc; eauto.
Qed.

Lemma reject_of_unknown_submission_reports_success_witness :
  exists r ok,
    Main.button_callback Samples.main_cfg Samples.env_ok
      {| Main.cq_data := "reject_" +:+ py_str 7; Main.cq_from_user_id := 100;
         Main.cq_message_text := "Yangi motivatsiya" |} Samples.three_users =
      (r, mkWorld (store Samples.three_users)
            [EvAnswer true; EvEdit "Motivatsiya bekor qilindi." NoMarkup ok] []).
Proof.
  apply (reject_of_unknown_submission_reports_success Samples.main_cfg Samples.env_ok 100
           "Yangi motivatsiya" 7 Samples.three_users); reflexivity.
Defined.

(** * Schedule dates *)

Lemma main_write_schedule_dates (a a' : Main.App) :
  main_write a a' ->
  exists k,
    map Main.m_schedule_date (Main.motivations (Main.db a')) =
      map Main.m_schedule_date (Main.motivations (Main.db a)) ++ replicate k None.
Proof.
  destruct 1 as [r a|uid a|user a|body uid a|st mid a]; cbn.
  - exists 0%nat. by rewrite app_nil_r.
  - exists 0%nat. by rewrite app_nil_r.
  - exists 0%nat. by rewrite app_nil_r.
  - exists 1%nat. by rewrite map_app.
  - exists 0%nat. by rewrite map_update_status, app_nil_r.
Qed.

(** X28: no update served by main.py ever writes a schedule date: the
    schedule dates of the submissions there were stay as they are and
    every submission added has none.  The only statement that would write
    one is in the schedule branch, which raises before it. *)
Theorem schedule_dates_are_never_written
    (cfg : Main.Config) (env : Env) (ins : list main_incoming) (w : World Main.App) :
  exists k,
    map Main.m_schedule_date
      (Main.motivations (Main.db (store (main_serve cfg env ins w)))) =
    map Main.m_schedule_date (Main.motivations (Main.db (store w))) ++ replicate k None.
Proof.
  apply (rtc_main_write_invariant
           (fun a => exists k,
              map Main.m_schedule_date (Main.motivations (Main.db a)) =
              map Main.m_schedule_date (Main.motivations (Main.db (store w)))
                ++ replicate k None)
           (store w) _); [|apply main_serve_rtc|].
  - intros x y Hxy [k Hx]. apply main_write_schedule_dates in Hxy as [k' ->].
    exists (k + k')%nat. by rewrite Hx, <- app_assoc, replicate_add.
  - exists 0%nat. by rewrite app_nil_r.
Qed.

(** * Who receives an admin broadcast *)

Lemma bot_write_ids_grow (env : Env) (may : bool) (a a' : MainBotCode.App) (x : Z) :
  bot_write env may a a' ->
  x ∈ map MainBotCode.u_user_id (MainBotCode.users a) ->
  x ∈ map MainBotCode.u_user_id (MainBotCode.users a').
Proof.
  destruct 1 as [r t a Hr|v target a Hm|c a|f a]; cbn; auto.
  - rewrite map_update_last_active by done.
    destruct (insert_or_ignore_cases r (MainBotCode.users a)) as [[_ ->]|[_ ->]]; [done|].
    intros (y & -> & Hy)%list_elem_of_fmap. apply list_elem_of_fmap. exists y.
    split; [done|]. apply elem_of_insert_by_key. by right.
  - by rewrite map_update_is_admin.
Qed.

Lemma process_message_after_save (cfg : MainBotCode.Config) (env : Env)
    (message : MainBotCode.Message) (w : World MainBotCode.App) :
  rtc (bot_write env false)
    (store (MainBotCode.save_user env (MainBotCode.from_user message) w).2)
    (store (MainBotCode.process_message cfg env message w).2).
Proof.
  destruct (save_user_run env (MainBotCode.from_user message) w) as (ws & Hs & _).
  destruct (check_subscription_run cfg env
              (MainBotCode.id (MainBotCode.from_user message)) ws) as (wg & G & S & _).
  unfold MainBotCode.process_message, bind at 1. rewrite Hs. unfold bind at 1. rewrite G.
  cbn [snd]. rewrite <- S. clear.
  destruct wg as [s tr lg].
  unfold MainBotCode.answer, MainBotCode.save_conversation.
  destruct (gate_passes _ _ _ _ _); cbn [negb].
  - destruct (str_in _ _); run_monad; [close_bot_writes|].
    case_outcomes; close_bot_writes.
  - run_monad. case_outcomes; close_bot_writes.
Qed.

Lemma rtc_bot_write_ids_grow (env : Env) (may : bool) (a a' : MainBotCode.App) (x : Z) :
  rtc (bot_write env may) a a' ->
  x ∈ map MainBotCode.u_user_id (MainBotCode.users a) ->
  x ∈ map MainBotCode.u_user_id (MainBotCode.users a').
Proof. induction 1; eauto using bot_write_ids_grow. Qed.

Lemma bot_broadcast_run (cfg : MainBotCode.Config) (env : Env)
    (message : MainBotCode.Message) (w : World MainBotCode.App) :
  (let user_id := py_str (MainBotCode.id (MainBotCode.from_user message)) in
   MainBotCode.is_admin_check cfg user_id
     (MainBotCode.select_is_admin_text env user_id (MainBotCode.users (store w))) = true) ->
  send_message_result env (clock w) (ChatId (MainBotCode.chat_id message))
    "Xabar yuborish boshlandi..." = None ->
  let to := ChatId (MainBotCode.chat_id message) in
  let body := MainBotCode.admin_broadcast_header +:+ nl +:+ nl +:+ MainBotCode.text message in
  let sends := send_events env (S (clock w))
                 (map MainBotCode.u_user_id (MainBotCode.users (store w))) body NoMarkup in
  exists r report ok w',
    MainBotCode.broadcast_message cfg env message w = (r, w') /\
    trace w' =
      trace w ++ [EvSend to "Xabar yuborish boshlandi..." NoMarkup true] ++ sends ++
      [EvSend to report NoMarkup ok].
Proof.
  cbn zeta. intros Hadmin Hstarted.
  unfold MainBotCode.broadcast_message, MainBotCode.admin_required.
  destruct w as [s tr lg]. unfold clock in Hstarted. cbn [trace store] in *.
  cbv beta iota zeta delta [bind get_store ret store].
  rewrite Hadmin. unfold MainBotCode.answer. rewrite send_message_run.
  unfold clock; cbn [trace store logs]. rewrite Hstarted. clear Hstarted.
  rewrite bool_decide_eq_true_2 by done.
  unfold MainBotCode.broadcast_loop.
  edestruct (broadcast_loop_run env (map MainBotCode.u_user_id (MainBotCode.users s))
               (MainBotCode.text message) 0 0) as [lg' ->].
  unfold clock; cbn [trace store logs]. rewrite length_app; cbn [length].
  rewrite Nat.add_1_r. rewrite send_message_run. cbn [store trace logs].
  destruct (send_message_result env _ _ _) as [e|];
    (eexists _, _, _, _; split; [reflexivity|]; cbn [trace]; by rewrite <- !app_assoc).
Qed.

(** X29: main_bot_code.py has no way out of the admin broadcasts: once a
    user has written to the bot, joined or not, then whatever updates
    are served afterwards (/stop among them), a broadcast of an admin of
    ADMIN_IDS is addressed to that user. *)
Theorem bot_broadcast_has_no_opt_out
    (cfg : MainBotCode.Config) (env : Env) (m b : MainBotCode.Message)
    (ins : list bot_incoming) (w : World MainBotCode.App)
    (Hadmin : str_in (py_str (MainBotCode.id (MainBotCode.from_user b)))
                (MainBotCode.ADMIN_IDS cfg) = true)
    (Hstarted : forall t, send_message_result env t (ChatId (MainBotCode.chat_id b))
                            "Xabar yuborish boshlandi..." = None) :
  let w1 := bot_serve cfg env ins (MainBotCode.process_message cfg env m w).2 in
  let w2 := (MainBotCode.broadcast_message cfg env b w1).2 in
  ChatId (MainBotCode.id (MainBotCode.from_user m))
    ∈ recipients (drop (S (length (trace w1))) (trace w2)).
Proof.
  cbv zeta.
  set (w1 := bot_serve cfg env ins (MainBotCode.process_message cfg env m w).2).
  assert (MainBotCode.id (MainBotCode.from_user m)
            ∈ map MainBotCode.u_user_id (MainBotCode.users (store w1))) as Hreg.
  { eapply rtc_bot_write_ids_grow; [apply bot_serve_rtc|].
    eapply rtc_bot_write_ids_grow; [apply process_message_after_save|].
    apply save_user_registers. }
  destruct (bot_broadcast_run cfg env b w1) as (r & report & ok & w2 & H & Ht).
  { cbv zeta. unfold MainBotCode.is_admin_check. by rewrite Hadmin. }
  { apply Hstarted. }
  rewrite H. cbn [snd]. rewrite Ht, (app_assoc (trace w1) [_]).
  rewrite drop_app_length' by (rewrite length_app; cbn [length]; lia).
  rewrite recipients_app, send_events_recipients.
  apply elem_of_app. left. apply list_elem_of_fmap. eauto.
Qed.

Lemma bot_broadcast_has_no_opt_out_witness :
  let w1 := bot_serve Samples.bot_cfg Samples.env_outsider
              [OnStopCommand (Samples.bot_message 7 "/stop")]
              (MainBotCode.process_message Samples.bot_cfg Samples.env_outsider
                 (Samples.bot_message 7 "Salom") (Samples.bot_world [])).2 in
  let w2 := (MainBotCode.broadcast_message Samples.bot_cfg Samples.env_outsider
               (Samples.bot_message 100 "Hello") w1).2 in
  ChatId 7 ∈ recipients (drop (S (length (trace w1))) (trace w2)).
Proof.
  apply (bot_broadcast_has_no_opt_out Samples.bot_cfg Samples.env_outsider
           (Samples.bot_message 7 "Salom") (Samples.bot_message 100 "Hello")
           [OnStopCommand (Samples.bot_message 7 "/stop")] (Samples.bot_world []));
    [reflexivity | intros t; reflexivity].
Defined.
